(** * Sefaria API client: library tree, lookups, topic and text helpers

    A shallow embedding of the Python sources of the repository
    (tree_of_life.py, 7-library-tree/make_tree.py, endpoints3+4+5demo.py,
    3-get-texts/neat_text_fetch.py, 5-get-topics/fetch_topics.py, main.py)
    together with the properties of the specification that they decide.

    Python values are modelled by the type [value]; a Python [str] is the
    list of its Unicode code points, so that [len], iteration and
    comparison behave as in the source.  A call that may raise returns a
    [result]. *)

From Stdlib Require Import String Ascii.
From stdpp Require Import base tactics option list numbers gmap.

Open Scope N_scope.

(** ** Strings *)

(** A Python [str]: the sequence of its code points. *)
Abbreviation str := (list N).

Fixpoint utf8_decode (bs : list N) : str :=
  match bs with
  | [] => []
  | b :: r =>
      if b <? 128 then b :: utf8_decode r
      else if b <? 224 then
        match r with
        | b1 :: r1 => ((b - 192) * 64 + (b1 - 128)) :: utf8_decode r1
        | _ => []
        end
      else if b <? 240 then
        match r with
        | b1 :: b2 :: r2 =>
            ((b - 224) * 4096 + (b1 - 128) * 64 + (b2 - 128)) :: utf8_decode r2
        | _ => []
        end
      else
        match r with
        | b1 :: b2 :: b3 :: r3 =>
            ((b - 240) * 262144 + (b1 - 128) * 4096 + (b2 - 128) * 64 + (b3 - 128))
              :: utf8_decode r3
        | _ => []
        end
  end.

(** [u "..."] is the Python string written by the (UTF-8) literal. *)
Definition u (s : string) : str :=
  utf8_decode (map N_of_ascii (list_ascii_of_string s)).

(** [needle in hay] for two strings. *)
Fixpoint is_prefix (p s : str) : bool :=
  match p, s with
  | [], _ => true
  | a :: p', b :: s' => (a =? b) && is_prefix p' s'
  | _ :: _, [] => false
  end.

Fixpoint substring (needle hay : str) : bool :=
  is_prefix needle hay ||
  match hay with
  | [] => false
  | _ :: hay' => substring needle hay'
  end.

(** ** Python values *)

#[local] Set Warnings "-register-all".

Inductive value : Type :=
| VNone
| VBool (b : bool)
| VInt (z : Z)
| VStr (s : str)
| VList (l : list value)
| VDict (d : list (value * value)).

(** A [dict] is kept as the list of its items in insertion order; the
    operations below keep the keys pairwise different.  Numbers are the
    integers: no function of the sources computes with a number. *)
Abbreviation items := (list (value * value)).

Section value_induction.
Variable P : value → Prop.
Hypothesis HNone : P VNone.
Hypothesis HBool : ∀ b, P (VBool b).
Hypothesis HInt : ∀ z, P (VInt z).
Hypothesis HStr : ∀ s, P (VStr s).
Hypothesis HList : ∀ l, Forall P l → P (VList l).
Hypothesis HDict : ∀ d, Forall (λ kv, P kv.1 ∧ P kv.2) d → P (VDict d).

Fixpoint value_rect_nested (v : value) : P v :=
    match v with
    | VNone => HNone
    | VBool b => HBool b
    | VInt z => HInt z
    | VStr s => HStr s
    | VList l =>
        HList l ((fix go (l : list value) : Forall P l :=
                    match l with
                    | [] => Forall_nil_2 _
                    | x :: l' => Forall_cons_2 _ _ _ (value_rect_nested x) (go l')
                    end) l)
    | VDict d =>
        HDict d ((fix go (d : items) : Forall (λ kv, P kv.1 ∧ P kv.2) d :=
                    match d with
                    | [] => Forall_nil_2 _
                    | (k, x) :: d' =>
                        Forall_cons_2 (λ kv, P kv.1 ∧ P kv.2) (k, x) d'
                          (conj (value_rect_nested k) (value_rect_nested x)) (go d')
                    end) d)
    end.
End value_induction.

(** Truth value of an object ([if x:], [x or y], [not x]). *)
Definition truthy (v : value) : bool :=
  match v with
  | VNone => false
  | VBool b => b
  | VInt z => negb (z =? 0)%Z
  | VStr s => match s with [] => false | _ => true end
  | VList l => match l with [] => false | _ => true end
  | VDict d => match d with [] => false | _ => true end
  end.

Definition py_or (a b : value) : value := if truthy a then a else b.

(** [a == b].  [True == 1] and [False == 0] hold in Python; two dicts are
    equal when they have the same items, in any order. *)
Definition int_of_bool (b : bool) : Z := if b then 1%Z else 0%Z.

Fixpoint py_eq (a b : value) {struct a} : bool :=
  match a, b with
  | VNone, VNone => true
  | VBool x, VBool y => bool_decide (x = y)
  | VBool x, VInt y => (int_of_bool x =? y)%Z
  | VInt x, VBool y => (x =? int_of_bool y)%Z
  | VInt x, VInt y => (x =? y)%Z
  | VStr x, VStr y => bool_decide (x = y)
  | VList xs, VList ys =>
      (fix go (xs ys : list value) {struct xs} : bool :=
         match xs, ys with
         | [], [] => true
         | x :: xs', y :: ys' => py_eq x y && go xs' ys'
         | _, _ => false
         end) xs ys
  | VDict xs, VDict ys =>
      (length xs =? length ys)%nat &&
      (fix all (xs : items) : bool :=
         match xs with
         | [] => true
         | (k, x) :: xs' =>
             (fix find (ys : items) : bool :=
                match ys with
                | [] => false
                | (k', y) :: ys' => if py_eq k k' then py_eq x y else find ys'
                end) ys && all xs'
         end) xs
  | _, _ => false
  end.

(** Objects that can be dict keys or set members. *)
Definition hashable (v : value) : bool :=
  match v with
  | VList _ | VDict _ => false
  | _ => true
  end.

Fixpoint dict_get {A} (d : list (value * A)) (k : value) : option A :=
  match d with
  | [] => None
  | (k', v) :: d' => if py_eq k' k then Some v else dict_get d' k
  end.

Definition dict_has {A} (d : list (value * A)) (k : value) : bool :=
  match dict_get d k with Some _ => true | None => false end.

(** [d[k] = v]: overwrite in place, or append a new item. *)
Fixpoint dict_set {A} (d : list (value * A)) (k : value) (v : A) : list (value * A) :=
  match d with
  | [] => [(k, v)]
  | (k', v') :: d' =>
      if py_eq k' k then (k', v) :: d' else (k', v') :: dict_set d' k v
  end.

(** ** Exceptions *)

Inductive exn : Type :=
| TypeError
| AttributeError
| KeyError
| ValueError
| IndexError
| JSONDecodeError
| RequestException (url : str)  (* requests: connection error, timeout *)
| HTTPError (url : str)         (* requests: raise_for_status; httpx: any *)
| HTTPException (status : Z) (detail : str). (* fastapi *)

Inductive result (A : Type) : Type :=
| Ok (a : A)
| Raise (e : exn).
Arguments Ok {A} a.
Arguments Raise {A} e.

#[global] Instance result_ret : MRet result := λ A a, Ok a.
#[global] Instance result_bind : MBind result := λ A B f m,
  match m with
  | Ok a => f a
  | Raise e => Raise e
  end.

(** [k in obj] for a string [k]. *)
Definition py_in (k : str) (obj : value) : result bool :=
  match obj with
  | VDict d => Ok (dict_has d (VStr k))
  | VList l => Ok (existsb (py_eq (VStr k)) l)
  | VStr s => Ok (substring k s)
  | _ => Raise TypeError
  end.

(** [obj[k]] for a string [k]. *)
Definition py_getitem (obj : value) (k : str) : result value :=
  match obj with
  | VDict d => match dict_get d (VStr k) with Some v => Ok v | None => Raise KeyError end
  | _ => Raise TypeError
  end.

(** [d.get(k, default)] on a dict. *)
Definition dict_get_default (d : items) (k : str) (default : value) : value :=
  match dict_get d (VStr k) with Some v => v | None => default end.

(** [obj.get(k, default)]; only dicts have the method. *)
Definition py_get (obj : value) (k : str) (default : value) : result value :=
  match obj with
  | VDict d => Ok (dict_get_default d k default)
  | _ => Raise AttributeError
  end.

(** [for x in obj]: the elements of a list, the keys of a dict, the
    one-character strings of a str. *)
Definition py_iter (obj : value) : result (list value) :=
  match obj with
  | VList l => Ok l
  | VDict d => Ok (map fst d)
  | VStr s => Ok (map (λ c, VStr [c]) s)
  | _ => Raise TypeError
  end.

(** A loop that calls [f] on each element in turn and appends the results
    that are not [None]; the first exception ends it. *)
Fixpoint collect {A B} (f : A → result (option B)) (xs : list A) : result (list B) :=
  match xs with
  | [] => Ok []
  | x :: xs' =>
      n ← f x;
      ns ← collect f xs';
      Ok (match n with Some y => y :: ns | None => ns end)
  end.

(** Same, for a loop body that extends a shared list. *)
Fixpoint gather {A B} (f : A → result (list B)) (xs : list A) : result (list B) :=
  match xs with
  | [] => Ok []
  | x :: xs' =>
      ys ← f x;
      zs ← gather f xs';
      Ok (ys ++ zs)
  end.

(** * tree_of_life.py *)

Module TreeOfLife.

Inductive node_type : Type := root | category | book.

#[global] Instance node_type_eq_dec : EqDecision node_type.
Proof. solve_decision. Defined.

(** [TreeNode]: the dict with keys title, heTitle, type, path, children. *)
Inductive TreeNode : Type :=
  mkTreeNode (title heTitle : value) (type : node_type) (path : list value)
             (children : list TreeNode).

Definition title (n : TreeNode) : value := let 'mkTreeNode t _ _ _ _ := n in t.
Definition heTitle (n : TreeNode) : value := let 'mkTreeNode _ h _ _ _ := n in h.
Definition type (n : TreeNode) : node_type := let 'mkTreeNode _ _ ty _ _ := n in ty.
Definition path (n : TreeNode) : list value := let 'mkTreeNode _ _ _ p _ := n in p.
Definition children (n : TreeNode) : list TreeNode := let 'mkTreeNode _ _ _ _ c := n in c.

Definition _make_category_node (title he_title : value) (path : list value)
    (children : list TreeNode) : TreeNode :=
  mkTreeNode title he_title category path children.

Definition _make_book_node (title he_title : value) (path : list value) : TreeNode :=
  mkTreeNode title he_title book path [].

(** The two membership tests and the subscript of [_normalize_node] on a
    [raw] that is a str or a list: [raw["category"]] then raises. *)
Definition _normalize_other (raw : value) : result (option TreeNode) :=
  is_cat ← py_in (u "category") raw;
  if is_cat : bool then Raise TypeError
  else
    is_book ← py_in (u "title") raw;
    if is_book : bool then Raise TypeError else Ok None.

(** The path of a book node. *)
Definition book_path (categories : value) (parent_path : list value) (title : value)
    : list value :=
  match categories with
  | VList (c :: cs) => c :: cs
  | _ => parent_path ++ [title]
  end.

Fixpoint _normalize_node (raw : value) (parent_path : list value) {struct raw}
    : result (option TreeNode) :=
  match raw with
  | VDict d =>
      if dict_has d (VStr (u "category")) then
        let title := dict_get_default d (u "category") VNone in
        let he_title := dict_get_default d (u "heCategory") VNone in
        let path := parent_path ++ [title] in
        children ←
          (fix contents (es : items) : result (list TreeNode) :=
             match es with
             | [] => Ok []
             | (k, v) :: es' =>
                 if py_eq k (VStr (u "contents")) then
                   if truthy v then
                     match v with
                     | VList l => collect (λ child_raw, _normalize_node child_raw path) l
                     | VDict d' =>
                         (fix each (d' : items) : result (list TreeNode) :=
                            match d' with
                            | [] => Ok []
                            | (child_raw, _) :: r =>
                                child_node ← _normalize_node child_raw path;
                                rest ← each r;
                                Ok (match child_node with
                                    | Some n => n :: rest
                                    | None => rest
                                    end)
                            end) d'
                     | VStr s => collect (λ c, _normalize_other (VStr [c])) s
                     | _ => Raise TypeError
                     end
                   else Ok []
                 else contents es'
             end) d;
        Ok (Some (_make_category_node title he_title path children))
      else if dict_has d (VStr (u "title")) then
        let title := dict_get_default d (u "title") VNone in
        let he_title := dict_get_default d (u "heTitle") VNone in
        let categories := dict_get_default d (u "categories") VNone in
        Ok (Some (_make_book_node title he_title (book_path categories parent_path title)))
      else Ok None
  | _ => _normalize_other raw
  end.

(** [fetch] stands for [fetch_full_library_index()], the cached download
    that is used when no index is passed. *)
Definition build_library_tree (fetch : result value) (index_data : value)
    : result TreeNode :=
  index_data ← match index_data with VNone => fetch | _ => Ok index_data end;
  match index_data with
  | VList l =>
      children ← collect (λ raw, _normalize_node raw []) l;
      Ok (mkTreeNode (VStr (u "root")) VNone root [] children)
  | _ => Raise ValueError
  end.

(** A record of the flat book list. *)
Record FlatBook : Type := mkFlatBook {
  fb_title : value;
  fb_heTitle : value;
  fb_path : list value
}.

Fixpoint walk (node : TreeNode) : list FlatBook :=
  match node with
  | mkTreeNode t h ty p cs =>
      (if decide (ty = book) then [mkFlatBook t h p] else [])
      ++ (fix each (cs : list TreeNode) : list FlatBook :=
            match cs with
            | [] => []
            | child :: cs' => walk child ++ each cs'
            end) cs
  end.

Definition build_flat_book_list (tree : TreeNode) : list FlatBook := walk tree.

(** [lookup[key] = b]; a key that cannot be hashed raises. *)
Definition store {A} (lookup : list (value * A)) (key : value) (b : A)
    : result (list (value * A)) :=
  if hashable key then Ok (dict_set lookup key b) else Raise TypeError.

Fixpoint title_lookup_loop (flat_books : list FlatBook) (lookup : list (value * FlatBook))
    : result (list (value * FlatBook)) :=
  match flat_books with
  | [] => Ok lookup
  | b :: rest =>
      let title := fb_title b in
      let he_title := fb_heTitle b in
      lookup ← (if truthy title then store lookup title b else Ok lookup);
      lookup ← (if truthy he_title then store lookup he_title b else Ok lookup);
      title_lookup_loop rest lookup
  end.

Definition build_title_lookup (flat_books : list FlatBook)
    : result (list (value * FlatBook)) :=
  title_lookup_loop flat_books [].

(** [count_nodes]: (root and category nodes, book nodes). *)
Fixpoint count_nodes (node : TreeNode) : nat * nat :=
  match node with
  | mkTreeNode _ _ ty _ cs =>
      let here := match ty with book => (0, 1) | _ => (1, 0) end%nat in
      (fix each (cs : list TreeNode) (acc : nat * nat) : nat * nat :=
         match cs with
         | [] => acc
         | child :: cs' =>
             let '(c, b) := count_nodes child in
             each cs' (acc.1 + c, acc.2 + b)%nat
         end) cs here
  end.

End TreeOfLife.

(** * 7-library-tree/make_tree.py *)

Module MakeTree.

(** A book of the flat list: the dict with keys title, heTitle, categories. *)
Record Book : Type := mkBook {
  title : value;
  heTitle : value;
  categories : list value
}.

#[global] Instance Book_inhabited : Inhabited Book := populate (mkBook VNone VNone []).

(** The tests and subscripts of the loop body of [_walk] on a [node] that
    is a str or a list: the subscript raises when its test holds. *)
Definition _walk_other (node : value) : result (list Book) :=
  has_cat ← py_in (u "category") node;
  has_contents ← (if has_cat : bool then py_in (u "contents") node else Ok false);
  if has_contents : bool then Raise TypeError
  else
    has_title ← py_in (u "title") node;
    if has_title : bool then Raise TypeError else Ok [].

(** One turn of the loop of [_walk], on [node]. *)
Fixpoint _walk_node (node : value) (trail : list value) {struct node}
    : result (list Book) :=
  match node with
  | VDict d =>
      if dict_has d (VStr (u "category")) && dict_has d (VStr (u "contents")) then
        let new_trail := trail ++ [dict_get_default d (u "category") VNone] in
        (fix contents (es : items) : result (list Book) :=
           match es with
           | [] => Ok []
           | (k, v) :: es' =>
               if py_eq k (VStr (u "contents")) then
                 match v with
                 | VList l => gather (λ n, _walk_node n new_trail) l
                 | VDict d' =>
                     (fix each (d' : items) : result (list Book) :=
                        match d' with
                        | [] => Ok []
                        | (n, _) :: r =>
                            bs ← _walk_node n new_trail;
                            rest ← each r;
                            Ok (bs ++ rest)
                        end) d'
                 | VStr s => gather (λ c, _walk_other (VStr [c])) s
                 | _ => Raise TypeError
                 end
               else contents es'
           end) d
      else if dict_has d (VStr (u "title")) then
        Ok [mkBook (dict_get_default d (u "title") VNone)
                   (dict_get_default d (u "heTitle") VNone)
                   trail]
      else Ok []
  | _ => _walk_other node
  end.

Definition _walk (node_list : value) (trail : list value) : result (list Book) :=
  nodes ← py_iter node_list;
  gather (λ node, _walk_node node trail) nodes.

Definition flatten_library_tree (tree : value) : result (list Book) := _walk tree [].

Section lookup.

(** [lower] stands for [str.lower]. *)
Variable lower : str → str.

Definition build_book_lookup (books : list Book) : gmap str Book :=
  foldl (λ lookup b,
           let lookup := match title b with
                         | VStr t => <[lower t := b]> lookup
                         | _ => lookup
                         end in
           match heTitle b with
           | VStr h => <[h := b]> lookup
           | _ => lookup
           end)
        ∅ books.

End lookup.

End MakeTree.

(** [str.lower] on the ASCII letters; code points outside ASCII are kept,
    as Python keeps those of scripts without case, such as Hebrew. *)
Definition ascii_lower (s : str) : str :=
  map (λ c, if (65 <=? c) && (c <=? 90) then c + 32 else c) s.

(** * The standard library calls of the text cleaner *)

Definition AMP : N := 38.   (* & *)
Definition LT : N := 60.    (* < *)
Definition GT : N := 62.    (* > *)
Definition SEMI : N := 59.  (* ; *)
Definition HASH : N := 35.  (* # *)
Definition SPACE : N := 32.
Definition NBSP : N := 160. (* U+00A0 *)

Fixpoint take_while (p : N → bool) (s : str) : str :=
  match s with
  | c :: r => if p c then c :: take_while p r else []
  | [] => []
  end.

Section html.

(** [html5] stands for the table [html.entities.html5] of named character
    references (keys without the ampersand, most with the semicolon). *)
Variable html5 : list (str * str).

Fixpoint html5_get (tbl : list (str * str)) (name : str) : option str :=
  match tbl with
  | [] => None
  | (k, v) :: tbl' => if bool_decide (k = name) then Some v else html5_get tbl' name
  end.

Definition is_digit (c : N) : bool := (48 <=? c) && (c <=? 57).
Definition is_hex (c : N) : bool :=
  is_digit c || ((97 <=? c) && (c <=? 102)) || ((65 <=? c) && (c <=? 70)).
Definition digit_val (c : N) : N :=
  if is_digit c then c - 48 else if 97 <=? c then c - 87 else c - 55.
Definition int_of (base : N) (ds : str) : N :=
  foldl (λ acc d, acc * base + digit_val d) 0 ds.

(** The class [[^\t\n\f <&#;]] of the names. *)
Definition name_char (c : N) : bool :=
  negb (bool_decide (c ∈ [9; 10; 12; SPACE; LT; AMP; HASH; SEMI])).

Definition _invalid_charrefs : list (N * N) :=
  [(0x00, 0xfffd); (0x0d, 0x0d); (0x80, 0x20ac); (0x81, 0x81); (0x82, 0x201a);
   (0x83, 0x0192); (0x84, 0x201e); (0x85, 0x2026); (0x86, 0x2020); (0x87, 0x2021);
   (0x88, 0x02c6); (0x89, 0x2030); (0x8a, 0x0160); (0x8b, 0x2039); (0x8c, 0x0152);
   (0x8d, 0x8d); (0x8e, 0x017d); (0x8f, 0x8f); (0x90, 0x90); (0x91, 0x2018);
   (0x92, 0x2019); (0x93, 0x201c); (0x94, 0x201d); (0x95, 0x2022); (0x96, 0x2013);
   (0x97, 0x2014); (0x98, 0x02dc); (0x99, 0x2122); (0x9a, 0x0161); (0x9b, 0x203a);
   (0x9c, 0x0153); (0x9d, 0x9d); (0x9e, 0x017e); (0x9f, 0x0178)].

Definition _invalid_codepoints (n : N) : bool :=
  ((1 <=? n) && (n <=? 8)) || ((0xe <=? n) && (n <=? 0x1f))
  || ((0x7f <=? n) && (n <=? 0x9f)) || ((0xfdd0 <=? n) && (n <=? 0xfdef))
  || (n =? 0xb) || ((0xfffe <=? n mod 0x10000) && (n <=? 0x10ffff)).

(** [_replace_charref], numeric branch. *)
Definition replace_numeric (num : N) : str :=
  match list_find (λ kv, kv.1 = num) _invalid_charrefs with
  | Some (_, (_, c)) => [c]
  | None =>
      if ((0xD800 <=? num) && (num <=? 0xDFFF)) || (0x10FFFF <? num) then [0xFFFD]
      else if _invalid_codepoints num then []
      else [num]
  end.

(** The loop [for x in range(len(s)-1, 1, -1)] over the prefixes of a name. *)
Fixpoint longest_prefix (x : nat) (s : str) : str :=
  match x with
  | S (S _ as x') =>
      match html5_get html5 (take x s) with
      | Some v => v ++ drop x s
      | None => longest_prefix x' s
      end
  | _ => AMP :: s
  end.

(** [_replace_charref], named branch. *)
Definition replace_named (s : str) : str :=
  match html5_get html5 s with
  | Some v => v
  | None => longest_prefix (length s - 1) s
  end.

Definition semi_at (r : str) : str :=
  match r with
  | c :: _ => if c =? SEMI then [SEMI] else []
  | [] => []
  end.

(** A match of [_charref] right after an ampersand: the replacement text
    and the number of characters of [r] that the match covers. *)
Definition charref_at (r : str) : option (str * nat) :=
  match r with
  | [] => None
  | c :: r1 =>
      if c =? HASH then
        match r1 with
        | [] => None
        | d :: r2 =>
            if is_digit d then
              let ds := take_while is_digit r1 in
              let semi := semi_at (drop (length ds) r1) in
              Some (replace_numeric (int_of 10 ds), (1 + length ds + length semi)%nat)
            else if (d =? 120) || (d =? 88) then
              let hs := take_while is_hex r2 in
              let semi := semi_at (drop (length hs) r2) in
              match hs with
              | [] => None
              | _ => Some (replace_numeric (int_of 16 hs),
                           (2 + length hs + length semi)%nat)
              end
            else None
        end
      else
        let name := take_while name_char (take 32 r) in
        let semi := semi_at (drop (length name) r) in
        match name with
        | [] => None
        | _ => Some (replace_named (name ++ semi), (length name + length semi)%nat)
        end
  end.

(** [_charref.sub(_replace_charref, s)]: the matches from left to right;
    [skip] counts the characters still covered by the last match. *)
Fixpoint charref_sub (skip : nat) (s : str) : str :=
  match s with
  | [] => []
  | c :: r =>
      match skip with
      | S k => charref_sub k r
      | O =>
          if c =? AMP then
            match charref_at r with
            | Some (repl, n) => repl ++ charref_sub n r
            | None => c :: charref_sub 0 r
            end
          else c :: charref_sub 0 r
      end
  end.

(** [html.unescape] *)
Definition unescape (s : str) : str :=
  if existsb (N.eqb AMP) s then charref_sub 0 s else s.

End html.

(** [TAG_RE.sub] with the empty replacement, for the pattern [<.*?>]
    compiled with [re.DOTALL]: a [<] opens a match when some [>] follows,
    and the match ends at the first one. *)
Fixpoint tag_sub (in_tag : bool) (s : str) : str :=
  match s with
  | [] => []
  | c :: r =>
      if in_tag then
        if c =? GT then tag_sub false r else tag_sub true r
      else if (c =? LT) && existsb (N.eqb GT) r then tag_sub true r
      else c :: tag_sub false r
  end.

(** [s.replace(old, new)] for two characters. *)
Definition replace_char (old new : N) (s : str) : str :=
  map (λ c, if c =? old then new else c) s.

(** [str.isspace] of a character. *)
Definition is_space (c : N) : bool :=
  ((9 <=? c) && (c <=? 13)) || ((28 <=? c) && (c <=? 32)) || (c =? 0x85)
  || (c =? 0xa0) || (c =? 0x1680) || ((0x2000 <=? c) && (c <=? 0x200a))
  || (c =? 0x2028) || (c =? 0x2029) || (c =? 0x202f) || (c =? 0x205f)
  || (c =? 0x3000).

(** [s.split()] *)
Fixpoint split (s : str) : list str :=
  match s with
  | [] => []
  | c :: r =>
      if is_space c then split r
      else
        match r with
        | d :: _ =>
            if is_space d then [c] :: split r
            else match split r with
                 | w :: ws => (c :: w) :: ws
                 | [] => [[c]]
                 end
        | [] => [[c]]
        end
  end.

(** [sep.join(words)] *)
Fixpoint join (sep : str) (words : list str) : str :=
  match words with
  | [] => []
  | [w] => w
  | w :: ws => w ++ sep ++ join sep ws
  end.

(** [sep.join(xs)] for a list of objects: every one must be a str. *)
Fixpoint str_join (sep : str) (xs : list value) : result str :=
  match xs with
  | [] => Ok []
  | VStr w :: xs' =>
      match xs' with
      | [] => Ok w
      | _ => rest ← str_join sep xs'; Ok (w ++ sep ++ rest)
      end
  | _ => Raise TypeError
  end.

(** * 3-get-texts/neat_text_fetch.py *)

Module NeatTextFetch.

Section clean.
Variable html5 : list (str * str).

Definition clean_he_string (raw : str) : str :=
  let s := unescape html5 raw in
  let s := tag_sub false s in
  let s := replace_char NBSP SPACE s in
  let s := join [SPACE] (split s) in
  s.

(** [isinstance(ch, str) and len(ch) == 1] *)
Definition single_char (ch : value) : bool :=
  match ch with
  | VStr [_] => true
  | _ => false
  end.

(** The string that [test_texts_api] builds from [data.get("he", [])]. *)
Definition raw_hebrew (he_raw_list : value) : result str :=
  is_chars ← (if truthy he_raw_list
              then chs ← py_iter he_raw_list; Ok (forallb single_char chs)
              else Ok false);
  if is_chars : bool then
    chs ← py_iter he_raw_list; str_join [] chs
  else
    match he_raw_list with
    | VList l => str_join [SPACE] l
    | VStr s => Ok s
    | _ => Ok []
    end.

Definition cleaned (he_raw_list : value) : result str :=
  raw_hebrew ← raw_hebrew he_raw_list;
  Ok (clean_he_string raw_hebrew).

End clean.

End NeatTextFetch.

(** * 5-get-topics/fetch_topics.py *)

(** The loop "dedupe while preserving order" with its set [seen]. *)
Fixpoint dedupe {A} (key : A → str) (seen : gset str) (xs : list A) : list A :=
  match xs with
  | [] => []
  | x :: xs' =>
      if decide (key x ∈ seen) then dedupe key seen xs'
      else x :: dedupe key ({[key x]} ∪ seen) xs'
  end.

(** A compact topic object: the dict with keys id, title, source. *)
Definition topic_object (topic_id : str) (title source_slug : value) : value :=
  VDict [(VStr (u "id"), VStr topic_id);
         (VStr (u "title"), title);
         (VStr (u "source"), source_slug)].

(** [t["id"]] of a compact topic object. *)
Definition topic_object_id (t : value) : str :=
  match t with
  | VDict d => match dict_get d (VStr (u "id")) with Some (VStr i) => i | _ => [] end
  | _ => []
  end.

(** The fields [source_slug] and [title] that [extract_topic_objects]
    reads from a raw item. *)
Definition topic_fields (item : items) : result (value * value) :=
  let data_source := py_or (dict_get_default item (u "dataSource") VNone) (VDict []) in
  source_slug ← py_get data_source (u "slug") VNone;
  let descriptions := py_or (dict_get_default item (u "descriptions") VNone) (VDict []) in
  en ← py_get descriptions (u "en") VNone;
  let en_desc := py_or en (VDict []) in
  title ← py_get en_desc (u "title") VNone;
  ai_title ← (if truthy title then Ok VNone else py_get en_desc (u "ai_title") VNone);
  Ok (source_slug, py_or title ai_title).

Module FetchTopics.

Fixpoint slugs (raw_topics : list value) : list str :=
  match raw_topics with
  | [] => []
  | VDict item :: rest =>
      match dict_get_default item (u "topic") VNone with
      | VStr slug => slug :: slugs rest
      | _ => slugs rest
      end
  | _ :: rest => slugs rest
  end.

Definition extract_topic_slugs (raw_topics : value) : list str :=
  match raw_topics with
  | VList l => dedupe id ∅ (slugs l)
  | _ => []
  end.

Fixpoint topics (raw_topics : list value) : result (list value) :=
  match raw_topics with
  | [] => Ok []
  | VDict item :: rest =>
      match dict_get_default item (u "topic") VNone with
      | VStr topic_id =>
          '(source_slug, title) ← topic_fields item;
          ts ← topics rest;
          Ok (topic_object topic_id title source_slug :: ts)
      | _ => topics rest
      end
  | _ :: rest => topics rest
  end.

Definition extract_topic_objects (raw_topics : value) : result (list value) :=
  match raw_topics with
  | VList l => ts ← topics l; Ok (dedupe topic_object_id ∅ ts)
  | _ => Ok []
  end.

End FetchTopics.

(** * endpoints3+4+5demo.py *)

Module Endpoints345.

Definition BASE : str := u "https://www.sefaria.org".

(** What [requests.get] or httpx's [client.get] comes back with: no
    response (connection error, timeout), or a response with its status
    code and its body, [None] when the body is not JSON. *)
Inductive reply : Type :=
| NoReply
| Reply (status : Z) (body : option value).

(** [resp.raise_for_status(); return resp.json()] after [requests.get]. *)
Definition checked_json (url : str) (resp : reply) : result value :=
  match resp with
  | NoReply => Raise (RequestException url)
  | Reply status body =>
      if (400 <=? status)%Z && (status <? 600)%Z then Raise (HTTPError url)
      else match body with
           | Some v => Ok v
           | None => Raise JSONDecodeError
           end
  end.

Definition clean_he_string := NeatTextFetch.clean_he_string.

(** ** link simplification *)

(** [refs[0]] *)
Definition first_item (refs : value) : result value :=
  match refs with
  | VList (x :: _) => Ok x
  | VStr (c :: _) => Ok (VStr [c])
  | VList [] | VStr [] => Raise IndexError
  | VDict d => match dict_get d (VInt 0) with Some x => Ok x | None => Raise KeyError end
  | _ => Raise TypeError
  end.

Definition simplify_link (link : value) (anchor_ref : value) : result value :=
  category ← py_get link (u "category") (VStr (u "Unknown"));
  link_type ← py_get link (u "type") (VStr []);
  anchor0 ← py_get link (u "anchorRef") VNone;
  let anchor := py_or anchor0 anchor_ref in
  refs0 ← py_get link (u "refs") VNone;
  let refs := py_or refs0 (VList []) in
  source_ref ← py_get link (u "sourceRef") VNone;
  source_ref ←
    (if truthy source_ref then Ok source_ref
     else
       rs ← py_iter refs;
       match filter (λ r, py_eq r anchor = false) rs with
       | c :: _ => Ok c
       | [] => if truthy refs then first_item refs else Ok anchor
       end);
  Ok (VDict [(VStr (u "category"), category);
             (VStr (u "type"), link_type);
             (VStr (u "sourceRef"), source_ref);
             (VStr (u "anchorRef"), anchor)]).

(** [grouped]: category to the list of its simplified links. *)
Fixpoint related_loop (links : list value) (anchor_ref : value) (max_per_cat : Z)
    (grouped : list (value * list value)) : result (list (value * list value)) :=
  match links with
  | [] => Ok grouped
  | raw :: rest =>
      simplified ← simplify_link raw anchor_ref;
      cat ← py_getitem simplified (u "category");
      if hashable cat then
        let grouped := if dict_has grouped cat then grouped else dict_set grouped cat [] in
        let bucket := default [] (dict_get grouped cat) in
        let grouped := if (Z.of_nat (length bucket) <? max_per_cat)%Z
                       then dict_set grouped cat (bucket ++ [simplified])
                       else grouped in
        related_loop rest anchor_ref max_per_cat grouped
      else Raise TypeError
  end.

Definition build_related_by_category (links : value) (anchor_ref : value)
    (max_per_cat : Z) : result value :=
  ls ← py_iter links;
  grouped ← related_loop ls anchor_ref max_per_cat [];
  Ok (VDict (map (λ kv, (kv.1, VList kv.2)) grouped)).

(** ** topic simplification *)

Definition BLACKLISTED_TOPIC_IDS : gset str := {[ u "ai" ]}.

Fixpoint slugs (raw_topics : list value) : list str :=
  match raw_topics with
  | [] => []
  | VDict item :: rest =>
      match dict_get_default item (u "topic") VNone with
      | VStr topic_id =>
          if decide (topic_id ∈ BLACKLISTED_TOPIC_IDS) then slugs rest
          else topic_id :: slugs rest
      | _ => slugs rest
      end
  | _ :: rest => slugs rest
  end.

Definition extract_topic_slugs (raw_topics : value) : list str :=
  match raw_topics with
  | VList l => dedupe id ∅ (slugs l)
  | _ => []
  end.

Fixpoint topics (raw_topics : list value) : result (list value) :=
  match raw_topics with
  | [] => Ok []
  | VDict item :: rest =>
      match dict_get_default item (u "topic") VNone with
      | VStr topic_id =>
          if decide (topic_id ∈ BLACKLISTED_TOPIC_IDS) then topics rest
          else
            '(source_slug, title) ← topic_fields item;
            ts ← topics rest;
            Ok (topic_object topic_id title source_slug :: ts)
      | _ => topics rest
      end
  | _ :: rest => topics rest
  end.

Definition extract_topic_objects (raw_topics : value) : result (list value) :=
  match raw_topics with
  | VList l => ts ← topics l; Ok (dedupe topic_object_id ∅ ts)
  | _ => Ok []
  end.

(** ** the three wrappers and the summary builder *)

(** [resp.json()] *)
Definition json (body : option value) : result value :=
  match body with
  | Some v => Ok v
  | None => Raise JSONDecodeError
  end.

Section summary.

Variable html5 : list (str * str).

(** [requests_get url params] stands for [requests.get(url, params=params,
    timeout=30)]. *)
Variable requests_get : str → items → reply.

Definition ref_url (ref : str) : str := replace_char SPACE 95 ref.

Definition text_url (ref : str) : str := BASE ++ u "/api/texts/" ++ ref_url ref.
Definition links_url (ref : str) : str := BASE ++ u "/api/links/" ++ ref_url ref.
Definition topics_url (ref : str) : str :=
  BASE ++ u "/api/ref-topic-links/" ++ ref_url ref.

Definition get_text (ref lang : str) (context : Z) (version : value) : result value :=
  let url := text_url ref in
  let params := [(VStr (u "lang"), VStr lang);
                 (VStr (u "commentary"), VInt 0);
                 (VStr (u "context"), VInt context)] in
  let params := if truthy version then dict_set params (VStr (u "version")) version
                else params in
  checked_json url (requests_get url params).

Definition get_links (ref : str) : result value :=
  let url := links_url ref in
  checked_json url (requests_get url []).

Definition get_ref_topics (ref : str) : result value :=
  let url := topics_url ref in
  checked_json url (requests_get url []).

(** The expression that picks the title. *)
Definition pick_title (text_data : value) (ref : str) : result value :=
  t ← py_get text_data (u "title") VNone;
  if truthy t then Ok t else
  t ← py_get text_data (u "book") VNone;
  if truthy t then Ok t else
  t ← py_get text_data (u "indexTitle") VNone;
  if truthy t then Ok t else
  match ref with
  | [] => Ok VNone
  | _ => match split ref with
         | w :: _ => Ok (VStr w)
         | [] => Raise IndexError
         end
  end.

(** "Normalize to list of strings" *)
Definition normalize_lines (raw_lines : value) : list value :=
  match raw_lines with
  | VStr s => [VStr s]
  | VList l => l
  | _ => []
  end.

(** [clean_he_string(line)] for an object of the list. *)
Definition clean_line (line : value) : result (option value) :=
  if truthy line then
    match line with
    | VStr s => Ok (Some (VStr (clean_he_string html5 s)))
    | _ => Raise TypeError
    end
  else Ok None.

Definition build_ref_summary (ref lang : str) (context : Z) (version : value)
    (max_links_per_category : Z) : result value :=
  text_data ← get_text ref lang context version;
  links_data ← get_links ref;
  topics_raw ← get_ref_topics ref;
  title ← pick_title text_data ref;
  raw_lines ← (if bool_decide (lang = u "he")
               then py_get text_data (u "he") (VList [])
               else py_get text_data (u "text") (VList []));
  let raw_lines := normalize_lines raw_lines in
  cleaned_lines ← collect clean_line raw_lines;
  anchor_ref ← py_get text_data (u "ref") (VStr ref);
  related_by_cat ← build_related_by_category links_data anchor_ref max_links_per_category;
  let topic_ids := extract_topic_slugs topics_raw in
  topic_objs ← extract_topic_objects topics_raw;
  let field k := dict_get_default (match text_data with VDict d => d | _ => [] end) k VNone in
  Ok (VDict
        [(VStr (u "ref"), anchor_ref);
         (VStr (u "title"), title);
         (VStr (u "heTitle"), field (u "heTitle"));
         (VStr (u "sectionNames"), field (u "sectionNames"));
         (VStr (u "sections"), field (u "sections"));
         (VStr (u "versionTitle"), field (u "versionTitle"));
         (VStr (u "heVersionTitle"), field (u "heVersionTitle"));
         (VStr (u "next"), field (u "next"));
         (VStr (u "prev"), field (u "prev"));
         (VStr (u "text"),
          VDict [(VStr (u "lang"), VStr lang);
                 (VStr (u "raw"), VList raw_lines);
                 (VStr (u "cleaned"), VList cleaned_lines)]);
         (VStr (u "relatedSourcesByCategory"), related_by_cat);
         (VStr (u "topics"),
          VDict [(VStr (u "ids"), VList (VStr <$> topic_ids));
                 (VStr (u "objects"), VList topic_objs)])]).

End summary.

End Endpoints345.

(** * main.py *)

Module Main.

Import Endpoints345.

Section ref_info.

(** [client_get path] stands for [await client.get(path)] on the httpx
    client; [NoReply] is an [httpx.HTTPError] (timeouts included). *)
Variable client_get : str → reply.

Definition texts_path (ref : str) : str := u "/api/v3/texts/" ++ ref.
Definition legacy_path (ref : str) : str := u "/api/texts/" ++ ref.
Definition links_path (ref : str) : str := u "/api/links/" ++ ref.
Definition topics_path (ref : str) : str := u "/api/ref-topic-links/" ++ ref.
Definition related_path (ref : str) : str := u "/api/related/" ++ ref.

(** [d[k] = v] for a dict [d]. *)
Definition py_setitem (obj : value) (k : str) (v : value) : result value :=
  match obj with
  | VDict d => Ok (VDict (dict_set d (VStr k) v))
  | _ => Raise TypeError
  end.

(** The block "Fallback: legacy /api/texts". *)
Definition legacy_fallback (ref : str) (texts : value) : result value :=
  match client_get (legacy_path ref) with
  | NoReply => Ok texts
  | Reply status body =>
      if (status =? 200)%Z then
        legacy ← json body;
        let legacy := py_or legacy (VDict []) in
        he_legacy ← py_get legacy (u "he") VNone;
        en1 ← py_get legacy (u "text") VNone;
        en2 ← py_get legacy (u "en") VNone;
        let en_legacy := py_or en1 en2 in
        if truthy he_legacy || truthy en_legacy then
          texts ← py_setitem texts (u "he") he_legacy;
          py_setitem texts (u "en") en_legacy
        else Ok texts
      else Ok texts
  end.

(** The part "texts (required)" with its fallback. *)
Definition fetch_texts (ref : str) : result value :=
  match client_get (texts_path ref) with
  | NoReply => Raise (HTTPError (texts_path ref))
  | Reply status body =>
      if negb (status =? 200)%Z then
        Raise (HTTPException status (u "Failed to fetch texts for ref " ++ ref))
      else
        texts ← json body;
        let texts := py_or texts (VDict []) in
        he ← py_get texts (u "he") VNone;
        en1 ← py_get texts (u "en") VNone;
        en2 ← py_get texts (u "text") VNone;
        let en := py_or en1 en2 in
        if negb (truthy he) && negb (truthy en) then legacy_fallback ref texts
        else Ok texts
  end.

(** One of the blocks "optional helpers": the body on status 200,
    [fallback] on another status or on an [httpx.HTTPError]. *)
Definition best_effort (path : str) (fallback : value) : result value :=
  match client_get path with
  | NoReply => Ok fallback
  | Reply status body => if (status =? 200)%Z then json body else Ok fallback
  end.

Definition get_ref_info (ref : str) : result value :=
  texts ← fetch_texts ref;
  links ← best_effort (links_path ref) (VList []);
  topics ← best_effort (topics_path ref) (VList []);
  related ← best_effort (related_path ref) (VDict []);
  Ok (VDict [(VStr (u "ref"), VStr ref);
             (VStr (u "texts"), texts);
             (VStr (u "links"), links);
             (VStr (u "topics"), topics);
             (VStr (u "related"), related)]).

End ref_info.

End Main.

(** * The specification's reading of the index *)

Module Spec.

Import TreeOfLife.

(** A well-formed raw index node has one of the shapes that the docstring
    of [_normalize_node] describes: a category node (a [category] field, no
    [title], and for [contents], when present, a list of well-formed
    nodes), a book node (a [title] field and no child nodes), or a dict
    with neither field, whose content is then free. *)
Fixpoint well_formed (raw : value) : bool :=
  match raw with
  | VDict d =>
      if dict_has d (VStr (u "category")) then
        negb (dict_has d (VStr (u "title")))
        && (fix contents (es : items) : bool :=
              match es with
              | [] => true
              | (k, v) :: es' =>
                  if py_eq k (VStr (u "contents")) then
                    match v with
                    | VList l => forallb well_formed l
                    | _ => false
                    end
                  else contents es'
              end) d
      else if dict_has d (VStr (u "title")) then
        match dict_get d (VStr (u "contents")) with
        | Some (VList (_ :: _)) => false
        | _ => true
        end
      else true
  | _ => false
  end.

(** The record of a title-bearing node under the ancestors [trail]: its
    explicit category list when it has a non-empty one, else the walk. *)
Definition leaf_record (d : items) (trail : list value) : FlatBook :=
  let title := dict_get_default d (u "title") VNone in
  mkFlatBook title (dict_get_default d (u "heTitle") VNone)
    (match dict_get_default d (u "categories") VNone with
     | VList (c :: cs) => c :: cs
     | _ => trail ++ [title]
     end).

(** The title-bearing leaf nodes below [raw], depth first and in
    pre-order, each as its record; a node with neither a category nor a
    title field is dropped with its subtree. *)
Fixpoint title_leaves (raw : value) (trail : list value) : list FlatBook :=
  match raw with
  | VDict d =>
      let has_category := dict_has d (VStr (u "category")) in
      let has_title := dict_has d (VStr (u "title")) in
      if negb has_category && negb has_title then []
      else
        let below := if has_category
                     then trail ++ [dict_get_default d (u "category") VNone]
                     else trail in
        let inner :=
          (fix contents (es : items) : option (list FlatBook) :=
             match es with
             | [] => None
             | (k, v) :: es' =>
                 if py_eq k (VStr (u "contents")) then
                   match v with
                   | VList (c :: l) =>
                       Some (concat (map (λ child, title_leaves child below) (c :: l)))
                   | _ => None
                   end
                 else contents es'
             end) d in
        match inner with
        | Some records => records
        | None => if has_title then [leaf_record d trail] else []
        end
  | _ => []
  end.

(** What the flattener makes of the outcome of one normalization. *)
Definition records_of (r : option TreeNode) : list FlatBook :=
  match r with
  | Some n => build_flat_book_list n
  | None => []
  end.

(** A well-formed node normalizes without an exception, and flattening
    the outcome lists its title-bearing leaves. *)
Definition normalizes (raw : value) : Prop :=
  well_formed raw = true →
  ∀ parent_path, ∃ r,
    _normalize_node raw parent_path = Ok r
    ∧ records_of r = title_leaves raw parent_path.

End Spec.

(** * Sample inputs *)

Module Sample.

(** [{"category": "Tanakh", "contents": [{"title": "Genesis", "heTitle": "בראשית"}]}] *)
Definition genesis_index : value :=
  VList [VDict [(VStr (u "category"), VStr (u "Tanakh"));
                (VStr (u "contents"),
                 VList [VDict [(VStr (u "title"), VStr (u "Genesis"));
                               (VStr (u "heTitle"), VStr (u "בראשית"))]])]].

(** A node that carries a category and a title, and no contents. *)
Definition titled_category : value :=
  VDict [(VStr (u "category"), VStr (u "Tanakh"));
         (VStr (u "title"), VStr (u "Genesis"))].

(** An index with a book that has an explicit category list, an
    unrecognized node with a subtree, and an empty category. *)
Definition mixed_index : list value :=
  [VDict [(VStr (u "category"), VStr (u "Tanakh"));
          (VStr (u "contents"),
           VList [VDict [(VStr (u "title"), VStr (u "Genesis"));
                         (VStr (u "categories"),
                          VList [VStr (u "Tanakh"); VStr (u "Torah")])];
                  VDict [(VStr (u "contents"),
                          VList [VDict [(VStr (u "title"), VStr (u "Hidden"))]])];
                  VDict [(VStr (u "title"), VStr (u "Exodus"))]])];
   VDict [(VStr (u "category"), VStr (u "Empty"))]].

End Sample.

(** * The lookup, as the specification words it *)

Module LookupSpec.

Import MakeTree.

(** The keys under which [build_book_lookup] files a book. *)
Definition book_keys (lower : str → str) (b : Book) : list str :=
  match title b with VStr t => [lower t] | _ => [] end
  ++ match heTitle b with VStr h => [h] | _ => [] end.

(** [b] bears the primary title [t]. *)
Definition bears_title (t : str) (b : Book) : Prop := title b = VStr t.

#[global] Instance bears_title_dec (t : str) (b : Book) : Decision (bears_title t b).
Proof.
  unfold bears_title. destruct (title b) as [| | |s| |];
    try (right; discriminate).
  destruct (decide (s = t)) as [->|Hne]; [by left|].
  right. intros [=]. done.
Defined.

Definition genesis : Book := mkBook (VStr (u "Genesis")) VNone [VStr (u "Tanakh")].
Definition genesis_lower : Book := mkBook (VStr (u "genesis")) VNone [VStr (u "Apocrypha")].

End LookupSpec.

(** * The topic ids, as the specification words them *)

Module TopicSpec.

(** The raw topic ids of a response: the [topic] fields that are strings,
    of the entries that are dicts, in order. *)
Definition raw_topic_ids (raw_topics : list value) : list str :=
  omap (λ item, match item with
                | VDict d => match dict_get d (VStr (u "topic")) with
                             | Some (VStr s) => Some s
                             | _ => None
                             end
                | _ => None
                end) raw_topics.

(** The different elements of a list in the order in which they are
    first seen. *)
Definition first_seen (xs : list str) : list str :=
  foldl (λ acc x, if decide (x ∈ acc) then acc else acc ++ [x]) [] xs.

(** [{"topic": id}] *)
Definition topic_link (topic_id : string) : value :=
  VDict [(VStr (u "topic"), VStr (u topic_id))].

Definition five_links : value :=
  VList [topic_link "a"; topic_link "b"; topic_link "a"; topic_link "ai"; topic_link "c"].

(** The same ids among entries that are no dicts and ids that are no
    strings. *)
Definition ragged_links : value :=
  VList [VInt 7; topic_link "a"; VDict [(VStr (u "topic"), VInt 3)]; VStr (u "b");
         topic_link "b"; VNone; topic_link "a"; VDict []; topic_link "ai";
         VList [topic_link "z"]; topic_link "c"].

(** [[{"topic": "creation"}]] *)
Definition creation_link : value := VList [topic_link "creation"].

(** The output of [extract_topic_slugs], passed as an argument again. *)
Definition id_list (ids : list str) : value := VList (VStr <$> ids).

(** A compact topic object, as [extract_topic_objects] makes them. *)
Definition compact (t : value) : Prop :=
  ∃ topic_id title source_slug, t = topic_object topic_id title source_slug.

End TopicSpec.

(** * The text cleaner, as the specification words it *)

Module CleanSpec.

(** Some rows of [html.entities.html5]. *)
Definition html5_rows : list (str * str) :=
  [(u "amp;", [AMP]); (u "amp", [AMP]); (u "lt;", [LT]); (u "lt", [LT]);
   (u "gt;", [GT]); (u "gt", [GT]); (u "quot;", [34]); (u "quot", [34]);
   (u "nbsp;", [NBSP]); (u "nbsp", [NBSP]); (u "thinsp;", [0x2009])].

(** Some [<] of [s] has a [>] after it: [TAG_RE] matches in [s]. *)
Fixpoint has_tag (s : str) : bool :=
  match s with
  | [] => false
  | c :: r => ((c =? LT) && existsb (N.eqb GT) r) || has_tag r
  end.

Definition is_angle (c : N) : bool := (c =? LT) || (c =? GT).

End CleanSpec.

(** * The summary, as the specification words it *)

Module SummarySpec.

Import Endpoints345.

(** A sub-call fails: no response, or a response with another status
    than 200. *)
Definition failed (r : reply) : Prop :=
  match r with
  | NoReply => True
  | Reply status _ => status ≠ 200%Z
  end.

(** The fetch of a wrapper fails: [requests.get] gets no response, or
    [raise_for_status] raises on the status. *)
Definition refused (r : reply) : Prop :=
  match r with
  | NoReply => True
  | Reply status _ => (400 ≤ status < 600)%Z
  end.

(** The exception of a failed fetch of [url]. *)
Definition fetch_error (url : str) (r : reply) : exn :=
  match r with
  | NoReply => RequestException url
  | Reply _ _ => HTTPError url
  end.

(** A structurally complete summary: every field is there, the text with
    its language and its raw and cleaned lines, the related sources as a
    dict, the topics with their ids and objects. *)
Definition complete (summary : value) : Prop :=
  ∃ ref title heTitle sectionNames sections versionTitle heVersionTitle next prev
    lang raw cleaned related ids objects,
    summary =
      VDict [(VStr (u "ref"), ref);
             (VStr (u "title"), title);
             (VStr (u "heTitle"), heTitle);
             (VStr (u "sectionNames"), sectionNames);
             (VStr (u "sections"), sections);
             (VStr (u "versionTitle"), versionTitle);
             (VStr (u "heVersionTitle"), heVersionTitle);
             (VStr (u "next"), next);
             (VStr (u "prev"), prev);
             (VStr (u "text"),
              VDict [(VStr (u "lang"), VStr lang);
                     (VStr (u "raw"), VList raw);
                     (VStr (u "cleaned"), VList cleaned)]);
             (VStr (u "relatedSourcesByCategory"), VDict related);
             (VStr (u "topics"),
              VDict [(VStr (u "ids"), VList ids);
                     (VStr (u "objects"), VList objects)])].

(** The field [text.cleaned] of a summary. *)
Definition cleaned_lines (summary : value) : option value :=
  match summary with
  | VDict d =>
      match dict_get d (VStr (u "text")) with
      | Some (VDict t) => dict_get t (VStr (u "cleaned"))
      | _ => None
      end
  | _ => None
  end.

Definition genesis_1_1 : str := u "Genesis 1:1".

(** A gateway that answers the three calls for Genesis 1:1. *)
Definition gateway (text links topics : reply) (url : str) (params : items) : reply :=
  if bool_decide (url = text_url genesis_1_1) then text
  else if bool_decide (url = links_url genesis_1_1) then links
  else if bool_decide (url = topics_url genesis_1_1) then topics
  else NoReply.

Definition ok (body : value) : reply := Reply 200 (Some body).

(** [{"he": ["<b>בראשית</b>"]}] *)
Definition bold_text : value :=
  VDict [(VStr (u "he"), VList [VStr (u "<b>בראשית</b>")])].

(** [{"he": ["ב", "ר", "א"]}]: one line, split per character. *)
Definition char_text : value :=
  VDict [(VStr (u "he"), VList [VStr (u "ב"); VStr (u "ר"); VStr (u "א")])].

Definition two_links : value :=
  VList [VDict [(VStr (u "category"), VStr (u "Commentary"));
                (VStr (u "refs"), VList [VStr (u "Genesis 1:1"); VStr (u "Rashi on Genesis 1:1:1")])];
         VDict [(VStr (u "category"), VStr (u "Midrash"));
                (VStr (u "sourceRef"), VStr (u "Bereshit Rabbah 1:1"))]].

Definition two_topics : value :=
  VList [VDict [(VStr (u "topic"), VStr (u "creation"))];
         VDict [(VStr (u "topic"), VStr (u "ai"))]].

(** An httpx client that answers the calls of [get_ref_info] for Genesis
    1:1; the legacy texts call gets no response. *)
Definition client (texts links topics related : reply) (path : str) : reply :=
  if bool_decide (path = Main.texts_path genesis_1_1) then texts
  else if bool_decide (path = Main.links_path genesis_1_1) then links
  else if bool_decide (path = Main.topics_path genesis_1_1) then topics
  else if bool_decide (path = Main.related_path genesis_1_1) then related
  else NoReply.

Definition summarize (gw : str → items → reply) : result value :=
  build_ref_summary CleanSpec.html5_rows gw genesis_1_1 (u "he") 0 VNone 5.

End SummarySpec.

(** * Shapes of the normalized tree *)

Module TreeShape.

Import TreeOfLife.

Section TreeNode_induction.
Variable P : TreeNode → Prop.
Hypothesis Hnode : ∀ t h ty p cs, Forall P cs → P (mkTreeNode t h ty p cs).

Fixpoint TreeNode_nested_ind (n : TreeNode) : P n :=
  match n with
  | mkTreeNode t h ty p cs =>
      Hnode t h ty p cs
        ((fix go (cs : list TreeNode) : Forall P cs :=
            match cs with
            | [] => Forall_nil_2 _
            | c :: cs' => Forall_cons_2 _ _ _ (TreeNode_nested_ind c) (go cs')
            end) cs)
  end.
End TreeNode_induction.

(** A node as the normalizer places it below the path [parent_path]: a
    category node has the path of its parent followed by its own title,
    and its children are placed below that path; a book node has no
    children and a path that is not empty; there is no root node. *)
Inductive placed : list value → TreeNode → Prop :=
| placed_category parent_path t h cs :
    Forall (placed (parent_path ++ [t])) cs →
    placed parent_path (mkTreeNode t h category (parent_path ++ [t]) cs)
| placed_book parent_path t h p :
    p ≠ [] → placed parent_path (mkTreeNode t h book p []).

(** The number of nodes of a tree. *)
Fixpoint nodes (n : TreeNode) : nat :=
  match n with
  | mkTreeNode _ _ _ _ cs =>
      S ((fix each (cs : list TreeNode) : nat :=
            match cs with
            | [] => O
            | c :: cs' => (nodes c + each cs')%nat
            end) cs)
  end.

(** A way to one canonical form per class of equal hashable objects. *)
Definition canon (v : value) : option (unit + Z + str) :=
  match v with
  | VNone => Some (inl (inl ()))
  | VBool b => Some (inl (inr (int_of_bool b)))
  | VInt z => Some (inl (inr z))
  | VStr s => Some (inr s)
  | _ => None
  end.

(** The book is filed under [key]: by its title or by its heTitle. *)
Definition filed_under (key : value) (b : FlatBook) : bool :=
  (truthy (fb_title b) && py_eq (fb_title b) key)
  || (truthy (fb_heTitle b) && py_eq (fb_heTitle b) key).

(** All the titles that are used as keys can be hashed. *)
Definition keys_hashable (b : FlatBook) : bool :=
  (negb (truthy (fb_title b)) || hashable (fb_title b))
  && (negb (truthy (fb_heTitle b)) || hashable (fb_heTitle b)).

Definition torah_books : list FlatBook :=
  [mkFlatBook (VStr (u "Genesis")) (VStr (u "בראשית")) [VStr (u "Tanakh")];
   mkFlatBook (VStr (u "Exodus")) VNone [VStr (u "Tanakh")];
   mkFlatBook (VStr (u "Genesis")) (VStr []) [VStr (u "Apocrypha")]].

End TreeShape.

(** * The two flat lists side by side *)

Module FlatSpec.

(** The titles of a record of either flat list. *)
Definition book_titles (b : MakeTree.Book) : value * value :=
  (MakeTree.title b, MakeTree.heTitle b).
Definition flat_titles (b : TreeOfLife.FlatBook) : value * value :=
  (TreeOfLife.fb_title b, TreeOfLife.fb_heTitle b).

End FlatSpec.

(** * Simplified links and their grouping, for the statements *)

Module LinkSpec.

(** The dict that [simplify_link] returns. *)
Definition link_object (category link_type source_ref anchor : value) : value :=
  VDict [(VStr (u "category"), category);
         (VStr (u "type"), link_type);
         (VStr (u "sourceRef"), source_ref);
         (VStr (u "anchorRef"), anchor)].

(** The number of links in each list of a grouping, in the order of its
    categories. *)
Definition bucket_sizes (grouped : value) : list nat :=
  match grouped with
  | VDict d => map (λ kv, match kv.2 with VList b => length b | _ => O end) d
  | _ => []
  end.

(** The link [s] is in the list of the grouping's category [cat]. *)
Definition in_bucket (grouped : value) (cat s : value) : Prop :=
  ∃ d b, grouped = VDict d ∧ (cat, VList b) ∈ d ∧ s ∈ b.

(** What the grouping loop maintains: every list is within the cap, and
    holds simplified links of the raw links, of the category of its key. *)
Definition bucket_ok (raws : list value) (anchor_ref : value) (cap : nat)
    (kv : value * list value) : Prop :=
  hashable kv.1 = true
  ∧ (length kv.2 ≤ cap)%nat
  ∧ Forall (λ s, (∃ raw, raw ∈ raws ∧ Endpoints345.simplify_link raw anchor_ref = Ok s)
                 ∧ ∃ c, py_getitem s (u "category") = Ok c ∧ py_eq kv.1 c = true) kv.2.

(** The number of links that the loop's dict holds. *)
Definition held (grouped : list (value * list value)) : nat :=
  sum_list_with (λ kv, length kv.2) grouped.

(** A raw link with the given fields. *)
Definition raw_link (category : string) (refs : list str) : value :=
  VDict [(VStr (u "category"), VStr (u category));
         (VStr (u "refs"), VList (VStr <$> refs))].

Definition three_links : value :=
  VList [raw_link "Commentary" [u "Genesis 1:1"; u "Rashi on Genesis 1:1:1"];
         raw_link "Targum" [u "Onkelos Genesis 1:1"; u "Genesis 1:1"];
         raw_link "Commentary" [u "Ramban on Genesis 1:1:1"; u "Genesis 1:1"]].

End LinkSpec.

(** * The texts of a ref, for the statements *)

Module RefInfoSpec.

(** The v3 endpoint's answer has a text: [he or (en or text)] is truthy. *)
Definition primary_text (d : items) : bool :=
  truthy (dict_get_default d (u "he") VNone)
  || truthy (py_or (dict_get_default d (u "en") VNone)
               (dict_get_default d (u "text") VNone)).

(** The English text of the legacy endpoint's answer: [text or en]. *)
Definition legacy_en (l : items) : value :=
  py_or (dict_get_default l (u "text") VNone) (dict_get_default l (u "en") VNone).

(** The legacy endpoint's answer has a text. *)
Definition legacy_text (l : items) : bool :=
  truthy (dict_get_default l (u "he") VNone) || truthy (legacy_en l).

(** The dict that [get_ref_info] returns. *)
Definition ref_info (ref : str) (texts links topics related : value) : value :=
  VDict [(VStr (u "ref"), VStr ref);
         (VStr (u "texts"), texts);
         (VStr (u "links"), links);
         (VStr (u "topics"), topics);
         (VStr (u "related"), related)].

(** An httpx client for Genesis 1:1 whose v3 texts answer is empty and
    whose legacy answer has the Hebrew text. *)
Definition legacy_client (path : str) : Endpoints345.reply :=
  if bool_decide (path = Main.texts_path (u "Genesis 1:1"))
  then Endpoints345.Reply 200 (Some (VDict [(VStr (u "ref"), VStr (u "Genesis 1:1"))]))
  else if bool_decide (path = Main.legacy_path (u "Genesis 1:1"))
  then Endpoints345.Reply 200
         (Some (VDict [(VStr (u "he"), VList [VStr (u "בראשית")])]))
  else Endpoints345.NoReply.

End RefInfoSpec.

(** * tree_of_life.py: the cached download of the index *)

Module IndexCache.


(** JSON data, as [resp.json()] and [json.load] return it: the keys of a
    dict are strs (and different, as in every dict). *)
Inductive json : Type :=
| JNull
| JBool (b : bool)
| JInt (z : Z)
| JStr (s : str)
| JList (l : list json)
| JDict (d : list (str * json)).








(** The index of the scenario, and an index with a title that has a lone
    surrogate. *)
Definition genesis_index : json :=
  JList [JDict [(u "category", JStr (u "Tanakh"));
                (u "contents",
                 JList [JDict [(u "title", JStr (u "Genesis"));
                               (u "heTitle", JStr (u "בראשית"))]])]].


End IndexCache.

(** * 1-find-refs/neat_helper.py *)

Module NeatHelper.

Import Endpoints345.




Section polling.

(** [requests_get url n] stands for the answer to the GET of [url] that
    comes after [n] earlier ones. *)
Variable requests_get : str → nat → reply.





End polling.

(** ** the citation candidates *)

Definition candidate (raw ref start end_ : value) (status : string) : value :=
  VDict [(VStr (u "raw"), raw);
         (VStr (u "ref"), ref);
         (VStr (u "start"), start);
         (VStr (u "end"), end_);
         (VStr (u "status"), VStr (u status))].

(** The candidates of one entry [r] of the results. *)
Definition candidates_of (r : value) : result (list value) :=
  raw_text ← py_get r (u "text") VNone;
  start ← py_get r (u "startChar") VNone;
  end_ ← py_get r (u "endChar") VNone;
  link_failed ← py_get r (u "linkFailed") VNone;
  refs0 ← py_get r (u "refs") VNone;
  let refs := py_or refs0 (VList []) in
  if truthy refs then
    trefs ← py_iter refs;
    Ok (map (λ tref, candidate raw_text tref start end_ "resolved") trefs)
  else Ok [candidate raw_text VNone start end_ "unresolved"].

(** Step 3 of [find_explicit_refs], on the result of the polling. *)
Definition extract_candidates (result_ : value) : result (list value) :=
  body ← py_get result_ (u "body") (VDict []);
  results ← py_get body (u "results") (VList []);
  rs ← py_iter results;
  gather candidates_of rs.

Section find_refs.

(** [requests_post url payload params] stands for [requests.post(url,
    json=payload, params=params, timeout=30)], and [format_ v] for the
    text of an object that is no str in an f-string. *)
Variable requests_post : str → value → items → reply.
Variable requests_get : str → nat → reply.
Variable format_ : value → str.


Definition payload (text : str) : value :=
  VDict [(VStr (u "text"),
          VDict [(VStr (u "title"), VStr []); (VStr (u "body"), VStr text)])].

Definition params : items :=
  [(VStr (u "with_text"), VInt 0); (VStr (u "debug"), VInt 0);
   (VStr (u "max_segments"), VInt 0)].



End find_refs.

(** A server that answers PENDING twice and then SUCCESS with a result
    of one resolved and one unresolved citation. *)
Definition linker_result : value :=
  VDict [(VStr (u "body"),
          VDict [(VStr (u "results"),
                  VList [VDict [(VStr (u "text"), VStr (u "Genesis 1:1"));
                                (VStr (u "startChar"), VInt 0);
                                (VStr (u "endChar"), VInt 11);
                                (VStr (u "refs"), VList [VStr (u "Genesis 1:1")])];
                         VDict [(VStr (u "text"), VStr (u "ibid."));
                                (VStr (u "startChar"), VInt 20);
                                (VStr (u "endChar"), VInt 25);
                                (VStr (u "linkFailed"), VBool true);
                                (VStr (u "refs"), VNone)]])])].



End NeatHelper.

(** * tree_of_life.py: the ASCII preview *)

Module AsciiTree.

Import TreeOfLife.

(** The loop [for idx, child in enumerate(children)] of the two printing
    functions: [print_child child is_last] gives the lines that the call
    for one child prints and the exception that ends it, if any. *)
Fixpoint print_each (print_child : TreeNode → bool → list value * option exn)
    (children : list TreeNode) : list value * option exn :=
  match children with
  | [] => ([], None)
  | child :: rest =>
      let '(lines, e) := print_child child (match rest with [] => true | _ => false end) in
      match e with
      | Some _ => (lines, e)
      | None => let '(lines', e') := print_each print_child rest in (lines ++ lines', e')
      end
  end.

(** The objects that are printed, one per line, and the exception that
    ends the printing, if any. *)
Fixpoint _print_ascii_recursive (node : TreeNode) (prefix : str) (is_last : bool)
    (depth max_depth : Z) {struct node} : list value * option exn :=
  match node with
  | mkTreeNode t _ _ _ cs =>
      if (depth >? max_depth)%Z then ([], None)
      else
        match t with
        | VStr title =>
            let connector := if is_last then u "└─ " else u "├─ " in
            let line := VStr (prefix ++ connector ++ title) in
            if (depth =? max_depth)%Z then ([line], None)
            else
              let child_prefix := prefix ++ (if is_last then u "   " else u "│  ") in
              let '(lines, e) :=
                print_each (λ child child_is_last,
                              _print_ascii_recursive child child_prefix child_is_last
                                (depth + 1) max_depth) cs in
              (line :: lines, e)
        | _ => ([], Some TypeError)
        end
  end.

Definition _print_ascii_tree (node : TreeNode) (max_depth : Z) : list value * option exn :=
  let '(lines, e) :=
    print_each (λ child is_last, _print_ascii_recursive child [] is_last 1 max_depth)
      (children node) in
  (title node :: lines, e).



(** Tanakh with the Torah and two of its books, and the Prophets. *)
Definition tanakh : TreeNode :=
  mkTreeNode (VStr (u "Tanakh")) VNone category [VStr (u "Tanakh")]
    [mkTreeNode (VStr (u "Torah")) VNone category [VStr (u "Tanakh"); VStr (u "Torah")]
       [mkTreeNode (VStr (u "Genesis")) VNone book
          [VStr (u "Tanakh"); VStr (u "Torah")] [];
        mkTreeNode (VStr (u "Exodus")) VNone book
          [VStr (u "Tanakh"); VStr (u "Torah")] []];
     mkTreeNode (VStr (u "Prophets")) VNone category
       [VStr (u "Tanakh"); VStr (u "Prophets")] []].

End AsciiTree.

(** * The fields of a summary, for the statements *)

Module SummaryShape.

(** [obj.get(k)] on what is known to be a dict. *)
Definition field (k : string) (obj : value) : value :=
  match obj with
  | VDict d => dict_get_default d (u k) VNone
  | _ => VNone
  end.

(** A cleaned line: a str without a tag that splitting on whitespace and
    joining with single spaces leaves as it is. *)
Definition clean_line_form (line : value) : Prop :=
  ∃ s, line = VStr s ∧ CleanSpec.has_tag s = false ∧ join [SPACE] (split s) = s.

End SummaryShape.

(** * 2-search-wrapper/implicit_neat.py *)

Module ImplicitNeat.

(** [re.sub(r"<[^>]+>", "", s)]: a match starts at a [<] whose next
    character is no [>] and that has a [>] further on, and ends at the
    first such [>]; [in_tag] holds inside a match. *)
Fixpoint strip_from (in_tag : bool) (s : str) : str :=
  match s with
  | [] => []
  | c :: r =>
      if in_tag then
        if c =? GT then strip_from false r else strip_from true r
      else if (c =? LT)
              && match r with
                 | d :: r' => negb (d =? GT) && existsb (N.eqb GT) r'
                 | [] => false
                 end
      then strip_from true r
      else c :: strip_from false r
  end.

Definition _strip_html (s : str) : str := strip_from false s.

(** The string has the empty tag, a [<] with a [>] right after it. *)
Fixpoint has_empty_tag (s : str) : bool :=
  match s with
  | [] => false
  | c :: r =>
      ((c =? LT) && match r with d :: _ => d =? GT | [] => false end)
      || has_empty_tag r
  end.

End ImplicitNeat.

(** * The two library pipelines, for the statements *)

Module PipelineSpec.

(** [[{"category": "Bible", "contents": [{"title": "Genesis",
    "categories": ["Tanakh", "Torah"]}]}]]: a book with an explicit
    category list that differs from the walk. *)
Definition explicit_index : value :=
  VList [VDict [(VStr (u "category"), VStr (u "Bible"));
                (VStr (u "contents"),
                 VList [VDict [(VStr (u "title"), VStr (u "Genesis"));
                               (VStr (u "categories"),
                                VList [VStr (u "Tanakh"); VStr (u "Torah")])]])]].

End PipelineSpec.

(** * The optional calls of get_ref_info, for the statements *)

Module DegradeSpec.

Import Endpoints345.



End DegradeSpec.

(** * Properties *)

(** ** The result monad *)

Lemma bind_Ok {A B} (f : A → result B) (a : A) : (Ok a ≫= f) = f a.
Proof. reflexivity. Qed.

Lemma bind_Raise {A B} (f : A → result B) (e : exn) : (Raise e ≫= f) = Raise e.
Proof. reflexivity. Qed.

Lemma dict_get_default_None (d : items) (k : str) (default : value) :
  dict_get d (VStr k) = None → dict_get_default d k default = default.
Proof. unfold dict_get_default. by intros ->. Qed.

Lemma dict_get_default_Some (d : items) (k : str) (default v : value) :
  dict_get d (VStr k) = Some v → dict_get_default d k default = v.
Proof. unfold dict_get_default. by intros ->. Qed.

Lemma collect_app {A B} (f : A → result (option B)) (xs ys : list A) :
  collect f (xs ++ ys) = (a ← collect f xs; b ← collect f ys; Ok (a ++ b)).
Proof.
  induction xs as [|x xs IH]; simpl.
  - destruct (collect f ys); reflexivity.
  - destruct (f x) as [n|e]; simpl; [|reflexivity].
    rewrite IH. destruct (collect f xs) as [a|e]; simpl; [|reflexivity].
    destruct (collect f ys) as [b|e]; simpl; [|reflexivity].
    destruct n; reflexivity.
Qed.

Lemma collect_ext {A B} (f g : A → result (option B)) (xs : list A) :
  (∀ x, x ∈ xs → f x = g x) → collect f xs = collect g xs.
Proof.
  induction xs as [|x xs IH]; intros H; simpl; [reflexivity|].
  rewrite (H x) by left. rewrite IH; [reflexivity|].
  intros y Hy. apply H. by right.
Qed.

(** ** tree_of_life.py: the equations of the normalizer *)

Section tree_of_life.
Import TreeOfLife.

(** The body of [_normalize_node] on a dict, as the source writes it. *)
Lemma _normalize_node_dict (d : items) (parent_path : list value) :
  _normalize_node (VDict d) parent_path =
    if dict_has d (VStr (u "category")) then
      let title := dict_get_default d (u "category") VNone in
      let he_title := dict_get_default d (u "heCategory") VNone in
      let path := parent_path ++ [title] in
      children_raw ←
        py_iter (py_or (dict_get_default d (u "contents") (VList [])) (VList []));
      children ← collect (λ child_raw, _normalize_node child_raw path) children_raw;
      Ok (Some (_make_category_node title he_title path children))
    else if dict_has d (VStr (u "title")) then
      let title := dict_get_default d (u "title") VNone in
      let he_title := dict_get_default d (u "heTitle") VNone in
      let categories := dict_get_default d (u "categories") VNone in
      Ok (Some (_make_book_node title he_title (book_path categories parent_path title)))
    else Ok None.
Proof.
  cbn [_normalize_node].
  destruct (dict_has d (VStr (u "category"))); [|reflexivity].
  cbv zeta.
  set (path := parent_path ++ [_]).
  match goal with |- (?c d ≫= _) = _ =>
    assert (Hc : ∀ es, c es =
      (children_raw ← py_iter (py_or (dict_get_default es (u "contents") (VList []))
                                      (VList []));
       collect (λ child_raw, _normalize_node child_raw path) children_raw))
  end.
  { induction es as [|[k v] es IH]; [reflexivity|].
    unfold dict_get_default in *. cbn [dict_get].
    destruct (py_eq k (VStr (u "contents"))); [|exact IH].
    unfold py_or. destruct (truthy v) eqn:Hv; [|reflexivity].
    destruct v as [| | |s|l|d']; try reflexivity.
    - cbn [py_iter bind_Ok]. rewrite bind_Ok.
      clear. induction s as [|c s IH]; [reflexivity|].
      cbn [collect map]. rewrite IH. reflexivity.
    - cbn [py_iter]. rewrite bind_Ok.
      clear. induction d' as [|[c x] d' IH]; [reflexivity|].
      cbn [collect map fst]. rewrite IH. reflexivity. }
  rewrite Hc.
  destruct (py_iter _) as [cs|e]; [|reflexivity].
  rewrite !bind_Ok. reflexivity.
Qed.

End tree_of_life.

Section tree_of_life_spec.
Import TreeOfLife Spec.

Lemma walk_node (t h : value) (ty : node_type) (p : list value) (cs : list TreeNode) :
  walk (mkTreeNode t h ty p cs) =
    (if decide (ty = book) then [mkFlatBook t h p] else []) ++ concat (map walk cs).
Proof.
  cbn [walk]. f_equal.
  induction cs as [|c cs IH]; [reflexivity|].
  cbn [map concat]. by rewrite IH.
Qed.

Lemma well_formed_dict (d : items) :
  well_formed (VDict d) =
    if dict_has d (VStr (u "category")) then
      negb (dict_has d (VStr (u "title")))
      && match dict_get d (VStr (u "contents")) with
         | None => true
         | Some (VList l) => forallb well_formed l
         | Some _ => false
         end
    else if dict_has d (VStr (u "title")) then
      match dict_get d (VStr (u "contents")) with
      | Some (VList (_ :: _)) => false
      | _ => true
      end
    else true.
Proof.
  cbn [well_formed].
  destruct (dict_has d (VStr (u "category"))); [|reflexivity].
  f_equal.
  induction d as [|[k v] d IH]; [reflexivity|].
  cbn [dict_get]. destruct (py_eq k (VStr (u "contents"))); [|exact IH].
  reflexivity.
Qed.

Lemma title_leaves_dict (d : items) (trail : list value) :
  title_leaves (VDict d) trail =
    let has_category := dict_has d (VStr (u "category")) in
    let has_title := dict_has d (VStr (u "title")) in
    if negb has_category && negb has_title then []
    else
      let below := if has_category
                   then trail ++ [dict_get_default d (u "category") VNone]
                   else trail in
      match dict_get d (VStr (u "contents")) with
      | Some (VList (c :: l)) =>
          concat (map (λ child, title_leaves child below) (c :: l))
      | _ => if has_title then [leaf_record d trail] else []
      end.
Proof.
  cbn [title_leaves]. cbv zeta.
  destruct (negb _ && negb _); [reflexivity|].
  set (below := if dict_has d (VStr (u "category")) then _ else _).
  match goal with |- match ?F d with _ => _ end = _ =>
    assert (Hc : ∀ es, F es =
      match dict_get es (VStr (u "contents")) with
      | Some (VList (c :: l)) =>
          Some (concat (map (λ child, title_leaves child below) (c :: l)))
      | _ => None
      end)
  end.
  { induction es as [|[k v] es IH]; [reflexivity|].
    cbn [dict_get]. destruct (py_eq k (VStr (u "contents"))); [|exact IH].
    destruct v as [| | | |[|c l]|]; reflexivity. }
  rewrite Hc.
  destruct (dict_get d (VStr (u "contents"))) as [[| | | |[|c l]|]|]; reflexivity.
Qed.

Lemma dict_get_elem {A} (d : list (value * A)) (k : value) (v : A) :
  dict_get d k = Some v → ∃ k', (k', v) ∈ d.
Proof.
  induction d as [|[k' x] d IH]; [discriminate|].
  cbn [dict_get]. destruct (py_eq k' k).
  - intros [= ->]. exists k'. left.
  - intros H. destruct (IH H) as [k'' Hk]. exists k''. by right.
Qed.

Lemma collect_normalizes (l : list value) (path : list value) :
  Forall normalizes l →
  forallb well_formed l = true →
  ∃ cs, collect (λ child_raw, _normalize_node child_raw path) l = Ok cs
        ∧ concat (map walk cs) = concat (map (λ child, title_leaves child path) l).
Proof.
  induction 1 as [|c l Hc _ IH]; intros Hwf.
  - exists []. done.
  - cbn [forallb] in Hwf. apply andb_prop in Hwf as [Hwc Hwl].
    destruct (Hc Hwc path) as (r & Hr & Hrec).
    destruct (IH Hwl) as (cs & Hcs & Hflat).
    cbn [collect]. rewrite Hr, bind_Ok, Hcs, bind_Ok.
    eexists. split; [reflexivity|].
    cbn [map concat]. rewrite <- Hrec, <- Hflat.
    destruct r; reflexivity.
Qed.

Lemma well_formed_normalizes (raw : value) : normalizes raw.
Proof.
  enough (normalizes raw
          ∧ match raw with VList l => Forall normalizes l | _ => True end) by tauto.
  induction raw as [| | | |l IH|d IH] using value_rect_nested;
    try (split; [intros Hwf; discriminate Hwf|exact I]).
  - split; [intros Hwf; discriminate Hwf|].
    eapply Forall_impl; [exact IH|]. by intros x [Hx _].
  - split; [|exact I].
    intros Hwf parent_path.
    rewrite well_formed_dict in Hwf.
    rewrite _normalize_node_dict, title_leaves_dict. cbv zeta.
    destruct (dict_has d (VStr (u "category"))) eqn:Hcat.
    + apply andb_prop in Hwf as [Htitle Hcontents].
      apply negb_true_iff in Htitle. rewrite Htitle.
      cbn [negb andb].
      assert (Hdef : dict_get_default d (u "contents") (VList []) =
                     match dict_get d (VStr (u "contents")) with
                     | Some v => v
                     | None => VList []
                     end) by reflexivity.
      rewrite Hdef. clear Hdef.
      destruct (dict_get d (VStr (u "contents"))) as [v|] eqn:Hget.
      * destruct v as [| | | |l|]; try discriminate.
        apply dict_get_elem in Hget as Hin. destruct Hin as [k' Hin].
        rewrite Forall_forall in IH. destruct (IH _ Hin) as [_ [_ Hl]].
        cbn [snd] in Hl.
        set (path := parent_path ++ [_]).
        destruct (collect_normalizes l path Hl Hcontents) as (cs & Hcs & Hflat).
        assert (Hiter : py_iter (py_or (VList l) (VList [])) = Ok l).
        { unfold py_or. destruct l; reflexivity. }
        rewrite Hiter, bind_Ok, Hcs, bind_Ok.
        eexists. split; [reflexivity|].
        cbn [records_of]. unfold build_flat_book_list, _make_category_node.
        rewrite walk_node. rewrite decide_False by discriminate.
        cbn [app]. rewrite Hflat. by destruct l.
      * cbn. eexists. split; [reflexivity|]. reflexivity.
    + destruct (dict_has d (VStr (u "title"))) eqn:Htitle.
      * eexists. split; [reflexivity|].
        cbn [negb andb records_of]. unfold build_flat_book_list, _make_book_node.
        rewrite walk_node, decide_True by reflexivity.
        destruct (dict_get d (VStr (u "contents"))) as [[| | | |[|c l]|]|];
          try discriminate; reflexivity.
      * eexists. split; reflexivity.
Qed.

End tree_of_life_spec.

(** ** make_tree.py: the equation of the walk *)

(** The loop body of [_walk] on a dict, as the source writes it. *)
Lemma _walk_node_dict (d : items) (trail : list value) :
  MakeTree._walk_node (VDict d) trail =
    if dict_has d (VStr (u "category")) && dict_has d (VStr (u "contents")) then
      let new_trail := trail ++ [dict_get_default d (u "category") VNone] in
      MakeTree._walk (dict_get_default d (u "contents") VNone) new_trail
    else if dict_has d (VStr (u "title")) then
      Ok [MakeTree.mkBook (dict_get_default d (u "title") VNone)
                 (dict_get_default d (u "heTitle") VNone)
                 trail]
    else Ok [].
Proof.
  cbn [MakeTree._walk_node].
  destruct (dict_has d (VStr (u "category")) && dict_has d (VStr (u "contents")))
    eqn:Hboth; [|reflexivity].
  apply andb_prop in Hboth as [_ Hcontents]. cbv zeta.
  generalize (trail ++ [dict_get_default d (u "category") VNone]).
  intros new_trail.
  unfold dict_has in Hcontents. unfold dict_get_default.
  revert Hcontents.
  induction d as [|[k v] d IH]; [discriminate|].
  cbn [dict_get]. destruct (py_eq k (VStr (u "contents"))); [|exact IH].
  intros _. unfold MakeTree._walk.
  destruct v as [| | |s|l|d']; try reflexivity.
  - cbn [py_iter]. rewrite bind_Ok.
    clear. induction s as [|c s IH]; [reflexivity|].
    cbn [gather map]. by rewrite IH.
  - cbn [py_iter]. rewrite bind_Ok.
    clear. induction d' as [|[c x] d' IH]; [reflexivity|].
    cbn [gather map fst]. by rewrite IH.
Qed.

(** ** tree_of_life.py: flattening, precedence of the category check *)

Section tree_claims.
Import TreeOfLife Spec.

Lemma collect_drops_unrecognized (path : list value) (d : items)
    (before after : list value) :
  dict_has d (VStr (u "category")) = false →
  dict_has d (VStr (u "title")) = false →
  collect (λ raw, _normalize_node raw path) (before ++ VDict d :: after) =
  collect (λ raw, _normalize_node raw path) (before ++ after).
Proof.
  intros Hcat Htitle.
  rewrite !collect_app. cbn [collect].
  rewrite _normalize_node_dict, Hcat, Htitle, bind_Ok.
  destruct (collect _ before) as [a|e]; [|reflexivity].
  rewrite !bind_Ok.
  destruct (collect _ after) as [b|e]; reflexivity.
Qed.

(** C7: for every well-formed raw index payload, building the tree
    succeeds and flattening it yields exactly the records of the
    title-bearing leaf nodes of the payload, in depth-first pre-order; a
    raw node that has neither a category nor a title field normalizes to
    [None] without an exception, whatever it contains, and the tree built
    from a payload is the same with or without such a node. *)
Theorem flatten_lists_title_leaves :
  (∀ (fetch : result value) (payload : list value),
     forallb well_formed payload = true →
     ∃ tree,
       build_library_tree fetch (VList payload) = Ok tree
       ∧ build_flat_book_list tree
         = concat (map (λ raw, title_leaves raw []) payload))
  ∧ (∀ (d : items) (parent_path : list value),
       dict_has d (VStr (u "category")) = false →
       dict_has d (VStr (u "title")) = false →
       _normalize_node (VDict d) parent_path = Ok None)
  ∧ (∀ (fetch : result value) (d : items) (before after : list value),
       dict_has d (VStr (u "category")) = false →
       dict_has d (VStr (u "title")) = false →
       build_library_tree fetch (VList (before ++ VDict d :: after))
       = build_library_tree fetch (VList (before ++ after))).
Proof.
  split; [|split].
  - intros fetch payload Hwf.
    assert (Hall : Forall normalizes payload).
    { apply Forall_forall. intros x _. apply well_formed_normalizes. }
    destruct (collect_normalizes payload [] Hall Hwf) as (cs & Hcs & Hflat).
    unfold build_library_tree. rewrite bind_Ok, Hcs, bind_Ok.
    eexists. split; [reflexivity|].
    unfold build_flat_book_list. rewrite walk_node.
    rewrite decide_False by discriminate. exact Hflat.
  - intros d parent_path Hcat Htitle.
    by rewrite _normalize_node_dict, Hcat, Htitle.
  - intros fetch d before after Hcat Htitle.
    unfold build_library_tree. rewrite !bind_Ok.
    by rewrite collect_drops_unrecognized.
Qed.

Lemma flatten_lists_title_leaves_witness :
  ∃ tree,
    build_library_tree (Raise ValueError) (VList Sample.mixed_index) = Ok tree
    ∧ build_flat_book_list tree
      = concat (map (λ raw, title_leaves raw []) Sample.mixed_index).
Proof.
  apply (proj1 flatten_lists_title_leaves). vm_compute. reflexivity.
Defined.

(** The outcome for a node with a category field is a function of its
    fields [category], [heCategory] and [contents]. *)
Lemma _normalize_node_category_fields (d d' : items) (parent_path : list value) :
  dict_has d (VStr (u "category")) = true →
  dict_has d' (VStr (u "category")) = true →
  dict_get d (VStr (u "category")) = dict_get d' (VStr (u "category")) →
  dict_get d (VStr (u "heCategory")) = dict_get d' (VStr (u "heCategory")) →
  dict_get d (VStr (u "contents")) = dict_get d' (VStr (u "contents")) →
  _normalize_node (VDict d) parent_path = _normalize_node (VDict d') parent_path.
Proof.
  intros Hcat Hcat' H1 H2 H3.
  rewrite !_normalize_node_dict, Hcat, Hcat'. unfold dict_get_default.
  by rewrite H1, H2, H3.
Qed.

(** C10, as amended: in tree_of_life.py a raw node with a category field
    is normalized as a category node, with or without a title: whenever
    the call returns, it returns the category node of that field whose
    children are the normalized entries of its contents, the flattener
    takes its records from these children only, and the outcome is the
    same for any node with the same category, heCategory and contents,
    so for the node without its title; without contents the call does
    return.  Every node that the normalizer returns is a category node
    of a raw node with a category field, or a book node of a raw node
    with a title and no category field, never both.  The loop of
    make_tree.py tests for category and contents together: a dict with
    both is descended into and gives no record of its own, with or
    without a title, but a dict with a title that lacks one of the two
    is listed as a book, also when it has a category field. *)
Theorem category_check_comes_first :
  (∀ (d : items) (parent_path : list value) (r : option TreeNode),
     dict_has d (VStr (u "category")) = true →
     dict_has d (VStr (u "title")) = true →
     _normalize_node (VDict d) parent_path = Ok r →
     ∃ children_raw children,
       py_iter (py_or (dict_get_default d (u "contents") (VList [])) (VList []))
       = Ok children_raw
       ∧ collect (λ child_raw,
                    _normalize_node child_raw
                      (parent_path ++ [dict_get_default d (u "category") VNone]))
           children_raw
         = Ok children
       ∧ r = Some (_make_category_node
                     (dict_get_default d (u "category") VNone)
                     (dict_get_default d (u "heCategory") VNone)
                     (parent_path ++ [dict_get_default d (u "category") VNone])
                     children)
       ∧ records_of r = concat (map build_flat_book_list children))
  ∧ (∀ (d d' : items) (parent_path : list value),
       dict_has d (VStr (u "category")) = true →
       dict_has d' (VStr (u "category")) = true →
       dict_get d (VStr (u "category")) = dict_get d' (VStr (u "category")) →
       dict_get d (VStr (u "heCategory")) = dict_get d' (VStr (u "heCategory")) →
       dict_get d (VStr (u "contents")) = dict_get d' (VStr (u "contents")) →
       _normalize_node (VDict d) parent_path = _normalize_node (VDict d') parent_path)
  ∧ (∀ (d : items) (parent_path : list value),
       dict_has d (VStr (u "category")) = true →
       dict_get d (VStr (u "contents")) = None →
       _normalize_node (VDict d) parent_path
       = Ok (Some (_make_category_node
                     (dict_get_default d (u "category") VNone)
                     (dict_get_default d (u "heCategory") VNone)
                     (parent_path ++ [dict_get_default d (u "category") VNone])
                     [])))
  ∧ (∀ (raw : value) (parent_path : list value) (n : TreeNode),
       _normalize_node raw parent_path = Ok (Some n) →
       (type n = category ∧ py_in (u "category") raw = Ok true)
       ∨ (type n = book ∧ py_in (u "category") raw = Ok false
          ∧ py_in (u "title") raw = Ok true))
  ∧ (∀ (d : items) (trail : list value),
       dict_has d (VStr (u "category")) = true →
       dict_has d (VStr (u "contents")) = true →
       MakeTree._walk_node (VDict d) trail
       = MakeTree._walk (dict_get_default d (u "contents") VNone)
           (trail ++ [dict_get_default d (u "category") VNone]))
  ∧ (∀ (d : items) (trail : list value),
       dict_has d (VStr (u "category")) && dict_has d (VStr (u "contents")) = false →
       dict_has d (VStr (u "title")) = true →
       MakeTree._walk_node (VDict d) trail
       = Ok [MakeTree.mkBook (dict_get_default d (u "title") VNone)
               (dict_get_default d (u "heTitle") VNone) trail]).
Proof.
  split; [|split; [|split; [|split; [|split]]]].
  - intros d parent_path r Hcat _ Hr.
    rewrite _normalize_node_dict, Hcat in Hr. cbv zeta in Hr.
    destruct (py_iter _) as [cs|e]; [|discriminate].
    rewrite bind_Ok in Hr.
    destruct (collect _ cs) as [children|e] eqn:Hchildren; [|discriminate].
    rewrite bind_Ok in Hr. injection Hr as <-.
    exists cs, children. split; [reflexivity|]. split; [exact Hchildren|].
    split; [reflexivity|].
    cbn [records_of]. unfold build_flat_book_list, _make_category_node.
    rewrite walk_node. by rewrite decide_False by discriminate.
  - apply _normalize_node_category_fields.
  - intros d parent_path Hcat Hnone.
    rewrite _normalize_node_dict, Hcat. cbv zeta.
    by rewrite (dict_get_default_None _ _ _ Hnone).
  - intros raw parent_path n Hn.
    destruct raw as [| | |s|l|d]; try discriminate.
    + cbn in Hn. destruct (substring _ s); [discriminate|].
      cbn in Hn. destruct (substring _ s); discriminate.
    + cbn in Hn. destruct (existsb _ l); [discriminate|].
      cbn in Hn. destruct (existsb _ l); discriminate.
    + rewrite _normalize_node_dict in Hn. cbn [py_in].
      destruct (dict_has d (VStr (u "category"))).
      * left. split; [|reflexivity]. cbv zeta in Hn.
        destruct (py_iter _) as [cs|e]; [|discriminate].
        rewrite bind_Ok in Hn.
        destruct (collect _ cs) as [children|e]; [|discriminate].
        rewrite bind_Ok in Hn. by injection Hn as <-.
      * right. destruct (dict_has d (VStr (u "title"))); [|discriminate].
        by injection Hn as <-.
  - intros d trail Hcat Hcontents.
    by rewrite _walk_node_dict, Hcat, Hcontents.
  - intros d trail Hboth Htitle.
    by rewrite _walk_node_dict, Hboth, Htitle.
Qed.

Lemma category_check_comes_first_witness :
  _normalize_node Sample.titled_category []
  = _normalize_node (VDict [(VStr (u "category"), VStr (u "Tanakh"))]) []
  ∧ MakeTree._walk_node Sample.titled_category []
    = Ok [MakeTree.mkBook (VStr (u "Genesis")) VNone []].
Proof.
  split.
  - refine (proj1 (proj2 category_check_comes_first)
              (match Sample.titled_category with VDict d => d | _ => [] end)
              [(VStr (u "category"), VStr (u "Tanakh"))] [] _ _ _ _ _);
      vm_compute; reflexivity.
  - refine (proj2 (proj2 (proj2 (proj2 (proj2 category_check_comes_first))))
              (match Sample.titled_category with VDict d => d | _ => [] end) [] _ _);
      vm_compute; reflexivity.
Defined.

(** C10, as stated, fails in make_tree.py: its loop asks for both
    [category] and [contents] before it descends, so a node with a
    category and a title and no contents, which tree_of_life.py makes a
    category node, is listed there as a book, by its title. *)
Lemma make_tree_titled_category :
  py_in (u "category") Sample.titled_category = Ok true
  ∧ py_in (u "title") Sample.titled_category = Ok true
  ∧ (∃ n, _normalize_node Sample.titled_category [] = Ok (Some n)
          ∧ type n = category ∧ build_flat_book_list n = [])
  ∧ MakeTree.flatten_library_tree (VList [Sample.titled_category])
    = Ok [MakeTree.mkBook (VStr (u "Genesis")) VNone []].
Proof.
  split; [vm_compute; reflexivity|].
  split; [vm_compute; reflexivity|].
  split; [eexists; split; [vm_compute; reflexivity|]; split; vm_compute; reflexivity|].
  vm_compute. reflexivity.
Qed.

End tree_claims.

(** ** make_tree.py: the flat list and the lookup *)

Section make_tree_claims.
Import MakeTree LookupSpec.

(** C3, as amended: the two pipelines differ.  In tree_of_life.py a book
    node whose raw record has a non-empty [categories] list gets that
    list as its path, and one without gets the path of its parent
    followed by its own title; for the index with the category Tanakh
    that holds the book Genesis, its flat list has one record, with the
    path [Tanakh, Genesis], and its lookup has the keys "Genesis" and
    "בראשית" and no key "genesis".  In make_tree.py the category path of
    a book is the walk from the root, whatever [categories] list its
    record has; for the same index its flat list has one record, with
    the category path [Tanakh], and the lookup built from the list has
    the keys "genesis" and "בראשית". *)
Theorem explicit_categories_per_pipeline :
  (∀ (d : items) (parent_path : list value) (c : value) (cs : list value),
     dict_has d (VStr (u "category")) = false →
     dict_has d (VStr (u "title")) = true →
     dict_get d (VStr (u "categories")) = Some (VList (c :: cs)) →
     TreeOfLife._normalize_node (VDict d) parent_path
     = Ok (Some (TreeOfLife._make_book_node
                   (dict_get_default d (u "title") VNone)
                   (dict_get_default d (u "heTitle") VNone)
                   (c :: cs))))
  ∧ (∀ (d : items) (parent_path : list value),
       dict_has d (VStr (u "category")) = false →
       dict_has d (VStr (u "title")) = true →
       (∀ c cs, dict_get d (VStr (u "categories")) ≠ Some (VList (c :: cs))) →
       TreeOfLife._normalize_node (VDict d) parent_path
       = Ok (Some (TreeOfLife._make_book_node
                     (dict_get_default d (u "title") VNone)
                     (dict_get_default d (u "heTitle") VNone)
                     (parent_path ++ [dict_get_default d (u "title") VNone]))))
  ∧ (∀ (d : items) (trail : list value),
       dict_has d (VStr (u "category")) && dict_has d (VStr (u "contents")) = false →
       dict_has d (VStr (u "title")) = true →
       _walk_node (VDict d) trail
       = Ok [mkBook (dict_get_default d (u "title") VNone)
               (dict_get_default d (u "heTitle") VNone) trail])
  ∧ (∃ tree b lookup,
       TreeOfLife.build_library_tree (Raise ValueError) Sample.genesis_index = Ok tree
       ∧ TreeOfLife.build_flat_book_list tree = [b]
       ∧ TreeOfLife.fb_path b = [VStr (u "Tanakh"); VStr (u "Genesis")]
       ∧ TreeOfLife.build_title_lookup [b] = Ok lookup
       ∧ dict_get lookup (VStr (u "Genesis")) = Some b
       ∧ dict_get lookup (VStr (u "בראשית")) = Some b
       ∧ dict_get lookup (VStr (u "genesis")) = None)
  ∧ (∃ b, flatten_library_tree Sample.genesis_index = Ok [b]
          ∧ categories b = [VStr (u "Tanakh")]
          ∧ is_Some (build_book_lookup ascii_lower [b] !! u "genesis")
          ∧ is_Some (build_book_lookup ascii_lower [b] !! u "בראשית")).
Proof.
  split; [|split; [|split; [|split]]].
  - intros d parent_path c cs Hcat Htitle Hcats.
    rewrite _normalize_node_dict, Hcat, Htitle. cbv zeta.
    unfold TreeOfLife.book_path.
    by rewrite (dict_get_default_Some _ _ _ _ Hcats).
  - intros d parent_path Hcat Htitle Hcats.
    rewrite _normalize_node_dict, Hcat, Htitle. cbv zeta.
    unfold TreeOfLife.book_path, dict_get_default at 3.
    destruct (dict_get d (VStr (u "categories"))) as [[| | | |[|c cs]|]|] eqn:Hget;
      try reflexivity.
    by destruct (Hcats c cs).
  - intros d trail Hboth Htitle.
    by rewrite _walk_node_dict, Hboth, Htitle.
  - do 3 eexists. split; [vm_compute; reflexivity|].
    split; [vm_compute; reflexivity|].
    split; [reflexivity|].
    split; [vm_compute; reflexivity|].
    split; [vm_compute; reflexivity|].
    split; vm_compute; reflexivity.
  - eexists. split; [vm_compute; reflexivity|].
    split; [reflexivity|].
    split; eexists; vm_compute; reflexivity.
Qed.

Lemma explicit_categories_per_pipeline_witness :
  TreeOfLife._normalize_node
    (VDict [(VStr (u "title"), VStr (u "Genesis"));
            (VStr (u "categories"), VList [VStr (u "Tanakh"); VStr (u "Torah")])])
    [VStr (u "Bible")]
  = Ok (Some (TreeOfLife._make_book_node (VStr (u "Genesis")) VNone
                [VStr (u "Tanakh"); VStr (u "Torah")]))
  ∧ _walk_node
      (VDict [(VStr (u "title"), VStr (u "Genesis"));
              (VStr (u "categories"), VList [VStr (u "Tanakh"); VStr (u "Torah")])])
      [VStr (u "Bible")]
    = Ok [mkBook (VStr (u "Genesis")) VNone [VStr (u "Bible")]].
Proof.
  split.
  - refine (proj1 explicit_categories_per_pipeline
              [(VStr (u "title"), VStr (u "Genesis"));
               (VStr (u "categories"), VList [VStr (u "Tanakh"); VStr (u "Torah")])]
              [VStr (u "Bible")] (VStr (u "Tanakh")) [VStr (u "Torah")] _ _ _);
      vm_compute; reflexivity.
  - refine (proj1 (proj2 (proj2 explicit_categories_per_pipeline))
              [(VStr (u "title"), VStr (u "Genesis"));
               (VStr (u "categories"), VList [VStr (u "Tanakh"); VStr (u "Torah")])]
              [VStr (u "Bible")] _ _);
      vm_compute; reflexivity.
Defined.

(** C3, as stated, holds of neither pipeline: make_tree.py gives a book
    with an explicit category list the walk, not that list, and
    tree_of_life.py gives the book of the scenario the path that ends
    in its title and files it under the title as it is written, not
    under "genesis". *)
Lemma explicit_categories_in_neither_pipeline :
  (∃ b, flatten_library_tree PipelineSpec.explicit_index = Ok [b]
        ∧ categories b = [VStr (u "Bible")]
        ∧ categories b ≠ [VStr (u "Tanakh"); VStr (u "Torah")])
  ∧ (∃ tree b lookup,
       TreeOfLife.build_library_tree (Raise ValueError) PipelineSpec.explicit_index
       = Ok tree
       ∧ TreeOfLife.build_flat_book_list tree = [b]
       ∧ TreeOfLife.fb_path b = [VStr (u "Tanakh"); VStr (u "Torah")]
       ∧ TreeOfLife.build_title_lookup [b] = Ok lookup
       ∧ dict_get lookup (VStr (u "genesis")) = None)
  ∧ (∃ tree b lookup,
       TreeOfLife.build_library_tree (Raise ValueError) Sample.genesis_index = Ok tree
       ∧ TreeOfLife.build_flat_book_list tree = [b]
       ∧ TreeOfLife.fb_path b ≠ [VStr (u "Tanakh")]
       ∧ TreeOfLife.build_title_lookup [b] = Ok lookup
       ∧ dict_get lookup (VStr (u "genesis")) = None).
Proof.
  split; [|split].
  - eexists. split; [vm_compute; reflexivity|].
    split; [reflexivity|]. vm_compute. discriminate.
  - do 3 eexists. split; [vm_compute; reflexivity|].
    split; [vm_compute; reflexivity|].
    split; [reflexivity|].
    split; vm_compute; reflexivity.
  - do 3 eexists. split; [vm_compute; reflexivity|].
    split; [vm_compute; reflexivity|].
    split; [vm_compute; discriminate|].
    split; vm_compute; reflexivity.
Qed.

(** The pipeline of tree_of_life.py gives the same book the walk-derived
    path that ends in its own title, and files it under the title as it
    is written. *)
Example tree_of_life_genesis_index :
  ∃ tree b lookup,
    TreeOfLife.build_library_tree (Raise ValueError) Sample.genesis_index = Ok tree
    ∧ TreeOfLife.build_flat_book_list tree = [b]
    ∧ TreeOfLife.fb_path b = [VStr (u "Tanakh"); VStr (u "Genesis")]
    ∧ TreeOfLife.build_title_lookup [b] = Ok lookup
    ∧ dict_get lookup (VStr (u "Genesis")) = Some b
    ∧ dict_get lookup (VStr (u "genesis")) = None.
Proof.
  do 3 eexists. split; [vm_compute; reflexivity|].
  split; [vm_compute; reflexivity|].
  split; [reflexivity|].
  split; [vm_compute; reflexivity|].
  split; vm_compute; reflexivity.
Qed.

Section lookup.
Variable lower : str → str.

Lemma build_book_lookup_snoc (books : list Book) (b : Book) :
  build_book_lookup lower (books ++ [b]) =
    let lookup := build_book_lookup lower books in
    let lookup := match title b with
                  | VStr t => <[lower t := b]> lookup
                  | _ => lookup
                  end in
    match heTitle b with
    | VStr h => <[h := b]> lookup
    | _ => lookup
    end.
Proof. unfold build_book_lookup. by rewrite foldl_app. Qed.

Lemma build_book_lookup_step (books : list Book) (b : Book) (k : str) :
  build_book_lookup lower (books ++ [b]) !! k =
    if decide (k ∈ book_keys lower b) then Some b
    else build_book_lookup lower books !! k.
Proof.
  rewrite build_book_lookup_snoc. cbv zeta. unfold book_keys.
  destruct (title b) as [| | |t| |], (heTitle b) as [| | |h| |]; cbn [app];
    rewrite ?lookup_insert;
    repeat match goal with
           | |- context [decide ?P] => destruct (decide P)
           end;
    try reflexivity; exfalso;
    repeat match goal with
           | H : _ ∈ _ :: _ |- _ => apply elem_of_cons in H as [H|H]
           | H : _ ∈ [] |- _ => by apply elem_of_nil in H
           | H : ¬ (_ ∈ _ :: _) |- _ => apply not_elem_of_cons in H as [? H]
           end;
    congruence.
Qed.

(** The entry of a key is the last book that has the key. *)
Lemma build_book_lookup_last (books : list Book) (k : str) :
  build_book_lookup lower books !! k
  = last (filter (λ b, k ∈ book_keys lower b) books).
Proof.
  induction books as [|b books IH] using rev_ind; [reflexivity|].
  rewrite build_book_lookup_step, filter_app, IH.
  rewrite filter_cons, filter_nil.
  case_decide.
  - by rewrite last_snoc.
  - by rewrite app_nil_r.
Qed.

End lookup.

End make_tree_claims.

(** C8, as amended: [build_book_lookup] files every book whose title is a
    string under the lower-cased title and, when its heTitle is a string,
    under the heTitle as it is, a later book overwriting an earlier one:
    the entry of any key is the last book of the list that has the key.
    So for a book with title [t] the entry of [lower t] exists and is the
    last book whose lower-cased title or whose heTitle is [lower t]; it
    is the last book that bears the title [t] when every book with that
    key bears that title. *)
Theorem book_lookup_last_writer (lower : str → str) (books : list MakeTree.Book) :
  let lookup := MakeTree.build_book_lookup lower books in
  (∀ k, lookup !! k = last (filter (λ b, k ∈ LookupSpec.book_keys lower b) books))
  ∧ (∀ b t, b ∈ books → MakeTree.title b = VStr t →
       ∃ b', lookup !! lower t = Some b' ∧ lower t ∈ LookupSpec.book_keys lower b')
  ∧ (∀ b h, b ∈ books → MakeTree.heTitle b = VStr h →
       ∃ b', lookup !! h = Some b' ∧ h ∈ LookupSpec.book_keys lower b')
  ∧ (∀ t, (∀ b', b' ∈ books → lower t ∈ LookupSpec.book_keys lower b' →
             LookupSpec.bears_title t b') →
       lookup !! lower t = last (filter (LookupSpec.bears_title t) books)).
Proof.
  intros lookup.
  assert (Hsome : ∀ b k, b ∈ books → k ∈ LookupSpec.book_keys lower b →
            ∃ b', lookup !! k = Some b' ∧ k ∈ LookupSpec.book_keys lower b').
  { intros b k Hb Hk. unfold lookup. rewrite build_book_lookup_last.
    destruct (last (filter _ books)) as [b'|] eqn:Hlast.
    - exists b'. split; [reflexivity|].
      apply last_Some_elem_of in Hlast. by apply list_elem_of_filter in Hlast as [? _].
    - apply last_None in Hlast.
      assert (Hin : b ∈ filter (λ b, k ∈ LookupSpec.book_keys lower b) books)
        by (by apply list_elem_of_filter).
      rewrite Hlast in Hin. by apply elem_of_nil in Hin. }
  split; [apply build_book_lookup_last|].
  split; [|split].
  - intros b t Hb Ht. apply (Hsome b); [done|].
    unfold LookupSpec.book_keys. rewrite Ht. apply elem_of_app. left. left.
  - intros b h Hb Hh. apply (Hsome b); [done|].
    unfold LookupSpec.book_keys. rewrite Hh. apply elem_of_app. right. left.
  - intros t Hno. unfold lookup. rewrite build_book_lookup_last. f_equal.
    clear lookup Hsome.
    induction books as [|b books IH]; [reflexivity|].
    rewrite !filter_cons.
    rewrite IH by (intros b' Hb'; apply Hno; by right).
    destruct (decide (lower t ∈ _)) as [Hk|Hk],
             (decide (LookupSpec.bears_title t b)) as [Hb|Hb]; try reflexivity.
    + exfalso. apply Hb, Hno; [left|done].
    + exfalso. apply Hk. unfold LookupSpec.book_keys.
      rewrite Hb. apply elem_of_app. left. left.
Qed.

Lemma book_lookup_last_writer_witness :
  ∃ b', MakeTree.build_book_lookup ascii_lower
          [LookupSpec.genesis; LookupSpec.genesis_lower] !! ascii_lower (u "Genesis")
        = Some b'
        ∧ ascii_lower (u "Genesis") ∈ LookupSpec.book_keys ascii_lower b'.
Proof.
  refine (proj1 (proj2 (book_lookup_last_writer ascii_lower
                          [LookupSpec.genesis; LookupSpec.genesis_lower]))
            LookupSpec.genesis (u "Genesis") _ _).
  - left.
  - reflexivity.
Defined.

(** C8, as stated, fails: two books whose titles differ in case share the
    folded key, and the entry of that key is the later book, which does
    not bear the title of the earlier one. *)
Lemma book_lookup_fold_collision :
  let books := [LookupSpec.genesis; LookupSpec.genesis_lower] in
  LookupSpec.genesis ∈ books
  ∧ MakeTree.title LookupSpec.genesis = VStr (u "Genesis")
  ∧ MakeTree.build_book_lookup ascii_lower books !! ascii_lower (u "Genesis")
    = Some LookupSpec.genesis_lower
  ∧ last (filter (LookupSpec.bears_title (u "Genesis")) books) = Some LookupSpec.genesis
  ∧ MakeTree.build_book_lookup ascii_lower books !! ascii_lower (u "Genesis")
    ≠ last (filter (LookupSpec.bears_title (u "Genesis")) books).
Proof.
  cbv zeta. split; [left|]. split; [reflexivity|].
  assert (H1 : MakeTree.build_book_lookup ascii_lower
                 [LookupSpec.genesis; LookupSpec.genesis_lower]
               !! ascii_lower (u "Genesis") = Some LookupSpec.genesis_lower)
    by (vm_compute; reflexivity).
  assert (H2 : last (filter (LookupSpec.bears_title (u "Genesis"))
                       [LookupSpec.genesis; LookupSpec.genesis_lower])
               = Some LookupSpec.genesis)
    by (vm_compute; reflexivity).
  split; [exact H1|]. split; [exact H2|].
  rewrite H1, H2. intros [=]. 
Qed.

(** ** Topic extraction *)

Section topic_claims.
Import TopicSpec.

Lemma dedupe_first_seen_from (seen : gset str) (acc xs : list str) :
  (∀ x, x ∈ seen ↔ x ∈ acc) →
  acc ++ dedupe id seen xs
  = foldl (λ acc x, if decide (x ∈ acc) then acc else acc ++ [x]) acc xs.
Proof.
  revert seen acc. induction xs as [|x xs IH]; intros seen acc Hseen.
  - by rewrite app_nil_r.
  - cbn [dedupe foldl]. unfold id at 1 3.
    destruct (decide (x ∈ seen)) as [Hin|Hout].
    + rewrite decide_True by (by apply Hseen). by apply IH.
    + rewrite decide_False by (by rewrite <- Hseen).
      rewrite <- (IH ({[x]} ∪ seen)).
      * by rewrite <- app_assoc.
      * intros y. rewrite elem_of_union, elem_of_singleton, elem_of_app,
          list_elem_of_singleton, Hseen. tauto.
Qed.

Lemma dedupe_first_seen (xs : list str) : dedupe id ∅ xs = first_seen xs.
Proof.
  unfold first_seen. rewrite <- (dedupe_first_seen_from ∅ [] xs); [reflexivity|].
  intros x. rewrite elem_of_nil. set_solver.
Qed.

(** The keys of what [dedupe] keeps are different and outside [seen]. *)
Lemma dedupe_keys {A} (key : A → str) (seen : gset str) (xs : list A) :
  NoDup (key <$> dedupe key seen xs)
  ∧ ∀ x, x ∈ dedupe key seen xs → (key x ∉ seen) ∧ (x ∈ xs).
Proof.
  revert seen. induction xs as [|x xs IH]; intros seen.
  - split; [constructor|]. intros y Hy. by apply elem_of_nil in Hy.
  - cbn [dedupe]. destruct (decide (key x ∈ seen)) as [Hin|Hout].
    + destruct (IH seen) as [Hnd Hel]. split; [exact Hnd|].
      intros y Hy. destruct (Hel y Hy). split; [done|by right].
    + destruct (IH ({[key x]} ∪ seen)) as [Hnd Hel]. split.
      * cbn [fmap list_fmap]. constructor; [|exact Hnd].
        intros Hk. apply list_elem_of_fmap in Hk as (y & Hky & Hy).
        destruct (Hel y Hy) as [Hout' _]. apply Hout'.
        rewrite <- Hky. apply elem_of_union_l, elem_of_singleton. reflexivity.
      * intros y Hy. apply elem_of_cons in Hy as [->|Hy]; [split; [done|left]|].
        destruct (Hel y Hy) as [Hout' Hin']. split; [|by right].
        intros Hs. apply Hout'. by apply elem_of_union_r.
Qed.

(** On such a list [dedupe] changes nothing. *)
Lemma dedupe_fixed {A} (key : A → str) (seen : gset str) (xs : list A) :
  NoDup (key <$> xs) → (∀ x, x ∈ xs → key x ∉ seen) → dedupe key seen xs = xs.
Proof.
  revert seen. induction xs as [|x xs IH]; intros seen Hnd Hout; [reflexivity|].
  cbn [dedupe]. rewrite decide_False by (apply Hout; left).
  cbn [fmap list_fmap] in Hnd. apply NoDup_cons in Hnd as [Hx Hnd].
  f_equal. apply IH; [exact Hnd|].
  intros y Hy Hs. apply elem_of_union in Hs as [Hs|Hs].
  - apply elem_of_singleton in Hs. apply Hx. rewrite <- Hs.
    apply list_elem_of_fmap. by exists y.
  - apply (Hout y); [by right|done].
Qed.

Lemma dedupe_idempotent {A} (key : A → str) (xs : list A) :
  dedupe key ∅ (dedupe key ∅ xs) = dedupe key ∅ xs.
Proof.
  destruct (dedupe_keys key ∅ xs) as [Hnd _].
  apply dedupe_fixed; [exact Hnd|]. intros x _. set_solver.
Qed.

Lemma slugs_filter (l : list value) :
  Endpoints345.slugs l
  = filter (λ s, s ∉ Endpoints345.BLACKLISTED_TOPIC_IDS) (raw_topic_ids l).
Proof.
  induction l as [|item l IH]; [reflexivity|].
  unfold raw_topic_ids in *. cbn [Endpoints345.slugs omap list_omap].
  destruct item as [| | | | |d]; try exact IH.
  unfold dict_get_default.
  destruct (dict_get d (VStr (u "topic"))) as [[| | |s| |]|]; try exact IH.
  rewrite filter_cons.
  destruct (decide (s ∈ _)) as [Hin|Hout].
  - rewrite decide_False by tauto. exact IH.
  - rewrite decide_True by done. by rewrite IH.
Qed.

(** C6: the ids that [extract_topic_slugs] returns are the raw topic ids
    outside the exclusion set, each once, in the order in which they are
    first seen; entries that are no dicts and ids that are no strings are
    passed over, and an argument that is no list gives the empty list;
    for the five raw ids a, b, a, ai, c the result is a, b, c. *)
Theorem topic_ids_first_seen :
  (∀ l : list value,
     Endpoints345.extract_topic_slugs (VList l)
     = first_seen (filter (λ s, s ∉ Endpoints345.BLACKLISTED_TOPIC_IDS)
                     (raw_topic_ids l)))
  ∧ (∀ raw : value,
       NoDup (Endpoints345.extract_topic_slugs raw)
       ∧ ∀ s, s ∈ Endpoints345.extract_topic_slugs raw → s ≠ u "ai")
  ∧ (∀ raw : value,
       match raw with VList _ => True | _ => Endpoints345.extract_topic_slugs raw = [] end)
  ∧ Endpoints345.extract_topic_slugs five_links = [u "a"; u "b"; u "c"]
  ∧ Endpoints345.extract_topic_slugs ragged_links = [u "a"; u "b"; u "c"].
Proof.
  split; [|split; [|split; [|split]]].
  - intros l. cbn [Endpoints345.extract_topic_slugs].
    by rewrite dedupe_first_seen, slugs_filter.
  - intros raw. destruct raw as [|b|z|w|l|d];
      try (split; [constructor|intros s Hs; by apply elem_of_nil in Hs]).
    cbn [Endpoints345.extract_topic_slugs].
    destruct (dedupe_keys id ∅ (Endpoints345.slugs l)) as [Hnd Hel].
    split; [by rewrite list_fmap_id in Hnd|].
    intros s Hs Hai. destruct (Hel s Hs) as [_ Hin].
    rewrite slugs_filter in Hin. apply list_elem_of_filter in Hin as [Hout _].
    apply Hout. rewrite Hai. by apply elem_of_singleton.
  - intros raw. by destruct raw.
  - vm_compute. reflexivity.
  - vm_compute. reflexivity.
Qed.

(** fetch_topics.py has the same function without the exclusion set. *)
Example fetch_topics_keeps_ai :
  FetchTopics.extract_topic_slugs five_links = [u "a"; u "b"; u "ai"; u "c"].
Proof. vm_compute. reflexivity. Qed.

Lemma topic_ids_first_seen_witness :
  u "a" ∈ Endpoints345.extract_topic_slugs five_links ∧ u "a" ≠ u "ai".
Proof.
  assert (Hin : u "a" ∈ Endpoints345.extract_topic_slugs five_links).
  { vm_compute. left. }
  split; [exact Hin|].
  exact (proj2 (proj1 (proj2 topic_ids_first_seen) five_links) (u "a") Hin).
Defined.

Lemma slugs_of_ids (ids : list str) :
  Endpoints345.slugs (VStr <$> ids) = [] ∧ FetchTopics.slugs (VStr <$> ids) = [].
Proof. induction ids as [|i ids [IH1 IH2]]; [done|]. by split. Qed.

Lemma topics_of_compact (ts : list value) :
  Forall compact ts →
  Endpoints345.topics ts = Ok [] ∧ FetchTopics.topics ts = Ok [].
Proof.
  induction 1 as [|t ts (i & ti & s & ->) _ [IH1 IH2]]; [done|].
  split; [exact IH1|exact IH2].
Qed.

Lemma topics_compact_345 (l ts : list value) :
  Endpoints345.topics l = Ok ts → Forall compact ts.
Proof.
  revert ts. induction l as [|item l IH]; intros ts Hts.
  - injection Hts as <-. constructor.
  - cbn [Endpoints345.topics] in Hts.
    destruct item as [| | | | |d]; try by apply IH.
    destruct (dict_get_default d (u "topic") VNone) as [| | |topic_id| |];
      try by apply IH.
    destruct (decide _); [by apply IH|].
    destruct (topic_fields d) as [[source_slug title]|e]; [|discriminate].
    rewrite bind_Ok in Hts.
    destruct (Endpoints345.topics l) as [ts'|e]; [|discriminate].
    rewrite bind_Ok in Hts. injection Hts as <-.
    constructor; [by eexists _, _, _|by apply IH].
Qed.

Lemma topics_compact_fetch (l ts : list value) :
  FetchTopics.topics l = Ok ts → Forall compact ts.
Proof.
  revert ts. induction l as [|item l IH]; intros ts Hts.
  - injection Hts as <-. constructor.
  - cbn [FetchTopics.topics] in Hts.
    destruct item as [| | | | |d]; try by apply IH.
    destruct (dict_get_default d (u "topic") VNone) as [| | |topic_id| |];
      try by apply IH.
    destruct (topic_fields d) as [[source_slug title]|e]; [|discriminate].
    rewrite bind_Ok in Hts.
    destruct (FetchTopics.topics l) as [ts'|e]; [|discriminate].
    rewrite bind_Ok in Hts. injection Hts as <-.
    constructor; [by eexists _, _, _|by apply IH].
Qed.

Lemma dedupe_compact (seen : gset str) (ts : list value) :
  Forall compact ts → Forall compact (dedupe topic_object_id seen ts).
Proof.
  intros Hts. apply Forall_forall. intros t Ht.
  destruct (dedupe_keys topic_object_id seen ts) as [_ Hel].
  destruct (Hel t Ht) as [_ Hin].
  rewrite Forall_forall in Hts. by apply Hts.
Qed.

(** C5, as amended: what the two extraction functions return has another
    shape than what they read (bare ids, compact objects without a
    [topic] field), so that applied to their own output they return the
    empty list, in endpoints3+4+5demo.py and in fetch_topics.py alike;
    their last pass, which drops repeated ids and keeps the order, is
    idempotent. *)
Theorem topic_extraction_reapplied :
  (∀ raw : value,
     Endpoints345.extract_topic_slugs (id_list (Endpoints345.extract_topic_slugs raw))
     = []
     ∧ FetchTopics.extract_topic_slugs (id_list (FetchTopics.extract_topic_slugs raw))
       = [])
  ∧ (∀ (raw : value) (objs : list value),
       Endpoints345.extract_topic_objects raw = Ok objs →
       Endpoints345.extract_topic_objects (VList objs) = Ok [])
  ∧ (∀ (raw : value) (objs : list value),
       FetchTopics.extract_topic_objects raw = Ok objs →
       FetchTopics.extract_topic_objects (VList objs) = Ok [])
  ∧ (∀ (ids : list str), dedupe id ∅ (dedupe id ∅ ids) = dedupe id ∅ ids)
  ∧ (∀ (ts : list value),
       dedupe topic_object_id ∅ (dedupe topic_object_id ∅ ts)
       = dedupe topic_object_id ∅ ts).
Proof.
  split; [|split; [|split; [|split]]].
  - intros raw. unfold id_list.
    cbn [Endpoints345.extract_topic_slugs FetchTopics.extract_topic_slugs].
    destruct (slugs_of_ids (Endpoints345.extract_topic_slugs raw)) as [-> _].
    destruct (slugs_of_ids (FetchTopics.extract_topic_slugs raw)) as [_ ->].
    done.
  - intros raw objs Hobjs.
    assert (Hc : Forall compact objs).
    { destruct raw as [| | | |l|]; try (injection Hobjs as <-; constructor).
      cbn [Endpoints345.extract_topic_objects] in Hobjs.
      destruct (Endpoints345.topics l) as [ts|e] eqn:Hts; [|discriminate].
      rewrite bind_Ok in Hobjs. injection Hobjs as <-.
      apply dedupe_compact. by eapply topics_compact_345. }
    cbn [Endpoints345.extract_topic_objects].
    by destruct (topics_of_compact objs Hc) as [-> _].
  - intros raw objs Hobjs.
    assert (Hc : Forall compact objs).
    { destruct raw as [| | | |l|]; try (injection Hobjs as <-; constructor).
      cbn [FetchTopics.extract_topic_objects] in Hobjs.
      destruct (FetchTopics.topics l) as [ts|e] eqn:Hts; [|discriminate].
      rewrite bind_Ok in Hobjs. injection Hobjs as <-.
      apply dedupe_compact. by eapply topics_compact_fetch. }
    cbn [FetchTopics.extract_topic_objects].
    by destruct (topics_of_compact objs Hc) as [_ ->].
  - apply dedupe_idempotent.
  - apply dedupe_idempotent.
Qed.

Lemma topic_extraction_reapplied_witness :
  Endpoints345.extract_topic_objects
    (VList [topic_object (u "creation") VNone VNone]) = Ok [].
Proof.
  refine (proj1 (proj2 topic_extraction_reapplied) creation_link _ _).
  vm_compute. reflexivity.
Defined.

(** C5, as stated, fails: for the one raw topic link of the topic
    creation both functions return one element, and return none when
    applied to that. *)
Lemma topic_extraction_not_idempotent :
  Endpoints345.extract_topic_slugs creation_link = [u "creation"]
  ∧ Endpoints345.extract_topic_slugs
      (id_list (Endpoints345.extract_topic_slugs creation_link))
    ≠ Endpoints345.extract_topic_slugs creation_link
  ∧ Endpoints345.extract_topic_objects creation_link
    = Ok [topic_object (u "creation") VNone VNone]
  ∧ Endpoints345.extract_topic_objects (VList [topic_object (u "creation") VNone VNone])
    ≠ Endpoints345.extract_topic_objects creation_link.
Proof.
  split; [vm_compute; reflexivity|].
  split; [vm_compute; discriminate|].
  split; [vm_compute; reflexivity|].
  vm_compute. discriminate.
Qed.

End topic_claims.

(** ** The text cleaner *)

Section clean_claims.
Import NeatTextFetch CleanSpec.

Lemma unescape_without_amp (html5 : list (str * str)) (s : str) :
  AMP ∉ s → unescape html5 s = s.
Proof.
  intros Hs. unfold unescape.
  destruct (existsb (N.eqb AMP) s) eqn:He; [|reflexivity].
  exfalso. apply existsb_exists in He as (c & Hc & Heq).
  apply N.eqb_eq in Heq. subst c. apply Hs. by apply list_elem_of_In.
Qed.

(** *** Tags *)

Lemma existsb_tag_sub (p : N → bool) (b : bool) (s : str) :
  existsb p (tag_sub b s) = true → existsb p s = true.
Proof.
  revert b. induction s as [|c r IH]; intros b; [by destruct b|].
  cbn [tag_sub existsb]. destruct b.
  - destruct (c =? GT); intros H; apply IH in H; rewrite H; apply orb_true_r.
  - destruct ((c =? LT) && existsb (N.eqb GT) r).
    + intros H. apply IH in H. rewrite H. apply orb_true_r.
    + cbn [existsb]. destruct (p c); [done|]. cbn [orb]. apply IH.
Qed.

Lemma tag_sub_no_tag (b : bool) (s : str) : has_tag (tag_sub b s) = false.
Proof.
  revert b. induction s as [|c r IH]; intros b; [by destruct b|].
  cbn [tag_sub]. destruct b.
  - destruct (c =? GT); apply IH.
  - destruct ((c =? LT) && existsb (N.eqb GT) r) eqn:Hopen; [apply IH|].
    cbn [has_tag]. rewrite IH, orb_false_r.
    destruct (c =? LT); [|reflexivity]. cbn [andb] in *.
    destruct (existsb (N.eqb GT) (tag_sub false r)) eqn:He; [|reflexivity].
    apply existsb_tag_sub in He. congruence.
Qed.

Lemma tag_sub_fixed (s : str) : has_tag s = false → tag_sub false s = s.
Proof.
  induction s as [|c r IH]; [reflexivity|].
  cbn [has_tag tag_sub]. intros H. apply orb_false_elim in H as [H1 H2].
  rewrite H1. f_equal. by apply IH.
Qed.

Lemma existsb_filter_angle (s : str) :
  existsb (N.eqb GT) (filter (λ c, is_angle c = true) s) = existsb (N.eqb GT) s.
Proof.
  induction s as [|c r IH]; [reflexivity|].
  rewrite filter_cons. cbn [existsb]. unfold is_angle at 1.
  destruct (decide _) as [Ha|Ha].
  - cbn [existsb]. by rewrite IH.
  - rewrite IH. apply not_true_is_false, orb_false_elim in Ha as [_ Hgt].
    rewrite N.eqb_sym in Hgt. by rewrite Hgt.
Qed.

(** [has_tag] only looks at the angle brackets. *)
Lemma has_tag_angles (s : str) :
  has_tag s = has_tag (filter (λ c, is_angle c = true) s).
Proof.
  induction s as [|c r IH]; [reflexivity|].
  rewrite filter_cons. cbn [has_tag]. unfold is_angle at 1.
  destruct (decide _) as [Ha|Ha].
  - cbn [has_tag]. by rewrite existsb_filter_angle, IH.
  - rewrite <- IH. apply not_true_is_false, orb_false_elim in Ha as [Hlt _].
    by rewrite Hlt.
Qed.

(** *** Whitespace *)

Lemma split_words (s : str) :
  Forall (λ w, w ≠ [] ∧ Forall (λ c, is_space c = false) w) (split s).
Proof.
  induction s as [|c r IH]; [constructor|].
  cbn [split]. destruct (is_space c) eqn:Hc; [exact IH|].
  destruct r as [|d r']; [repeat constructor; done|].
  destruct (is_space d) eqn:Hd.
  - constructor; [|exact IH]. split; [done|]. by repeat constructor.
  - destruct (split (d :: r')) as [|w ws]; [repeat constructor; done|].
    apply Forall_cons in IH as [[_ Hw] Hws].
    constructor; [|exact Hws]. split; [done|]. by constructor.
Qed.

Lemma split_word_then (w r : str) :
  w ≠ [] → Forall (λ c, is_space c = false) w →
  match r with [] => True | d :: _ => is_space d = true end →
  split (w ++ r) = w :: split r.
Proof.
  intros Hne Hw Hr. induction w as [|c w IH]; [done|].
  apply Forall_cons in Hw as [Hc Hw].
  destruct w as [|c' w'].
  - cbn [app split]. rewrite Hc. destruct r as [|d r']; [reflexivity|].
    by rewrite Hr.
  - change ((c :: c' :: w') ++ r) with (c :: (c' :: w') ++ r).
    cbn [split]. rewrite Hc.
    change ((c' :: w') ++ r) with (c' :: w' ++ r) at 1.
    cbv iota. apply Forall_cons in Hw as Hw'. destruct Hw' as [Hc' _].
    rewrite Hc'. rewrite IH by done. reflexivity.
Qed.

Lemma split_join (ws : list str) :
  Forall (λ w, w ≠ [] ∧ Forall (λ c, is_space c = false) w) ws →
  split (join [SPACE] ws) = ws.
Proof.
  induction 1 as [|w ws [Hne Hw] Hws IH]; [reflexivity|].
  destruct ws as [|w' ws'].
  - cbn [join]. rewrite <- (app_nil_r w) at 1.
    by rewrite split_word_then.
  - change (join [SPACE] (w :: w' :: ws'))
      with (w ++ SPACE :: join [SPACE] (w' :: ws')).
    rewrite split_word_then by done.
    f_equal. change (split (SPACE :: ?r)) with (split r). exact IH.
Qed.

Lemma split_concat (s : str) :
  concat (split s) = filter (λ c, is_space c = false) s.
Proof.
  induction s as [|c r IH]; [reflexivity|].
  rewrite filter_cons. cbn [split].
  destruct (is_space c) eqn:Hc.
  - rewrite decide_False by done. exact IH.
  - rewrite decide_True by done. rewrite <- IH.
    destruct r as [|d r']; [reflexivity|].
    destruct (is_space d); [reflexivity|].
    by destruct (split (d :: r')).
Qed.

Lemma join_concat (ws : list str) :
  Forall (λ w, w ≠ [] ∧ Forall (λ c, is_space c = false) w) ws →
  filter (λ c, is_space c = false) (join [SPACE] ws) = concat ws.
Proof.
  assert (Hword : ∀ w, Forall (λ c, is_space c = false) w →
            filter (λ c, is_space c = false) w = w).
  { intros w Hw. induction Hw as [|c w Hc _ IH]; [reflexivity|].
    rewrite filter_cons, decide_True by done. by rewrite IH. }
  induction 1 as [|w ws [_ Hw] _ IH]; [reflexivity|].
  destruct ws as [|w' ws'].
  - cbn [join concat]. by rewrite app_nil_r, Hword.
  - change (join [SPACE] (w :: w' :: ws'))
      with (w ++ SPACE :: join [SPACE] (w' :: ws')).
    rewrite filter_app, filter_cons, decide_False by done.
    rewrite IH, Hword by done. reflexivity.
Qed.

(** Collapsing whitespace keeps the other characters, in order. *)
Lemma collapse_keeps (s : str) :
  filter (λ c, is_space c = false) (join [SPACE] (split s))
  = filter (λ c, is_space c = false) s.
Proof. rewrite join_concat by apply split_words. apply split_concat. Qed.

Lemma join_chars (ws : list str) :
  Forall (λ w, w ≠ [] ∧ Forall (λ c, is_space c = false) w) ws →
  Forall (λ c, c ≠ NBSP) (join [SPACE] ws).
Proof.
  assert (Hword : ∀ w, Forall (λ c, is_space c = false) w →
            Forall (λ c, c ≠ NBSP) w).
  { intros w Hw. eapply Forall_impl; [exact Hw|].
    intros c Hc ->. vm_compute in Hc. discriminate Hc. }
  induction 1 as [|w ws [_ Hw] _ IH]; [constructor|].
  destruct ws as [|w' ws'].
  - cbn [join]. by apply Hword.
  - change (join [SPACE] (w :: w' :: ws'))
      with (w ++ SPACE :: join [SPACE] (w' :: ws')).
    apply Forall_app. split; [by apply Hword|].
    constructor; [discriminate|exact IH].
Qed.

Lemma replace_char_fixed (old new : N) (s : str) :
  Forall (λ c, c ≠ old) s → replace_char old new s = s.
Proof.
  induction 1 as [|c s Hc _ IH]; [reflexivity|].
  unfold replace_char in *. cbn [map]. rewrite IH.
  apply N.eqb_neq in Hc. by rewrite Hc.
Qed.

Lemma filter_angle_nonspace (s : str) :
  filter (λ c, is_angle c = true) (filter (λ c, is_space c = false) s)
  = filter (λ c, is_angle c = true) s.
Proof.
  induction s as [|c r IH]; [reflexivity|].
  rewrite !filter_cons.
  destruct (decide (is_space c = false)) as [Hs|Hs].
  - rewrite filter_cons. by rewrite IH.
  - rewrite IH. rewrite decide_False; [reflexivity|].
    intros Ha. apply Hs. unfold is_angle in Ha.
    apply orb_prop in Ha as [Ha|Ha]; apply N.eqb_eq in Ha; by subst c.
Qed.

Lemma filter_angle_replace (s : str) :
  filter (λ c, is_angle c = true) (replace_char NBSP SPACE s)
  = filter (λ c, is_angle c = true) s.
Proof.
  induction s as [|c r IH]; [reflexivity|].
  unfold replace_char in *. cbn [map]. rewrite !filter_cons, IH.
  destruct (c =? NBSP) eqn:Hc; [|reflexivity].
  apply N.eqb_eq in Hc. subst c.
  rewrite !decide_False by discriminate. reflexivity.
Qed.

(** The stages after the decoding of the entities leave a string on
    which they change nothing. *)
Lemma clean_stages_fixed (v : str) :
  let t := join [SPACE] (split (replace_char NBSP SPACE (tag_sub false v))) in
  join [SPACE] (split (replace_char NBSP SPACE (tag_sub false t))) = t.
Proof.
  intros t.
  assert (Htag : has_tag t = false).
  { rewrite has_tag_angles. unfold t.
    rewrite <- filter_angle_nonspace, collapse_keeps, filter_angle_nonspace.
    rewrite filter_angle_replace, <- has_tag_angles. apply tag_sub_no_tag. }
  rewrite (tag_sub_fixed t Htag).
  rewrite (replace_char_fixed NBSP SPACE t) by apply join_chars, split_words.
  unfold t at 1. by rewrite split_join by apply split_words.
Qed.

Lemma replace_char_idempotent (old new : N) (s : str) :
  new ≠ old → replace_char old new (replace_char old new s) = replace_char old new s.
Proof.
  intros Hne. apply replace_char_fixed. unfold replace_char.
  apply Forall_forall. intros c Hc.
  apply list_elem_of_In, in_map_iff in Hc as (c0 & <- & _).
  destruct (c0 =? old) eqn:Hc0; [done|]. by apply N.eqb_neq.
Qed.

(** C4, as amended: a second cleaning applies the stages after the
    decoding to the decoded first result, and these stages are
    idempotent, each by itself and together; so cleaning a cleaned
    string changes nothing whenever the decoding leaves the cleaned
    string as it is, which is so when it has no ampersand, whatever the
    entity table. *)
Theorem clean_idempotent_once_decoded (html5 : list (str * str)) (s : str) :
  let clean := clean_he_string html5 in
  let stages t := join [SPACE] (split (replace_char NBSP SPACE (tag_sub false t))) in
  (unescape html5 (clean s) = clean s → clean (clean s) = clean s)
  ∧ (AMP ∉ clean s → unescape html5 (clean s) = clean s)
  ∧ clean (clean s) = stages (unescape html5 (clean s))
  ∧ (∀ t, tag_sub false (tag_sub false t) = tag_sub false t)
  ∧ (∀ t, replace_char NBSP SPACE (replace_char NBSP SPACE t)
          = replace_char NBSP SPACE t)
  ∧ (∀ t, join [SPACE] (split (join [SPACE] (split t))) = join [SPACE] (split t))
  ∧ (∀ t, stages (stages t) = stages t).
Proof.
  intros clean stages.
  assert (Hstages : ∀ t, stages (stages t) = stages t).
  { intros t. apply clean_stages_fixed. }
  assert (Hclean : ∀ t, clean t = stages (unescape html5 t)) by reflexivity.
  split; [|split; [|split; [|split; [|split; [|split]]]]].
  - intros Hdecoded. rewrite (Hclean (clean s)), Hdecoded.
    rewrite (Hclean s). apply Hstages.
  - apply unescape_without_amp.
  - apply Hclean.
  - intros t. apply tag_sub_fixed, tag_sub_no_tag.
  - intros t. by apply replace_char_idempotent.
  - intros t. by rewrite split_join by apply split_words.
  - exact Hstages.
Qed.

Lemma clean_idempotent_once_decoded_witness :
  clean_he_string html5_rows
    (clean_he_string html5_rows (u "AT&amp;T &amp; <b>R&amp;D</b>&nbsp; ברא"))
  = clean_he_string html5_rows (u "AT&amp;T &amp; <b>R&amp;D</b>&nbsp; ברא").
Proof.
  apply (proj1 (clean_idempotent_once_decoded html5_rows
                  (u "AT&amp;T &amp; <b>R&amp;D</b>&nbsp; ברא"))).
  vm_compute. reflexivity.
Defined.

(** C4, as stated, fails: an escaped entity is decoded once by each call. *)
Lemma clean_not_idempotent :
  clean_he_string html5_rows (u "&amp;lt;") = u "&lt;"
  ∧ clean_he_string html5_rows (u "&lt;") = u "<"
  ∧ clean_he_string html5_rows (clean_he_string html5_rows (u "&amp;lt;"))
    ≠ clean_he_string html5_rows (u "&amp;lt;").
Proof.
  split; [vm_compute; reflexivity|].
  split; [vm_compute; reflexivity|].
  vm_compute. discriminate.
Qed.

End clean_claims.

(** ** The reference summary *)

Section summary_claims.
Import Endpoints345 SummarySpec.

Variable html5 : list (str * str).
Variable requests_get : str → items → reply.

(** What [build_ref_summary] has computed when it returns. *)
Lemma build_ref_summary_returns (ref lang : str) (context : Z) (version : value)
    (max_links : Z) (summary : value) :
  build_ref_summary html5 requests_get ref lang context version max_links = Ok summary →
  ∃ text_data links_data topics_raw title raw cleaned anchor_ref related objects,
    get_text requests_get ref lang context version = Ok (VDict text_data)
    ∧ get_links requests_get ref = Ok links_data
    ∧ get_ref_topics requests_get ref = Ok topics_raw
    ∧ pick_title (VDict text_data) ref = Ok title
    ∧ raw = dict_get_default text_data (if bool_decide (lang = u "he")
                                         then u "he" else u "text") (VList [])
    ∧ collect (clean_line html5) (normalize_lines raw) = Ok cleaned
    ∧ anchor_ref = dict_get_default text_data (u "ref") (VStr ref)
    ∧ build_related_by_category links_data anchor_ref max_links = Ok (VDict related)
    ∧ extract_topic_objects topics_raw = Ok objects
    ∧ summary =
        VDict [(VStr (u "ref"), anchor_ref);
               (VStr (u "title"), title);
               (VStr (u "heTitle"), dict_get_default text_data (u "heTitle") VNone);
               (VStr (u "sectionNames"),
                dict_get_default text_data (u "sectionNames") VNone);
               (VStr (u "sections"), dict_get_default text_data (u "sections") VNone);
               (VStr (u "versionTitle"),
                dict_get_default text_data (u "versionTitle") VNone);
               (VStr (u "heVersionTitle"),
                dict_get_default text_data (u "heVersionTitle") VNone);
               (VStr (u "next"), dict_get_default text_data (u "next") VNone);
               (VStr (u "prev"), dict_get_default text_data (u "prev") VNone);
               (VStr (u "text"),
                VDict [(VStr (u "lang"), VStr lang);
                       (VStr (u "raw"), VList (normalize_lines raw));
                       (VStr (u "cleaned"), VList cleaned)]);
               (VStr (u "relatedSourcesByCategory"), VDict related);
               (VStr (u "topics"),
                VDict [(VStr (u "ids"), VList (VStr <$> extract_topic_slugs topics_raw));
                       (VStr (u "objects"), VList objects)])].
Proof.
  unfold build_ref_summary. intros H.
  destruct (get_text _ _ _ _ _) as [text_data|e]; [|discriminate].
  rewrite bind_Ok in H.
  destruct (get_links _ _) as [links_data|e]; [|discriminate].
  rewrite bind_Ok in H.
  destruct (get_ref_topics _ _) as [topics_raw|e]; [|discriminate].
  rewrite bind_Ok in H.
  destruct (pick_title text_data ref) as [title|e] eqn:Htitle; [|discriminate].
  rewrite bind_Ok in H.
  destruct text_data as [| | | | |text_data]; try discriminate.
  assert (Hraw : (if bool_decide (lang = u "he")
                  then py_get (VDict text_data) (u "he") (VList [])
                  else py_get (VDict text_data) (u "text") (VList []))
                 = Ok (dict_get_default text_data
                         (if bool_decide (lang = u "he") then u "he" else u "text")
                         (VList []))).
  { by destruct (bool_decide _). }
  rewrite Hraw, bind_Ok in H. clear Hraw.
  destruct (collect _ _) as [cleaned|e] eqn:Hcleaned; [|discriminate].
  rewrite bind_Ok in H. cbn [py_get] in H. rewrite bind_Ok in H.
  destruct (build_related_by_category _ _ _) as [related|e] eqn:Hrel; [|discriminate].
  rewrite bind_Ok in H.
  destruct (extract_topic_objects _) as [objects|e] eqn:Hobj; [|discriminate].
  rewrite bind_Ok in H. injection H as <-.
  assert (Hd : ∃ d, related = VDict d).
  { unfold build_related_by_category in Hrel.
    destruct (py_iter links_data) as [ls|e]; [|discriminate].
    rewrite bind_Ok in Hrel.
    destruct (related_loop _ _ _ _) as [grouped|e]; [|discriminate].
    rewrite bind_Ok in Hrel. injection Hrel as <-. by eexists. }
  destruct Hd as [d ->].
  by eexists text_data, links_data, topics_raw, title, _, cleaned, _, d, objects.
Qed.

Lemma checked_json_refused (url : str) (r : reply) :
  refused r → checked_json url r = Raise (fetch_error url r).
Proof.
  destruct r as [|status body]; [done|]. cbn. intros [H1 H2].
  apply Z.leb_le in H1. apply Z.ltb_lt in H2. by rewrite H1, H2.
Qed.

Lemma collect_clean_lines (lines : list str) :
  collect (clean_line html5) (VStr <$> lines)
  = Ok (VStr <$> (clean_he_string html5 <$> filter (λ line, line ≠ []) lines)).
Proof.
  induction lines as [|line lines IH]; [reflexivity|].
  cbn [fmap list_fmap collect]. fold (VStr <$> lines). rewrite IH.
  rewrite filter_cons. destruct line as [|c line].
  - by rewrite decide_False by (by intros ?).
  - by rewrite decide_True by done.
Qed.

Lemma str_join_chars (cs : str) :
  str_join [] ((λ c, VStr [c]) <$> cs) = Ok cs.
Proof.
  induction cs as [|c cs IH]; [reflexivity|].
  cbn [fmap list_fmap str_join]. fold ((λ c, VStr [c]) <$> cs).
  destruct cs as [|c' cs']; [reflexivity|].
  cbn [fmap list_fmap]. cbn [fmap list_fmap] in IH. by rewrite IH.
Qed.

Lemma str_join_lines (sep : str) (lines : list str) :
  str_join sep (VStr <$> lines) = Ok (join sep lines).
Proof.
  induction lines as [|w lines IH]; [reflexivity|].
  cbn [fmap list_fmap str_join]. fold (VStr <$> lines).
  destruct lines as [|w' lines']; [reflexivity|].
  cbn [fmap list_fmap]. cbn [fmap list_fmap] in IH. by rewrite IH.
Qed.

Lemma build_ref_summary_text_raises (ref lang : str) (context : Z) (version : value)
    (max_links : Z) (e : exn) :
  get_text requests_get ref lang context version = Raise e →
  build_ref_summary html5 requests_get ref lang context version max_links = Raise e.
Proof. intros Ht. unfold build_ref_summary. by rewrite Ht. Qed.

Lemma build_ref_summary_links_raises (ref lang : str) (context : Z) (version : value)
    (max_links : Z) (text_data : value) (e : exn) :
  get_text requests_get ref lang context version = Ok text_data →
  get_links requests_get ref = Raise e →
  build_ref_summary html5 requests_get ref lang context version max_links = Raise e.
Proof. intros Ht Hl. unfold build_ref_summary. by rewrite Ht, bind_Ok, Hl. Qed.

Lemma build_ref_summary_topics_raises (ref lang : str) (context : Z) (version : value)
    (max_links : Z) (text_data links_data : value) (e : exn) :
  get_text requests_get ref lang context version = Ok text_data →
  get_links requests_get ref = Ok links_data →
  get_ref_topics requests_get ref = Raise e →
  build_ref_summary html5 requests_get ref lang context version max_links = Raise e.
Proof.
  intros Ht Hl Hr. unfold build_ref_summary.
  by rewrite Ht, bind_Ok, Hl, bind_Ok, Hr.
Qed.

End summary_claims.

Section aggregator_claims.
Import Endpoints345 SummarySpec.

(** C9, as amended: in [build_ref_summary] a raw text field that is one
    string becomes a list of that one line, a field that is neither a
    string nor a list becomes the empty list, and the elements of a list
    are the lines, each non-empty one cleaned by itself, one-character
    strings like the others; the summary holds these lines.  The join of
    one-character strings into one line is what [test_texts_api] of
    neat_text_fetch.py does, which joins the lines of any other list of
    strings with spaces. *)
Theorem text_lines_normalization :
  (∀ s : str, normalize_lines (VStr s) = [VStr s])
  ∧ (∀ l : list value, normalize_lines (VList l) = l)
  ∧ (∀ raw : value,
       match raw with VStr _ | VList _ => True | _ => normalize_lines raw = [] end)
  ∧ (∀ (html5 : list (str * str)) (lines : list str),
       collect (clean_line html5) (normalize_lines (VList (VStr <$> lines)))
       = Ok (VStr <$> (clean_he_string html5 <$> filter (λ line, line ≠ []) lines)))
  ∧ (∀ html5 requests_get ref lang context version max_links summary,
       build_ref_summary html5 requests_get ref lang context version max_links
       = Ok summary →
       ∃ text_data cleaned,
         get_text requests_get ref lang context version = Ok (VDict text_data)
         ∧ let raw := dict_get_default text_data
                        (if bool_decide (lang = u "he") then u "he" else u "text")
                        (VList []) in
           collect (clean_line html5) (normalize_lines raw) = Ok cleaned
           ∧ dict_get (match summary with VDict d => d | _ => [] end) (VStr (u "text"))
             = Some (VDict [(VStr (u "lang"), VStr lang);
                            (VStr (u "raw"), VList (normalize_lines raw));
                            (VStr (u "cleaned"), VList cleaned)]))
  ∧ (∀ cs : str, cs ≠ [] →
       NeatTextFetch.raw_hebrew (VList ((λ c, VStr [c]) <$> cs)) = Ok cs)
  ∧ (∀ lines : list str,
       forallb NeatTextFetch.single_char (VStr <$> lines) = false →
       NeatTextFetch.raw_hebrew (VList (VStr <$> lines)) = Ok (join [SPACE] lines)).
Proof.
  split; [done|]. split; [done|]. split; [by intros []|].
  split; [intros; apply collect_clean_lines|].
  split; [|split].
  - intros html5 requests_get ref lang context version max_links summary H.
    apply build_ref_summary_returns in H
      as (text_data & links_data & topics_raw & title & raw & cleaned & anchor
          & related & objects & Ht & _ & _ & _ & -> & Hc & _ & _ & _ & ->).
    exists text_data, cleaned. split; [exact Ht|].
    cbv zeta. split; [exact Hc|]. reflexivity.
  - intros cs Hcs. unfold NeatTextFetch.raw_hebrew.
    assert (Htruthy : truthy (VList ((λ c, VStr [c]) <$> cs)) = true) by (by destruct cs).
    rewrite Htruthy. cbn [py_iter]. rewrite !bind_Ok.
    assert (Hall : forallb NeatTextFetch.single_char ((λ c, VStr [c]) <$> cs) = true).
    { clear. induction cs as [|c cs IH]; [reflexivity|]. exact IH. }
    rewrite Hall. apply str_join_chars.
  - intros lines Hnot. unfold NeatTextFetch.raw_hebrew.
    destruct (truthy _); cbn [py_iter]; rewrite ?bind_Ok, ?Hnot;
      apply str_join_lines.
Qed.

Lemma text_lines_normalization_witness :
  NeatTextFetch.raw_hebrew (VList ((λ c, VStr [c]) <$> u "ברא")) = Ok (u "ברא").
Proof.
  apply (proj1 (proj2 (proj2 (proj2 (proj2 (proj2 text_lines_normalization)))))).
  vm_compute. discriminate.
Defined.

(** C9, as stated, fails: for a text field that is a list of three
    one-character strings the summary has three cleaned lines, not the
    one line of the three characters. *)
Lemma single_characters_stay_lines :
  ∃ summary,
    summarize (gateway (ok char_text) (ok (VList [])) (ok (VList []))) = Ok summary
    ∧ cleaned_lines summary = Some (VList [VStr (u "ב"); VStr (u "ר"); VStr (u "א")])
    ∧ cleaned_lines summary ≠ Some (VList [VStr (u "ברא")]).
Proof.
  eexists. split; [vm_compute; reflexivity|].
  split; [vm_compute; reflexivity|].
  vm_compute. discriminate.
Qed.

(** C2, as amended: [build_ref_summary] either raises or returns a
    summary in which every field is present; an exception of the text
    fetch is raised as it is, and so is one of the links fetch or of the
    topics fetch once the earlier fetches have succeeded; a fetch that
    gets no response or a status from 400 to 599 raises the error of its
    own address. *)
Theorem summary_complete_or_raises :
  (∀ html5 requests_get ref lang context version max_links summary,
     build_ref_summary html5 requests_get ref lang context version max_links
     = Ok summary →
     complete summary)
  ∧ (∀ html5 requests_get ref lang context version max_links e,
       get_text requests_get ref lang context version = Raise e →
       build_ref_summary html5 requests_get ref lang context version max_links
       = Raise e)
  ∧ (∀ html5 requests_get ref lang context version max_links text_data e,
       get_text requests_get ref lang context version = Ok text_data →
       get_links requests_get ref = Raise e →
       build_ref_summary html5 requests_get ref lang context version max_links
       = Raise e)
  ∧ (∀ html5 requests_get ref lang context version max_links text_data links_data e,
       get_text requests_get ref lang context version = Ok text_data →
       get_links requests_get ref = Ok links_data →
       get_ref_topics requests_get ref = Raise e →
       build_ref_summary html5 requests_get ref lang context version max_links
       = Raise e)
  ∧ (∀ (url : str) (r : reply),
       refused r → checked_json url r = Raise (fetch_error url r)).
Proof.
  split; [|split; [|split; [|split]]].
  - intros html5 requests_get ref lang context version max_links summary H.
    apply build_ref_summary_returns in H
      as (text_data & links_data & topics_raw & title & raw & cleaned & anchor
          & related & objects & _ & _ & _ & _ & _ & _ & _ & _ & _ & ->).
    unfold complete. by repeat eexists.
  - intros *. apply build_ref_summary_text_raises.
  - intros *. apply build_ref_summary_links_raises.
  - intros *. apply build_ref_summary_topics_raises.
  - apply checked_json_refused.
Qed.

Lemma summary_complete_or_raises_witness :
  ∃ summary,
    summarize (gateway (ok bold_text) (ok two_links) (ok two_topics)) = Ok summary
    ∧ complete summary.
Proof.
  eexists. split; [vm_compute; reflexivity|].
  eapply (proj1 summary_complete_or_raises CleanSpec.html5_rows
            (gateway (ok bold_text) (ok two_links) (ok two_topics))
            genesis_1_1 (u "he") 0%Z VNone 5%Z).
  vm_compute. reflexivity.
Defined.

(** C2, as stated, fails: when the topics service answers 503 after the
    text and the links have come, the call raises the error of the topics
    fetch, which is not the text step, and returns no summary. *)
Lemma topics_error_is_raised :
  summarize (gateway (ok bold_text) (ok two_links) (Reply 503 None))
  = Raise (HTTPError (topics_url genesis_1_1))
  ∧ topics_url genesis_1_1 ≠ text_url genesis_1_1
  ∧ get_text (gateway (ok bold_text) (ok two_links) (Reply 503 None))
      genesis_1_1 (u "he") 0 VNone = Ok bold_text.
Proof.
  split; [vm_compute; reflexivity|].
  split; [vm_compute; discriminate|].
  vm_compute. reflexivity.
Qed.





(** The scenario of the specification for Genesis 1:1, all calls
    answering: one cleaned line, one link under each of the two
    categories, and the topic ids without the excluded one. *)
Example genesis_summary_scenario :
  ∃ summary related topics commentary midrash,
    summarize (gateway (ok bold_text) (ok two_links) (ok two_topics)) = Ok summary
    ∧ cleaned_lines summary = Some (VList [VStr (u "בראשית")])
    ∧ dict_get (match summary with VDict d => d | _ => [] end)
        (VStr (u "relatedSourcesByCategory"))
      = Some (VDict [(VStr (u "Commentary"), VList [commentary]);
                     (VStr (u "Midrash"), VList [midrash])])
    ∧ related = [commentary; midrash]
    ∧ dict_get (match summary with VDict d => d | _ => [] end) (VStr (u "topics"))
      = Some (VDict topics)
    ∧ dict_get topics (VStr (u "ids")) = Some (VList [VStr (u "creation")]).
Proof.
  do 5 eexists. split; [vm_compute; reflexivity|].
  split; [vm_compute; reflexivity|].
  split; [vm_compute; reflexivity|].
  split; [reflexivity|].
  split; vm_compute; reflexivity.
Qed.

End aggregator_claims.

(** * Further properties *)

(** ** tree_of_life.py *)

Section tree_shape.
Import TreeOfLife TreeShape.

Lemma collect_Forall {A B} (f : A → result (option B)) (P : B → Prop)
    (xs : list A) (ys : list B) :
  Forall (λ x, ∀ y, f x = Ok (Some y) → P y) xs →
  collect f xs = Ok ys → Forall P ys.
Proof.
  intros Hxs. revert ys. induction Hxs as [|x xs Hx _ IH]; intros ys Hys.
  - injection Hys as <-. constructor.
  - cbn [collect] in Hys. destruct (f x) as [n|e]; [|discriminate].
    rewrite bind_Ok in Hys. destruct (collect f xs) as [ns|e]; [|discriminate].
    rewrite bind_Ok in Hys. injection Hys as <-.
    destruct n as [y|]; [constructor|]; auto.
Qed.

Lemma collect_length {A B} (f : A → result (option B)) (xs : list A) (ys : list B) :
  collect f xs = Ok ys → (length ys ≤ length xs)%nat.
Proof.
  revert ys. induction xs as [|x xs IH]; intros ys Hys.
  - by injection Hys as <-.
  - cbn [collect] in Hys. destruct (f x) as [n|e]; [|discriminate].
    rewrite bind_Ok in Hys. destruct (collect f xs) as [ns|e]; [|discriminate].
    rewrite bind_Ok in Hys. injection Hys as <-.
    specialize (IH ns eq_refl). destruct n; cbn [length]; lia.
Qed.

Lemma collect_raises {A B} (f : A → result (option B)) (xs : list A) (e : exn) :
  collect f xs = Raise e → ∃ x, x ∈ xs ∧ f x = Raise e.
Proof.
  induction xs as [|x xs IH]; [discriminate|].
  cbn [collect]. destruct (f x) as [n|e'] eqn:Hx.
  - rewrite bind_Ok. destruct (collect f xs) as [ns|e'']; [discriminate|].
    intros [= ->]. destruct (IH eq_refl) as (y & Hy & Hfy).
    exists y. split; [by right|done].
  - intros [= ->]. exists x. split; [left|done].
Qed.

Lemma py_iter_error (obj : value) (e : exn) :
  py_iter obj = Raise e → e = TypeError.
Proof. by destruct obj; intros [=]. Qed.

Lemma _normalize_other_none (raw : value) (r : option TreeNode) :
  _normalize_other raw = Ok r → r = None.
Proof.
  unfold _normalize_other.
  destruct (py_in (u "category") raw) as [[|]|e]; try discriminate.
  rewrite bind_Ok.
  destruct (py_in (u "title") raw) as [[|]|e]; try discriminate.
  rewrite bind_Ok. by intros [= <-].
Qed.

Lemma _normalize_other_error (raw : value) (e : exn) :
  _normalize_other raw = Raise e → e = TypeError.
Proof.
  unfold _normalize_other.
  destruct raw as [| | |s|l|d]; cbn [py_in]; rewrite ?bind_Ok;
    try (by intros [= <-]).
  - destruct (substring _ s); [by intros [= <-]|].
    destruct (substring _ s); [by intros [= <-]|discriminate].
  - destruct (existsb _ l); [by intros [= <-]|].
    destruct (existsb _ l); [by intros [= <-]|discriminate].
  - destruct (dict_has d _); [by intros [= <-]|].
    destruct (dict_has d _); [by intros [= <-]|discriminate].
Qed.

Lemma book_path_nonempty (categories : value) (parent_path : list value) (t : value) :
  book_path categories parent_path t ≠ [].
Proof.
  unfold book_path. destruct categories as [| | | |[|c cs]|]; try done;
    by destruct parent_path.
Qed.

(** What the children of a category node are made from. *)
Lemma children_raw_elem (d : items) (cs : list value) (c : value) :
  py_iter (py_or (dict_get_default d (u "contents") (VList [])) (VList [])) = Ok cs →
  c ∈ cs →
  (∃ s, c = VStr s)
  ∨ (∃ k l, (k, VList l) ∈ d ∧ c ∈ l)
  ∨ (∃ k d' x, (k, VDict d') ∈ d ∧ (c, x) ∈ d').
Proof.
  unfold dict_get_default.
  destruct (dict_get d (VStr (u "contents"))) as [v|] eqn:Hget.
  - apply dict_get_elem in Hget as [k Hk]. unfold py_or.
    destruct (truthy v); [|intros [= <-] Hc; by apply elem_of_nil in Hc].
    destruct v as [| | |s|l|d']; try discriminate; intros [= <-] Hc.
    + left. apply list_elem_of_fmap in Hc as (x & -> & _). by eexists.
    + right. left. by exists k, l.
    + right. right. apply list_elem_of_fmap in Hc as ([c' x] & -> & Hin).
      by exists k, d', x.
  - intros [= <-] Hc. by apply elem_of_nil in Hc.
Qed.

(** An induction over the raw nodes that [_normalize_node] visits. *)
Lemma normalize_induction (P : value → Prop) :
  (∀ raw, match raw with VDict _ => False | _ => True end → P raw) →
  (∀ d, (∀ cs, py_iter (py_or (dict_get_default d (u "contents") (VList []))
                          (VList [])) = Ok cs → Forall P cs) →
        P (VDict d)) →
  ∀ raw, P raw.
Proof.
  intros Hother Hdict raw.
  enough (P raw ∧ match raw with
                  | VList l => Forall P l
                  | VDict d => Forall (λ kv, P kv.1) d
                  | _ => True
                  end) by tauto.
  induction raw as [| | | |l IH|d IH] using value_rect_nested;
    try (split; [by apply Hother|exact I]).
  - split; [by apply Hother|].
    eapply Forall_impl; [exact IH|]. by intros x [Hx _].
  - assert (Hkeys : Forall (λ kv, P kv.1) d).
    { eapply Forall_impl; [exact IH|]. by intros kv [[Hk _] _]. }
    split; [|exact Hkeys]. apply Hdict. intros cs Hcs.
    apply Forall_forall. intros c Hc. rewrite Forall_forall in IH.
    destruct (children_raw_elem d cs c Hcs Hc)
      as [[s ->]|[(k & l & Hk & Hl)|(k & d' & x & Hk & Hx)]].
    + by apply Hother.
    + destruct (IH _ Hk) as [_ [_ Hall]]. cbn [snd] in Hall.
      rewrite Forall_forall in Hall. by apply Hall.
    + destruct (IH _ Hk) as [_ [_ Hall]]. cbn [snd] in Hall.
      rewrite Forall_forall in Hall. exact (Hall _ Hx).
Qed.

Lemma _normalize_node_other (raw : value) (parent_path : list value) :
  match raw with VDict _ => False | _ => True end →
  _normalize_node raw parent_path = _normalize_other raw.
Proof. by destruct raw. Qed.

Lemma _normalize_node_placed (raw : value) :
  ∀ parent_path n, _normalize_node raw parent_path = Ok (Some n) → placed parent_path n.
Proof.
  induction raw as [raw Hraw|d IH] using normalize_induction; intros parent_path n Hn.
  - rewrite _normalize_node_other in Hn by done.
    by apply _normalize_other_none in Hn.
  - rewrite _normalize_node_dict in Hn. cbv zeta in Hn.
    destruct (dict_has d (VStr (u "category"))).
    + destruct (py_iter _) as [cs|e] eqn:Hcs; [|discriminate].
      rewrite bind_Ok in Hn.
      destruct (collect _ cs) as [children|e] eqn:Hchildren; [|discriminate].
      rewrite bind_Ok in Hn. injection Hn as <-.
      constructor. eapply collect_Forall; [|exact Hchildren].
      eapply Forall_impl; [exact (IH cs eq_refl)|].
      intros c Hc y. apply Hc.
    + destruct (dict_has d (VStr (u "title"))); [|discriminate].
      injection Hn as <-. constructor. apply book_path_nonempty.
Qed.

Lemma _normalize_node_error (raw : value) :
  ∀ parent_path e, _normalize_node raw parent_path = Raise e → e = TypeError.
Proof.
  induction raw as [raw Hraw|d IH] using normalize_induction; intros parent_path e He.
  - rewrite _normalize_node_other in He by done.
    by apply _normalize_other_error in He.
  - rewrite _normalize_node_dict in He. cbv zeta in He.
    destruct (dict_has d (VStr (u "category"))).
    + destruct (py_iter _) as [cs|e'] eqn:Hcs.
      * rewrite bind_Ok in He.
        destruct (collect _ cs) as [children|e''] eqn:Hchildren; [discriminate|].
        injection He as ->.
        apply collect_raises in Hchildren as (c & Hc & Hraise).
        specialize (IH cs eq_refl). rewrite Forall_forall in IH.
        by eapply IH.
      * injection He as ->. by apply py_iter_error in Hcs.
    + by destruct (dict_has d (VStr (u "title"))).
Qed.

(** X1: every node that [_normalize_node] returns is placed below the
    parent path it was given: category nodes carry the parent path
    followed by their own title, all the way down, book nodes have no
    children and a path that is not empty, and no node below the top is a
    root; the tree that [build_library_tree] returns is the root node
    with the empty path over such nodes, at most one per raw entry. *)
Theorem normalized_tree_is_placed :
  (∀ raw parent_path n,
     _normalize_node raw parent_path = Ok (Some n) → placed parent_path n)
  ∧ (∀ fetch index_data tree,
       build_library_tree fetch index_data = Ok tree →
       ∃ children,
         tree = mkTreeNode (VStr (u "root")) VNone root [] children
         ∧ Forall (placed []) children
         ∧ (∀ l, index_data = VList l → (length children ≤ length l)%nat)).
Proof.
  split; [intros raw; apply _normalize_node_placed|].
  intros fetch index_data tree Htree. unfold build_library_tree in Htree.
  destruct (match index_data with VNone => fetch | _ => Ok index_data end)
    as [idx|e] eqn:Hidx; [|discriminate].
  rewrite bind_Ok in Htree. destruct idx as [| | | |l|]; try discriminate.
  destruct (collect _ l) as [children|e] eqn:Hchildren; [|discriminate].
  rewrite bind_Ok in Htree. injection Htree as <-.
  exists children. split; [reflexivity|]. split.
  - eapply collect_Forall; [|exact Hchildren].
    apply Forall_forall. intros raw _ n. apply _normalize_node_placed.
  - intros l' ->. injection Hidx as <-. by eapply collect_length.
Qed.

Lemma normalized_tree_is_placed_witness :
  ∃ children,
    mkTreeNode (VStr (u "root")) VNone root []
      [mkTreeNode (VStr (u "Tanakh")) VNone category [VStr (u "Tanakh")]
         [mkTreeNode (VStr (u "Genesis")) (VStr (u "בראשית")) book
            [VStr (u "Tanakh"); VStr (u "Genesis")] []]]
    = mkTreeNode (VStr (u "root")) VNone root [] children
    ∧ Forall (placed []) children
    ∧ (∀ l, Sample.genesis_index = VList l → (length children ≤ length l)%nat).
Proof.
  apply (proj2 normalized_tree_is_placed (Raise ValueError) Sample.genesis_index).
  vm_compute. reflexivity.
Defined.

(** X2: normalization raises nothing but [TypeError], and
    [build_library_tree], given an index, raises [ValueError] exactly
    when the index is neither [None] nor a list. *)
Theorem tree_errors :
  (∀ raw parent_path e, _normalize_node raw parent_path = Raise e → e = TypeError)
  ∧ (∀ fetch index_data,
       index_data ≠ VNone →
       (build_library_tree fetch index_data = Raise ValueError
        ↔ ∀ l, index_data ≠ VList l)).
Proof.
  split; [intros raw; apply _normalize_node_error|].
  intros fetch index_data Hnone. unfold build_library_tree.
  destruct index_data as [| | | |l|]; try done;
    try (rewrite bind_Ok; split; [by intros _ l' [=]|done]).
  rewrite bind_Ok. split.
  - destruct (collect _ l) as [children|e] eqn:Hc; [discriminate|].
    intros [= ->]. apply collect_raises in Hc as (c & _ & Hc).
    by apply _normalize_node_error in Hc.
  - intros H. by destruct (H l).
Qed.

Lemma tree_errors_witness :
  VStr (u "Tanakh") ≠ VNone
  ∧ (build_library_tree (Raise KeyError) (VStr (u "Tanakh")) = Raise ValueError
     ↔ ∀ l, VStr (u "Tanakh") ≠ VList l).
Proof.
  assert (H : VStr (u "Tanakh") ≠ VNone) by discriminate.
  exact (conj H (proj2 tree_errors (Raise KeyError) (VStr (u "Tanakh")) H)).
Defined.

Lemma count_nodes_node (t h : value) (ty : node_type) (p : list value)
    (cs : list TreeNode) :
  count_nodes (mkTreeNode t h ty p cs) =
    foldl (λ acc c, (acc.1 + (count_nodes c).1, acc.2 + (count_nodes c).2)%nat)
      (match ty with book => (0, 1) | _ => (1, 0) end%nat) cs.
Proof.
  cbn [count_nodes]. generalize (match ty with book => (0, 1) | _ => (1, 0) end%nat).
  induction cs as [|c cs IH]; intros acc; [reflexivity|].
  cbn [foldl]. rewrite <- IH. by destruct (count_nodes c).
Qed.

Lemma sum_list_cons (x : nat) (l : list nat) :
  sum_list (x :: l) = (x + sum_list l)%nat.
Proof. reflexivity. Qed.

Lemma nodes_node (t h : value) (ty : node_type) (p : list value) (cs : list TreeNode) :
  nodes (mkTreeNode t h ty p cs) = S (sum_list (nodes <$> cs)).
Proof.
  cbn [nodes]. f_equal. induction cs as [|c cs IH]; [reflexivity|].
  by rewrite fmap_cons, sum_list_cons, IH.
Qed.

Lemma count_fold (cs : list TreeNode) (acc : nat * nat) :
  foldl (λ acc c, (acc.1 + (count_nodes c).1, acc.2 + (count_nodes c).2)%nat) acc cs
  = (acc.1 + sum_list ((λ c, (count_nodes c).1) <$> cs),
     acc.2 + sum_list ((λ c, (count_nodes c).2) <$> cs))%nat.
Proof.
  revert acc. induction cs as [|c cs IH]; intros [a b].
  - cbn [foldl fmap list_fmap fst snd]. by rewrite !Nat.add_0_r.
  - cbn [foldl]. rewrite IH, !fmap_cons, !sum_list_cons. cbn [fst snd].
    f_equal; lia.
Qed.

(** X3: the second count of [count_nodes] is the length of the flat book
    list of the same tree, and the two counts together are the number of
    nodes of the tree. *)
Theorem count_nodes_matches_flat_list (tree : TreeNode) :
  (count_nodes tree).2 = length (build_flat_book_list tree)
  ∧ ((count_nodes tree).1 + (count_nodes tree).2)%nat = nodes tree.
Proof.
  unfold build_flat_book_list.
  induction tree as [t h ty p cs IH] using TreeNode_nested_ind.
  rewrite count_nodes_node, count_fold, walk_node, nodes_node, length_app.
  assert (Hbooks : sum_list ((λ c, (count_nodes c).2) <$> cs)
                   = length (concat (map walk cs))).
  { induction IH as [|c cs [Hc _] _ IHcs]; [reflexivity|].
    rewrite fmap_cons, sum_list_cons. cbn [map concat].
    rewrite length_app. by rewrite Hc, IHcs. }
  assert (Hall : (sum_list ((λ c, (count_nodes c).1) <$> cs)
                  + sum_list ((λ c, (count_nodes c).2) <$> cs))%nat
                 = sum_list (nodes <$> cs)).
  { clear -IH. induction IH as [|c cs [_ Hc] _ IHcs]; [reflexivity|].
    rewrite !fmap_cons, !sum_list_cons. lia. }
  cbn [fst snd]. split.
  - rewrite Hbooks. destruct ty; by destruct (decide _).
  - destruct ty; cbn [fst snd]; lia.
Qed.

End tree_shape.

Section title_lookup.
Import TreeOfLife TreeShape.

Lemma py_eq_canon (a b : value) :
  hashable a = true → hashable b = true →
  py_eq a b = bool_decide (canon a = canon b).
Proof.
  destruct a as [|x|x|x| |], b as [|y|y|y| |]; try discriminate; intros _ _;
    cbn [py_eq canon]; try reflexivity.
  - destruct x, y; reflexivity.
  - destruct (Z.eqb_spec (int_of_bool x) y) as [->|Hne].
    + by rewrite bool_decide_eq_true_2.
    + rewrite bool_decide_eq_false_2; [done|]. intros [=]. done.
  - destruct (Z.eqb_spec x (int_of_bool y)) as [->|Hne].
    + by rewrite bool_decide_eq_true_2.
    + rewrite bool_decide_eq_false_2; [done|]. intros [=]. done.
  - destruct (Z.eqb_spec x y) as [->|Hne].
    + by rewrite bool_decide_eq_true_2.
    + rewrite bool_decide_eq_false_2; [done|]. intros [=]. done.
  - destruct (decide (x = y)) as [->|Hne].
    + by rewrite !bool_decide_eq_true_2.
    + rewrite !bool_decide_eq_false_2; [done| |done]. intros [=]. done.
Qed.

(** Reading a dict after [d[k] = v], for keys that can be hashed. *)
Lemma dict_get_set {A} (d : list (value * A)) (k k' : value) (v : A) :
  Forall (λ kv, hashable kv.1 = true) d →
  hashable k = true → hashable k' = true →
  dict_get (dict_set d k v) k' = if py_eq k k' then Some v else dict_get d k'.
Proof.
  intros Hd Hk Hk'. induction Hd as [|[k0 v0] d Hk0 _ IH]; [reflexivity|].
  cbn [fst] in Hk0. cbn [dict_set dict_get].
  destruct (py_eq k0 k) eqn:H0k; cbn [dict_get].
  - rewrite !py_eq_canon in * by done.
    apply bool_decide_eq_true in H0k. rewrite H0k.
    by destruct (bool_decide _).
  - rewrite IH. rewrite !py_eq_canon in * by done.
    apply bool_decide_eq_false in H0k.
    destruct (bool_decide (canon k0 = canon k')) eqn:H0k'; [|reflexivity].
    apply bool_decide_eq_true in H0k'.
    rewrite bool_decide_eq_false_2; [reflexivity|congruence].
Qed.

Lemma dict_set_keys {A} (d : list (value * A)) (k : value) (v : A) :
  Forall (λ kv, hashable kv.1 = true) d →
  hashable k = true →
  Forall (λ kv, hashable kv.1 = true) (dict_set d k v).
Proof.
  intros Hd Hk. induction Hd as [|[k0 v0] d Hk0 Hd IH]; [by repeat constructor|].
  cbn [dict_set]. destruct (py_eq k0 k); by constructor.
Qed.

(** One turn of the loop of [build_title_lookup] on a book whose keys
    can be hashed. *)
Lemma title_lookup_step (b : FlatBook) (rest : list FlatBook)
    (lookup : list (value * FlatBook)) :
  keys_hashable b = true →
  Forall (λ kv, hashable kv.1 = true) lookup →
  ∃ lookup',
    title_lookup_loop (b :: rest) lookup = title_lookup_loop rest lookup'
    ∧ Forall (λ kv, hashable kv.1 = true) lookup'
    ∧ ∀ key, hashable key = true →
        dict_get lookup' key = if filed_under key b then Some b else dict_get lookup key.
Proof.
  intros Hb Hlookup. unfold keys_hashable in Hb. unfold filed_under.
  apply andb_prop in Hb as [Ht Hh]. cbn [title_lookup_loop]. cbv zeta. unfold store.
  destruct (truthy (fb_title b)) eqn:Htt, (truthy (fb_heTitle b)) eqn:Hth;
    cbn [negb orb] in Ht, Hh; rewrite ?Ht, ?Hh, ?bind_Ok;
    eexists; (split; [reflexivity|]); cbn [andb orb].
  - split; [by repeat apply dict_set_keys|].
    intros key Hkey. rewrite !dict_get_set by (by repeat apply dict_set_keys).
    by destruct (py_eq (fb_title b) key), (py_eq (fb_heTitle b) key).
  - split; [by apply dict_set_keys|].
    intros key Hkey. rewrite dict_get_set by done.
    by destruct (py_eq (fb_title b) key).
  - split; [by apply dict_set_keys|].
    intros key Hkey. by rewrite dict_get_set by done.
  - split; [done|]. done.
Qed.

Lemma title_lookup_loop_last (books : list FlatBook) (lookup : list (value * FlatBook)) :
  forallb keys_hashable books = true →
  Forall (λ kv, hashable kv.1 = true) lookup →
  ∃ lookup',
    title_lookup_loop books lookup = Ok lookup'
    ∧ ∀ key, hashable key = true →
        dict_get lookup' key
        = match last (filter (λ b, filed_under key b = true) books) with
          | Some b => Some b
          | None => dict_get lookup key
          end.
Proof.
  revert lookup. induction books as [|b books IH]; intros lookup Hbooks Hlookup.
  - exists lookup. done.
  - cbn [forallb] in Hbooks. apply andb_prop in Hbooks as [Hb Hbooks].
    destruct (title_lookup_step b books lookup Hb Hlookup) as (l1 & -> & Hl1 & Hget1).
    destruct (IH l1 Hbooks Hl1) as (l2 & -> & Hget2).
    exists l2. split; [reflexivity|]. intros key Hkey.
    rewrite Hget2, Hget1 by done. rewrite filter_cons.
    destruct (filed_under key b) eqn:Hf.
    + rewrite decide_True by done. rewrite last_cons.
      by destruct (last (filter _ books)).
    + by rewrite decide_False by done.
Qed.

Lemma title_lookup_loop_unhashable (books : list FlatBook)
    (lookup : list (value * FlatBook)) :
  forallb keys_hashable books = false →
  title_lookup_loop books lookup = Raise TypeError.
Proof.
  revert lookup. induction books as [|b books IH]; intros lookup Hbooks; [discriminate|].
  cbn [forallb] in Hbooks. cbn [title_lookup_loop]. cbv zeta. unfold store.
  unfold keys_hashable in Hbooks.
  destruct (truthy (fb_title b)), (hashable (fb_title b)),
           (truthy (fb_heTitle b)), (hashable (fb_heTitle b));
    cbn [negb orb andb] in Hbooks; rewrite ?bind_Ok; try reflexivity;
    by apply IH.
Qed.

(** X4: when every title and heTitle that is used as a key can be hashed,
    [build_title_lookup] returns, and the entry of a key is the last book
    of the list whose non-empty title or heTitle equals the key, the
    titles as they are written; otherwise it raises [TypeError]. *)
Theorem title_lookup_last_writer (flat_books : list FlatBook) :
  (forallb keys_hashable flat_books = true →
   ∃ lookup,
     build_title_lookup flat_books = Ok lookup
     ∧ ∀ key, hashable key = true →
         dict_get lookup key
         = last (filter (λ b, filed_under key b = true) flat_books))
  ∧ (forallb keys_hashable flat_books = false →
     build_title_lookup flat_books = Raise TypeError).
Proof.
  split.
  - intros Hbooks.
    destruct (title_lookup_loop_last flat_books [] Hbooks) as (lookup & Hl & Hget);
      [constructor|].
    exists lookup. split; [exact Hl|]. intros key Hkey.
    rewrite Hget by done. by destruct (last _).
  - apply title_lookup_loop_unhashable.
Qed.

Lemma title_lookup_last_writer_witness :
  ∃ lookup,
    build_title_lookup torah_books = Ok lookup
    ∧ ∀ key, hashable key = true →
        dict_get lookup key
        = last (filter (λ b, filed_under key b = true) torah_books).
Proof.
  apply (proj1 (title_lookup_last_writer torah_books)). vm_compute. reflexivity.
Defined.

End title_lookup.

(** ** make_tree.py *)

Section make_tree_extras.
Import MakeTree LookupSpec FlatSpec.

(** An induction over raw values in which a dict may be entered through
    any of its values: into the elements of a list, the keys of a dict,
    the characters of a string. *)
Lemma contents_induction (P : value → Prop) :
  (∀ raw, match raw with VDict _ => False | _ => True end → P raw) →
  (∀ d, (∀ k v cs, (k, v) ∈ d → py_iter v = Ok cs → Forall P cs) → P (VDict d)) →
  ∀ raw, P raw.
Proof.
  intros Hother Hdict raw.
  enough (P raw ∧ ∀ cs, py_iter raw = Ok cs → Forall P cs) by tauto.
  induction raw as [| | |s|l IH|d IH] using value_rect_nested;
    try (split; [by apply Hother|discriminate]).
  - split; [by apply Hother|]. intros cs [= <-].
    apply Forall_forall. intros c Hc.
    apply list_elem_of_fmap in Hc as (x & -> & _). by apply Hother.
  - split; [by apply Hother|]. intros cs [= <-].
    eapply Forall_impl; [exact IH|]. by intros x [Hx _].
  - split.
    + apply Hdict. intros k v cs Hin Hcs. rewrite Forall_forall in IH.
      destruct (IH _ Hin) as [_ [_ Hv]]. by apply Hv.
    + intros cs [= <-]. apply Forall_forall. intros c Hc.
      apply list_elem_of_fmap in Hc as ([k v] & -> & Hin).
      rewrite Forall_forall in IH. by destruct (IH _ Hin) as [[Hk _] _].
Qed.

Lemma gather_Forall {A B} (f : A → result (list B)) (P : B → Prop)
    (xs : list A) (zs : list B) :
  Forall (λ x, ∀ ys, f x = Ok ys → Forall P ys) xs →
  gather f xs = Ok zs → Forall P zs.
Proof.
  intros Hxs. revert zs. induction Hxs as [|x xs Hx _ IH]; intros zs Hzs.
  - injection Hzs as <-. constructor.
  - cbn [gather] in Hzs. destruct (f x) as [ys|e] eqn:Hfx; [|discriminate].
    rewrite bind_Ok in Hzs. destruct (gather f xs) as [zs'|e]; [|discriminate].
    rewrite bind_Ok in Hzs. injection Hzs as <-.
    apply Forall_app. split; [by apply Hx|by apply IH].
Qed.

Lemma _walk_other_empty (node : value) (bs : list Book) :
  _walk_other node = Ok bs → bs = [].
Proof.
  unfold _walk_other.
  destruct (py_in (u "category") node) as [has_cat|e]; [|discriminate].
  rewrite bind_Ok.
  destruct (if has_cat then py_in (u "contents") node else Ok false)
    as [[|]|e]; try discriminate.
  rewrite bind_Ok.
  destruct (py_in (u "title") node) as [[|]|e]; try discriminate.
  rewrite bind_Ok. by intros [= <-].
Qed.

Lemma _walk_node_other (node : value) (trail : list value) :
  match node with VDict _ => False | _ => True end →
  _walk_node node trail = _walk_other node.
Proof. by destruct node. Qed.

Lemma contents_elem (d : items) :
  dict_has d (VStr (u "contents")) = true →
  ∃ k, (k, dict_get_default d (u "contents") VNone) ∈ d.
Proof.
  unfold dict_has, dict_get_default.
  destruct (dict_get d (VStr (u "contents"))) as [v|] eqn:Hget; [|discriminate].
  intros _. by apply dict_get_elem in Hget.
Qed.

Lemma _walk_node_prefix (node : value) :
  ∀ trail bs, _walk_node node trail = Ok bs →
              Forall (λ b, trail `prefix_of` categories b) bs.
Proof.
  induction node as [node Hnode|d IH] using contents_induction; intros trail bs Hbs.
  - rewrite _walk_node_other in Hbs by done.
    apply _walk_other_empty in Hbs as ->. constructor.
  - rewrite _walk_node_dict in Hbs.
    destruct (dict_has d (VStr (u "category")) && dict_has d (VStr (u "contents")))
      eqn:Hboth.
    + apply andb_prop in Hboth as [_ Hc]. apply contents_elem in Hc as [k Hk].
      cbv zeta in Hbs. unfold _walk in Hbs.
      destruct (py_iter _) as [cs|e] eqn:Hcs; [|discriminate].
      rewrite bind_Ok in Hbs.
      eapply Forall_impl.
      * eapply gather_Forall; [|exact Hbs].
        eapply Forall_impl; [exact (IH _ _ _ Hk Hcs)|].
        intros c Hc ys. apply Hc.
      * intros b Hb. cbn beta in Hb. etrans; [|exact Hb]. by apply prefix_app_r.
    + destruct (dict_has d (VStr (u "title"))).
      * injection Hbs as <-. by repeat constructor.
      * injection Hbs as <-. constructor.
Qed.

(** X5: every book that [flatten_library_tree] lists below a trail has a
    category list that begins with that trail: the walk only ever adds
    category names at the end, and a book under no category has the
    empty list only at the top level. *)
Theorem flatten_categories_extend_trail (node_list : value) (trail : list value)
    (books : list Book) :
  _walk node_list trail = Ok books →
  Forall (λ b, trail `prefix_of` categories b) books.
Proof.
  unfold _walk. intros Hbooks.
  destruct (py_iter node_list) as [nodes|e]; [|discriminate].
  rewrite bind_Ok in Hbooks.
  eapply gather_Forall; [|exact Hbooks].
  apply Forall_forall. intros node _ ys. apply _walk_node_prefix.
Qed.

Lemma flatten_categories_extend_trail_witness :
  Forall (λ b, [VStr (u "Library")] `prefix_of` categories b)
    [mkBook (VStr (u "Genesis")) (VStr (u "בראשית"))
       [VStr (u "Library"); VStr (u "Tanakh")]].
Proof.
  apply (flatten_categories_extend_trail Sample.genesis_index [VStr (u "Library")]).
  vm_compute. reflexivity.
Defined.

Lemma gather_walk_leaves (l : list value) (trail parent_path : list value) :
  Forall (λ raw, Spec.well_formed raw = true →
                 ∀ trail parent_path, ∃ bs,
                   _walk_node raw trail = Ok bs
                   ∧ book_titles <$> bs
                     = flat_titles <$> Spec.title_leaves raw parent_path) l →
  forallb Spec.well_formed l = true →
  ∃ bs, gather (λ node, _walk_node node trail) l = Ok bs
        ∧ book_titles <$> bs
          = flat_titles <$> concat (map (λ raw, Spec.title_leaves raw parent_path) l).
Proof.
  induction 1 as [|c l Hc _ IH]; intros Hwf.
  - by exists [].
  - cbn [forallb] in Hwf. apply andb_prop in Hwf as [Hwc Hwl].
    destruct (Hc Hwc trail parent_path) as (bs & Hbs & Hkeys).
    destruct (IH Hwl) as (rest & Hrest & Hkeys').
    cbn [gather]. rewrite Hbs, bind_Ok, Hrest, bind_Ok.
    eexists. split; [reflexivity|].
    cbn [map concat]. by rewrite !fmap_app, Hkeys, Hkeys'.
Qed.

Lemma _walk_node_leaves (raw : value) :
  Spec.well_formed raw = true →
  ∀ trail parent_path, ∃ bs,
    _walk_node raw trail = Ok bs
    ∧ book_titles <$> bs = flat_titles <$> Spec.title_leaves raw parent_path.
Proof.
  induction raw as [raw Hraw|d IH] using contents_induction;
    [by destruct raw|].
  intros Hwf trail parent_path.
  rewrite well_formed_dict in Hwf.
  rewrite _walk_node_dict, title_leaves_dict. cbv zeta.
  destruct (dict_has d (VStr (u "category"))) eqn:Hcat.
  - apply andb_prop in Hwf as [Htitle Hcontents].
    apply negb_true_iff in Htitle. rewrite Htitle. cbn [negb andb].
    unfold dict_has at 1. unfold dict_get_default at 1.
    destruct (dict_get d (VStr (u "contents"))) as [v|] eqn:Hget.
    + destruct v as [| | | |l|]; try discriminate.
      apply dict_get_elem in Hget as [k Hk].
      unfold _walk. cbn [py_iter]. rewrite bind_Ok.
      set (new_trail := trail ++ [_]). set (below := parent_path ++ [_]).
      destruct (gather_walk_leaves l new_trail below (IH _ _ _ Hk eq_refl) Hcontents)
        as (bs & Hbs & Hkeys).
      exists bs. split; [exact Hbs|]. rewrite Hkeys. by destruct l.
    + by exists [].
  - cbn [andb]. destruct (dict_has d (VStr (u "title"))) eqn:Htitle.
    + eexists. split; [reflexivity|]. cbn [negb andb].
      destruct (dict_get d (VStr (u "contents"))) as [[| | | |[|c l]|]|];
        try discriminate; reflexivity.
    + by exists [].
Qed.

(** X6: on a well-formed index the two flatteners list the same books:
    [flatten_library_tree] of make_tree.py returns, and its records have,
    in the same order, the titles and heTitles of the records that
    [build_flat_book_list] takes from the tree of tree_of_life.py. *)
Theorem flatteners_agree_on_titles (fetch : result value) (payload : list value) :
  forallb Spec.well_formed payload = true →
  ∃ books tree,
    flatten_library_tree (VList payload) = Ok books
    ∧ TreeOfLife.build_library_tree fetch (VList payload) = Ok tree
    ∧ book_titles <$> books = flat_titles <$> TreeOfLife.build_flat_book_list tree.
Proof.
  intros Hwf.
  assert (Hall : Forall Spec.normalizes payload).
  { apply Forall_forall. intros x _. apply well_formed_normalizes. }
  destruct (collect_normalizes payload [] Hall Hwf) as (cs & Hcs & Hflat).
  destruct (gather_walk_leaves payload [] []) as (books & Hbooks & Hkeys); [|exact Hwf|].
  { apply Forall_forall. intros raw _. apply _walk_node_leaves. }
  exists books. eexists. split; [exact Hbooks|].
  unfold TreeOfLife.build_library_tree. rewrite bind_Ok, Hcs, bind_Ok.
  split; [reflexivity|].
  unfold TreeOfLife.build_flat_book_list. rewrite walk_node.
  rewrite decide_False by discriminate. cbn [app]. by rewrite Hflat.
Qed.

Lemma flatteners_agree_on_titles_witness :
  ∃ books tree,
    flatten_library_tree (VList Sample.mixed_index) = Ok books
    ∧ TreeOfLife.build_library_tree (Raise KeyError) (VList Sample.mixed_index) = Ok tree
    ∧ book_titles <$> books = flat_titles <$> TreeOfLife.build_flat_book_list tree.
Proof.
  apply flatteners_agree_on_titles. vm_compute. reflexivity.
Defined.

Lemma build_book_lookup_size (lower : str → str) (books : list Book) :
  (size (build_book_lookup lower books) ≤ 2 * length books)%nat.
Proof.
  induction books as [|b books IH] using rev_ind; [done|].
  rewrite build_book_lookup_snoc, length_app. cbv zeta. cbn [length].
  assert (Hins : ∀ (m : gmap str Book) k x n,
            (size m ≤ n → size (<[k:=x]> m) ≤ S n)%nat).
  { intros m k x n Hm. destruct (m !! k) eqn:Hk.
    - rewrite map_size_insert_Some by done. lia.
    - rewrite map_size_insert_None by done. lia. }
  replace (2 * (length books + 1))%nat with (S (S (2 * length books))) by lia.
  destruct (title b) as [| | |t| |], (heTitle b) as [| | |h| |];
    first [ by apply Hins, Hins
          | by apply Nat.le_le_succ_r, Hins
          | by do 2 apply Nat.le_le_succ_r ].
Qed.

(** X7: whatever [build_book_lookup] stores under a key is a book of the
    list that has this key as its lower-cased title or as its heTitle; a
    key of neither kind has no entry, and there are at most two keys per
    book. *)
Theorem book_lookup_entries (lower : str → str) (books : list Book) :
  (∀ k b, build_book_lookup lower books !! k = Some b →
          b ∈ books ∧ k ∈ book_keys lower b)
  ∧ (∀ k, (∀ b, b ∈ books → k ∉ book_keys lower b) →
          build_book_lookup lower books !! k = None)
  ∧ (size (build_book_lookup lower books) ≤ 2 * length books)%nat.
Proof.
  split; [|split].
  - intros k b. rewrite build_book_lookup_last. intros Hlast.
    apply last_Some_elem_of, list_elem_of_filter in Hlast. tauto.
  - intros k Hk. rewrite build_book_lookup_last.
    destruct (last _) as [b|] eqn:Hlast; [|reflexivity].
    apply last_Some_elem_of, list_elem_of_filter in Hlast as [Hin Hb].
    by destruct (Hk b Hb).
  - apply build_book_lookup_size.
Qed.

Lemma book_lookup_entries_witness :
  genesis_lower ∈ [genesis; genesis_lower]
  ∧ u "genesis" ∈ book_keys ascii_lower genesis_lower.
Proof.
  apply (proj1 (book_lookup_entries ascii_lower [genesis; genesis_lower])).
  vm_compute. reflexivity.
Defined.

End make_tree_extras.

(** ** The text cleaner and neat_text_fetch.py *)

Section clean_extras.
Import NeatTextFetch CleanSpec.

Lemma join_spaces (ws : list str) :
  Forall (λ w, w ≠ [] ∧ Forall (λ c, is_space c = false) w) ws →
  Forall (λ c, is_space c = true → c = SPACE) (join [SPACE] ws).
Proof.
  assert (Hword : ∀ w, Forall (λ c, is_space c = false) w →
            Forall (λ c, is_space c = true → c = SPACE) w).
  { intros w Hw. eapply Forall_impl; [exact Hw|]. intros c Hc Hc'. congruence. }
  induction 1 as [|w ws [_ Hw] _ IH]; [constructor|].
  destruct ws as [|w' ws'].
  - cbn [join]. by apply Hword.
  - change (join [SPACE] (w :: w' :: ws'))
      with (w ++ SPACE :: join [SPACE] (w' :: ws')).
    apply Forall_app. split; [by apply Hword|]. by constructor.
Qed.

(** X8: a cleaned string is in normal form: no tag is left in it, its
    only whitespace characters are single spaces between words (splitting
    it and joining the words with one space gives it back, so it has no
    space at either end and no two in a row), and it has no
    non-breaking space. *)
Theorem clean_normal_form (html5 : list (str * str)) (s : str) :
  let t := clean_he_string html5 s in
  has_tag t = false
  ∧ join [SPACE] (split t) = t
  ∧ Forall (λ c, is_space c = true → c = SPACE) t
  ∧ NBSP ∉ t.
Proof.
  intros t. unfold clean_he_string in t. cbv zeta in t.
  split; [|split; [|split]].
  - rewrite has_tag_angles. unfold t.
    rewrite <- filter_angle_nonspace, collapse_keeps, filter_angle_nonspace.
    rewrite filter_angle_replace, <- has_tag_angles. apply tag_sub_no_tag.
  - unfold t. by rewrite split_join by apply split_words.
  - apply join_spaces, split_words.
  - intros Hin. pose proof (join_chars _ (split_words
      (replace_char NBSP SPACE (tag_sub false (unescape html5 s))))) as Hall.
    rewrite Forall_forall in Hall. by apply (Hall NBSP).
Qed.

Lemma existsb_gt_app (t b : str) : existsb (N.eqb GT) (t ++ GT :: b) = true.
Proof.
  induction t as [|c t IH]; cbn [app existsb]; [done|].
  rewrite IH. apply orb_true_r.
Qed.

Lemma tag_sub_inside (t b : str) :
  GT ∉ t → tag_sub true (t ++ GT :: b) = tag_sub false b.
Proof.
  induction t as [|c t IH]; intros Ht.
  - reflexivity.
  - cbn [app tag_sub]. apply not_elem_of_cons in Ht as [Hc Ht].
    apply not_eq_sym, N.eqb_neq in Hc. rewrite Hc. by apply IH.
Qed.

(** X9: the tag stripper takes out a whole tag and nothing else: text
    without [<], then a tag whose inside has no [>], is kept as the text
    followed by the stripped rest; and a string without [>] is not
    changed at all. *)
Theorem tag_sub_removes_tag :
  (∀ a t b : str,
     LT ∉ a → GT ∉ t →
     tag_sub false (a ++ LT :: t ++ GT :: b) = a ++ tag_sub false b)
  ∧ (∀ s : str, GT ∉ s → tag_sub false s = s).
Proof.
  split.
  - intros a t b Ha Ht. induction a as [|c a IH].
    + cbn [app tag_sub]. rewrite N.eqb_refl, existsb_gt_app. cbn [andb].
      by apply tag_sub_inside.
    + apply not_elem_of_cons in Ha as [Hc Ha].
      cbn [app tag_sub]. apply not_eq_sym, N.eqb_neq in Hc. rewrite Hc.
      cbn [andb]. f_equal. by apply IH.
  - intros s Hs. apply tag_sub_fixed.
    induction s as [|c s IH]; [reflexivity|].
    apply not_elem_of_cons in Hs as [Hc Hs]. cbn [has_tag].
    rewrite IH by done. rewrite orb_false_r.
    destruct (existsb (N.eqb GT) s) eqn:He; [|apply andb_false_r].
    exfalso. apply existsb_exists in He as (x & Hx & Heq).
    apply N.eqb_eq in Heq. subst x. apply Hs. by apply list_elem_of_In.
Qed.

Lemma tag_sub_removes_tag_witness :
  tag_sub false (u "a > b " ++ LT :: u "span class='x'" ++ GT :: u "c<d")
  = u "a > b " ++ tag_sub false (u "c<d").
Proof.
  apply (proj1 tag_sub_removes_tag); vm_compute;
    intros H; repeat (apply elem_of_cons in H as [H|H]; [discriminate H|]);
    by apply elem_of_nil in H.
Defined.

Lemma str_join_error (sep : str) (xs : list value) (e : exn) :
  str_join sep xs = Raise e → e = TypeError.
Proof.
  induction xs as [|x xs IH]; [discriminate|].
  cbn [str_join]. destruct x as [| | |w| |]; try (by intros [= <-]).
  destruct xs as [|x' xs']; [discriminate|].
  destruct (str_join sep (x' :: xs')) as [rest|e']; [discriminate|].
  intros [= <-]. by apply IH.
Qed.

(** X10: for a text field that is one string, [test_texts_api] of
    neat_text_fetch.py builds that very string (a non-empty string counts
    there as a sequence of one-character strings and is joined back), so
    that it cleans the same line as [build_ref_summary] does; whatever
    the field is, the only exception of the first is [TypeError]. *)
Theorem single_string_text (html5 : list (str * str)) :
  (∀ s : str, raw_hebrew (VStr s) = Ok s)
  ∧ (∀ s : str, cleaned html5 (VStr s) = Ok (clean_he_string html5 s))
  ∧ (∀ s : str, s ≠ [] →
       collect (Endpoints345.clean_line html5) (Endpoints345.normalize_lines (VStr s))
       = Ok [VStr (clean_he_string html5 s)])
  ∧ (∀ he_raw_list e, raw_hebrew he_raw_list = Raise e → e = TypeError).
Proof.
  assert (Hraw : ∀ s : str, raw_hebrew (VStr s) = Ok s).
  { intros s. unfold raw_hebrew. destruct s as [|c s]; [reflexivity|].
    cbn [truthy py_iter]. rewrite !bind_Ok.
    assert (Hall : forallb single_char ((λ c, VStr [c]) <$> (c :: s)) = true).
    { generalize (c :: s). intros l. induction l as [|x l IH]; [reflexivity|exact IH]. }
    change (map (λ c, VStr [c]) (c :: s)) with ((λ c, VStr [c]) <$> (c :: s)).
    rewrite Hall. apply str_join_chars. }
  split; [exact Hraw|]. split; [|split].
  - intros s. unfold cleaned. by rewrite Hraw.
  - intros [|c s] Hs; [done|]. reflexivity.
  - intros v e. unfold raw_hebrew.
    destruct (truthy v).
    + destruct (py_iter v) as [chs|e'] eqn:Hiter.
      * rewrite !bind_Ok. destruct (forallb single_char chs).
        -- apply str_join_error.
        -- destruct v; try discriminate. apply str_join_error.
      * intros [= <-]. by apply py_iter_error in Hiter.
    + rewrite bind_Ok. destruct v; try discriminate. apply str_join_error.
Qed.

Lemma single_string_text_witness :
  collect (Endpoints345.clean_line html5_rows)
    (Endpoints345.normalize_lines (VStr (u "<b>בראשית</b>")))
  = Ok [VStr (clean_he_string html5_rows (u "<b>בראשית</b>"))].
Proof.
  apply (proj1 (proj2 (proj2 (single_string_text html5_rows)))).
  vm_compute. discriminate.
Defined.

End clean_extras.

(** ** Topic ids and topic objects *)

Section topic_extras.
Import TopicSpec.

Lemma dedupe_fmap {A} (key : A → str) (seen : gset str) (xs : list A) :
  key <$> dedupe key seen xs = dedupe id seen (key <$> xs).
Proof.
  revert seen. induction xs as [|x xs IH]; intros seen; [reflexivity|].
  cbn [dedupe fmap list_fmap]. unfold id at 1 3.
  destruct (decide (key x ∈ seen)); [apply IH|].
  cbn [fmap list_fmap]. f_equal. apply IH.
Qed.

Lemma topic_object_id_compact (i : str) (title source_slug : value) :
  topic_object_id (topic_object i title source_slug) = i.
Proof. reflexivity. Qed.

Lemma topics_ids_345 (l ts : list value) :
  Endpoints345.topics l = Ok ts → topic_object_id <$> ts = Endpoints345.slugs l.
Proof.
  revert ts. induction l as [|item l IH]; intros ts Hts.
  - by injection Hts as <-.
  - cbn [Endpoints345.topics Endpoints345.slugs] in *.
    destruct item as [| | | | |d]; try by apply IH.
    destruct (dict_get_default d (u "topic") VNone) as [| | |topic_id| |];
      try by apply IH.
    destruct (decide _); [by apply IH|].
    destruct (topic_fields d) as [[source_slug title]|e]; [|discriminate].
    rewrite bind_Ok in Hts.
    destruct (Endpoints345.topics l) as [ts'|e]; [|discriminate].
    rewrite bind_Ok in Hts. injection Hts as <-.
    cbn [fmap list_fmap]. rewrite topic_object_id_compact. f_equal. by apply IH.
Qed.

Lemma topics_ids_fetch (l ts : list value) :
  FetchTopics.topics l = Ok ts → topic_object_id <$> ts = FetchTopics.slugs l.
Proof.
  revert ts. induction l as [|item l IH]; intros ts Hts.
  - by injection Hts as <-.
  - cbn [FetchTopics.topics FetchTopics.slugs] in *.
    destruct item as [| | | | |d]; try by apply IH.
    destruct (dict_get_default d (u "topic") VNone) as [| | |topic_id| |];
      try by apply IH.
    destruct (topic_fields d) as [[source_slug title]|e]; [|discriminate].
    rewrite bind_Ok in Hts.
    destruct (FetchTopics.topics l) as [ts'|e]; [|discriminate].
    rewrite bind_Ok in Hts. injection Hts as <-.
    cbn [fmap list_fmap]. rewrite topic_object_id_compact. f_equal. by apply IH.
Qed.

Lemma topic_fields_error (item : items) (e : exn) :
  topic_fields item = Raise e → e = AttributeError.
Proof.
  unfold topic_fields, py_get.
  repeat match goal with
         | |- context [match ?v with VDict _ => _ | _ => _ end] =>
             destruct v; try (by intros [= <-]); rewrite ?bind_Ok
         | |- context [if ?b then _ else _] => destruct b; rewrite ?bind_Ok
         end; discriminate.
Qed.

Lemma topics_error_345 (l : list value) (e : exn) :
  Endpoints345.topics l = Raise e → e = AttributeError.
Proof.
  induction l as [|item l IH]; [discriminate|].
  cbn [Endpoints345.topics].
  destruct item as [| | | | |d]; try exact IH.
  destruct (dict_get_default d (u "topic") VNone) as [| | |topic_id| |];
    try exact IH.
  destruct (decide _); [exact IH|].
  destruct (topic_fields d) as [[source_slug title]|e'] eqn:Hf.
  - rewrite bind_Ok. destruct (Endpoints345.topics l) as [ts'|e'']; [discriminate|].
    intros [= <-]. by apply IH.
  - intros [= <-]. by apply topic_fields_error in Hf.
Qed.

Lemma topics_error_fetch (l : list value) (e : exn) :
  FetchTopics.topics l = Raise e → e = AttributeError.
Proof.
  induction l as [|item l IH]; [discriminate|].
  cbn [FetchTopics.topics].
  destruct item as [| | | | |d]; try exact IH.
  destruct (dict_get_default d (u "topic") VNone) as [| | |topic_id| |];
    try exact IH.
  destruct (topic_fields d) as [[source_slug title]|e'] eqn:Hf.
  - rewrite bind_Ok. destruct (FetchTopics.topics l) as [ts'|e'']; [discriminate|].
    intros [= <-]. by apply IH.
  - intros [= <-]. by apply topic_fields_error in Hf.
Qed.

(** X11: the two topic extractions of a file go together: when
    [extract_topic_objects] returns, the ids of its objects are, in
    order, the list that [extract_topic_slugs] returns for the same
    response, in endpoints3+4+5demo.py and in fetch_topics.py; and the
    only exception it raises is [AttributeError] (a [dataSource],
    [descriptions] or [en] field that is truthy and no dict), where
    [extract_topic_slugs] still returns. *)
Theorem topic_objects_match_ids :
  (∀ (raw : value) (objs : list value),
     Endpoints345.extract_topic_objects raw = Ok objs →
     topic_object_id <$> objs = Endpoints345.extract_topic_slugs raw)
  ∧ (∀ (raw : value) (objs : list value),
       FetchTopics.extract_topic_objects raw = Ok objs →
       topic_object_id <$> objs = FetchTopics.extract_topic_slugs raw)
  ∧ (∀ (raw : value) (e : exn),
       Endpoints345.extract_topic_objects raw = Raise e
       ∨ FetchTopics.extract_topic_objects raw = Raise e →
       e = AttributeError).
Proof.
  split; [|split].
  - intros raw objs Hobjs. destruct raw as [| | | |l|]; try by injection Hobjs as <-.
    cbn [Endpoints345.extract_topic_objects Endpoints345.extract_topic_slugs] in *.
    destruct (Endpoints345.topics l) as [ts|e] eqn:Hts; [|discriminate].
    rewrite bind_Ok in Hobjs. injection Hobjs as <-.
    rewrite dedupe_fmap. f_equal. by apply topics_ids_345.
  - intros raw objs Hobjs. destruct raw as [| | | |l|]; try by injection Hobjs as <-.
    cbn [FetchTopics.extract_topic_objects FetchTopics.extract_topic_slugs] in *.
    destruct (FetchTopics.topics l) as [ts|e] eqn:Hts; [|discriminate].
    rewrite bind_Ok in Hobjs. injection Hobjs as <-.
    rewrite dedupe_fmap. f_equal. by apply topics_ids_fetch.
  - intros raw e [He|He]; destruct raw as [| | | |l|]; try discriminate.
    + cbn [Endpoints345.extract_topic_objects] in He.
      destruct (Endpoints345.topics l) as [ts|e'] eqn:Hts; [discriminate|].
      injection He as <-. by apply topics_error_345 in Hts.
    + cbn [FetchTopics.extract_topic_objects] in He.
      destruct (FetchTopics.topics l) as [ts|e'] eqn:Hts; [discriminate|].
      injection He as <-. by apply topics_error_fetch in Hts.
Qed.

Lemma topic_objects_match_ids_witness :
  topic_object_id <$> [topic_object (u "a") VNone VNone;
                       topic_object (u "b") VNone VNone;
                       topic_object (u "c") VNone VNone]
  = Endpoints345.extract_topic_slugs five_links.
Proof.
  apply (proj1 topic_objects_match_ids five_links). vm_compute. reflexivity.
Defined.

Lemma dedupe_filter (P : str → Prop) `{!∀ x, Decision (P x)}
    (seen seen' : gset str) (xs : list str) :
  (∀ y, P y → (y ∈ seen ↔ y ∈ seen')) →
  dedupe id seen (filter P xs) = filter P (dedupe id seen' xs).
Proof.
  revert seen seen'. induction xs as [|x xs IH]; intros seen seen' Hseen;
    [reflexivity|].
  rewrite filter_cons. destruct (decide (P x)) as [HP|HP].
  - cbn [dedupe]. unfold id at 1 3 4 6.
    destruct (decide (x ∈ seen)) as [Hin|Hout].
    + rewrite decide_True by (by apply Hseen). by apply IH.
    + rewrite decide_False by (by rewrite <- Hseen).
      rewrite filter_cons, decide_True by done. f_equal. apply IH.
      intros y Hy. rewrite !elem_of_union, (Hseen y Hy). tauto.
  - cbn [dedupe]. unfold id at 2 3.
    destruct (decide (x ∈ seen')) as [Hin|Hout]; [by apply IH|].
    rewrite filter_cons, decide_False by done. apply IH.
    intros y Hy. rewrite elem_of_union, elem_of_singleton, (Hseen y Hy).
    split; [tauto|]. intros [->|Hin]; [done|exact Hin].
Qed.

Lemma slugs_filter_fetch (l : list value) :
  Endpoints345.slugs l
  = filter (λ s, s ∉ Endpoints345.BLACKLISTED_TOPIC_IDS) (FetchTopics.slugs l).
Proof.
  induction l as [|item l IH]; [reflexivity|].
  cbn [Endpoints345.slugs FetchTopics.slugs].
  destruct item as [| | | | |d]; try exact IH.
  destruct (dict_get_default d (u "topic") VNone) as [| | |s| |]; try exact IH.
  rewrite filter_cons.
  destruct (decide (s ∈ _)) as [Hin|Hout].
  - rewrite decide_False by tauto. exact IH.
  - rewrite decide_True by done. by rewrite IH.
Qed.

(** X12: the endpoints3+4+5demo.py version of [extract_topic_slugs]
    differs from the fetch_topics.py version by the exclusion set only:
    its result is the other one's result without the excluded ids, for
    every response. *)
Theorem blacklist_is_the_only_difference (raw : value) :
  Endpoints345.extract_topic_slugs raw
  = filter (λ s, s ∉ Endpoints345.BLACKLISTED_TOPIC_IDS)
      (FetchTopics.extract_topic_slugs raw).
Proof.
  destruct raw as [| | | |l|]; try reflexivity.
  cbn [Endpoints345.extract_topic_slugs FetchTopics.extract_topic_slugs].
  rewrite slugs_filter_fetch. by apply dedupe_filter.
Qed.

End topic_extras.

(** ** Related sources *)

Section link_extras.
Import Endpoints345 LinkSpec.

Lemma first_other (l : list value) (anchor : value) :
  match filter (λ r, py_eq r anchor = false) l with
  | c :: _ => ∃ pre post, l = pre ++ c :: post
                ∧ Forall (λ r, py_eq r anchor = true) pre ∧ py_eq c anchor = false
  | [] => Forall (λ r, py_eq r anchor = true) l
  end.
Proof.
  induction l as [|r l IH]; [constructor|].
  rewrite filter_cons. destruct (decide (py_eq r anchor = false)) as [Hr|Hr].
  - by exists [], l.
  - apply not_false_is_true in Hr.
    destruct (filter _ l) as [|c cs].
    + by constructor.
    + destruct IH as (pre & post & -> & Hpre & Hc).
      exists (r :: pre), post. split; [reflexivity|]. split; [by constructor|exact Hc].
Qed.

(** X13: [simplify_link] on a link dict whose [refs] field is a list (or
    falsy) returns the four fields; the [sourceRef] is the link's own
    when that is truthy, else the first of the refs that differs from
    the anchor, else (all of them equal it) the first ref, else (no
    refs) the anchor itself.  A link that is no dict raises
    [AttributeError]. *)
Theorem simplify_link_other_side (d : items) (anchor_ref : value) (l : list value) :
  let anchor := py_or (dict_get_default d (u "anchorRef") VNone) anchor_ref in
  let given := dict_get_default d (u "sourceRef") VNone in
  py_or (dict_get_default d (u "refs") VNone) (VList []) = VList l →
  (∃ source_ref,
     simplify_link (VDict d) anchor_ref
     = Ok (link_object (dict_get_default d (u "category") (VStr (u "Unknown")))
             (dict_get_default d (u "type") (VStr [])) source_ref anchor)
     ∧ (truthy given = true → source_ref = given)
     ∧ (truthy given = false →
        (∃ pre post, l = pre ++ source_ref :: post
           ∧ Forall (λ r, py_eq r anchor = true) pre
           ∧ py_eq source_ref anchor = false)
        ∨ (Forall (λ r, py_eq r anchor = true) l ∧ source_ref = hd anchor l)))
  ∧ (∀ link, match link with VDict _ => True
             | _ => simplify_link link anchor_ref = Raise AttributeError end).
Proof.
  intros anchor given Hrefs. split; [|by intros []].
  unfold simplify_link. cbn [py_get]. rewrite !bind_Ok.
  fold anchor. fold given. rewrite Hrefs. cbn [py_iter]. rewrite bind_Ok.
  destruct (truthy given) eqn:Hgiven.
  - rewrite bind_Ok. exists given. by repeat split.
  - pose proof (first_other l anchor) as Hfirst.
    destruct (filter _ l) as [|c cs].
    + destruct l as [|r l'].
      * cbn [truthy]. rewrite bind_Ok. exists anchor.
        repeat split; [done|]. intros _. by right.
      * cbn [truthy first_item]. rewrite bind_Ok. exists r.
        repeat split; [done|]. intros _. by right.
    + rewrite bind_Ok. exists c. repeat split; [done|]. intros _. by left.
Qed.

Lemma simplify_link_other_side_witness :
  ∃ source_ref,
    simplify_link (raw_link "Commentary" [u "Genesis 1:1"; u "Rashi on Genesis 1:1:1"])
      (VStr (u "Genesis 1:1"))
    = Ok (link_object (VStr (u "Commentary")) (VStr []) source_ref (VStr (u "Genesis 1:1")))
    ∧ (false = true → source_ref = VNone)
    ∧ (false = false →
       (∃ pre post,
          [VStr (u "Genesis 1:1"); VStr (u "Rashi on Genesis 1:1:1")]
          = pre ++ source_ref :: post
          ∧ Forall (λ r, py_eq r (VStr (u "Genesis 1:1")) = true) pre
          ∧ py_eq source_ref (VStr (u "Genesis 1:1")) = false)
       ∨ (Forall (λ r, py_eq r (VStr (u "Genesis 1:1")) = true)
            [VStr (u "Genesis 1:1"); VStr (u "Rashi on Genesis 1:1:1")]
          ∧ source_ref = VStr (u "Genesis 1:1"))).
Proof.
  refine (proj1 (simplify_link_other_side
    [(VStr (u "category"), VStr (u "Commentary"));
     (VStr (u "refs"), VList [VStr (u "Genesis 1:1"); VStr (u "Rashi on Genesis 1:1:1")])]
    (VStr (u "Genesis 1:1"))
    [VStr (u "Genesis 1:1"); VStr (u "Rashi on Genesis 1:1:1")] _)).
  vm_compute. reflexivity.
Defined.

End link_extras.


Section grouping_extras.
Import Endpoints345 LinkSpec.

Lemma py_eq_refl_hashable (v : value) : hashable v = true → py_eq v v = true.
Proof.
  destruct v as [|b|z|s|l|d]; try discriminate; intros _; cbn [py_eq].
  - reflexivity.
  - by apply bool_decide_eq_true.
  - apply Z.eqb_refl.
  - by apply bool_decide_eq_true.
Qed.

Lemma dict_get_split {A} (d : list (value * A)) (k : value) (b : A) :
  dict_get d k = Some b →
  ∃ d1 k' d2, d = d1 ++ (k', b) :: d2 ∧ py_eq k' k = true
    ∧ ∀ v, dict_set d k v = d1 ++ (k', v) :: d2.
Proof.
  induction d as [|[k0 b0] d IH]; [discriminate|].
  cbn [dict_get dict_set]. destruct (py_eq k0 k) eqn:Hk.
  - intros [= ->]. by exists [], k0, d.
  - intros Hget. destruct (IH Hget) as (d1 & k' & d2 & -> & Hk' & Hset).
    exists ((k0, b0) :: d1), k', d2. repeat split; [done|].
    intros v. by rewrite Hset.
Qed.

Lemma dict_set_new {A} (d : list (value * A)) (k : value) (v : A) :
  dict_get d k = None → dict_set d k v = d ++ [(k, v)].
Proof.
  induction d as [|[k0 b0] d IH]; [reflexivity|].
  cbn [dict_get dict_set]. destruct (py_eq k0 k); [discriminate|].
  intros Hget. by rewrite IH.
Qed.

Lemma dict_get_new {A} (d : list (value * A)) (k : value) (v : A) :
  dict_get d k = None → py_eq k k = true → dict_get (d ++ [(k, v)]) k = Some v.
Proof.
  intros Hget Hk. induction d as [|[k0 b0] d IH].
  - cbn [app dict_get]. by rewrite Hk.
  - cbn [dict_get app] in *. destruct (py_eq k0 k); [discriminate|]. by apply IH.
Qed.

Lemma simplify_link_category (raw anchor_ref s : value) :
  simplify_link raw anchor_ref = Ok s → ∃ c, py_getitem s (u "category") = Ok c.
Proof.
  unfold simplify_link. destruct raw as [| | | | |d]; try discriminate.
  cbn [py_get]. rewrite !bind_Ok.
  match goal with |- context [mbind _ ?m] => destruct m as [src|e] end;
    [|discriminate].
  rewrite bind_Ok. intros [= <-]. by eexists.
Qed.

Lemma related_loop_invariant (raws : list value) (anchor_ref : value) (max_per_cat : Z)
    (links : list value) :
  ∀ grouped g',
    (∀ raw, raw ∈ links → raw ∈ raws) →
    related_loop links anchor_ref max_per_cat grouped = Ok g' →
    Forall (bucket_ok raws anchor_ref (Z.to_nat max_per_cat)) grouped →
    Forall (bucket_ok raws anchor_ref (Z.to_nat max_per_cat)) g'
    ∧ (held g' ≤ held grouped + length links)%nat
    ∧ ((Z.of_nat (held grouped + length links) ≤ max_per_cat)%Z →
       held g' = (held grouped + length links)%nat)
    ∧ (length g' ≤ length grouped + length links)%nat.
Proof.
  induction links as [|raw rest IH]; intros grouped g' Hsub Hloop Hok.
  - injection Hloop as <-. cbn [length]. rewrite !Nat.add_0_r. done.
  - cbn [related_loop] in Hloop.
    destruct (simplify_link raw anchor_ref) as [s|e] eqn:Hs; [|discriminate].
    rewrite bind_Ok in Hloop.
    destruct (simplify_link_category _ _ _ Hs) as [cat Hcat].
    rewrite Hcat, bind_Ok in Hloop.
    destruct (hashable cat) eqn:Hhash; [|discriminate].
    (* the dict after [if cat not in grouped: grouped[cat] = []] *)
    set (grouped1 := if dict_has grouped cat then grouped else dict_set grouped cat [])
      in Hloop.
    assert (H1 : ∃ b, dict_get grouped1 cat = Some b
              ∧ Forall (bucket_ok raws anchor_ref (Z.to_nat max_per_cat)) grouped1
              ∧ held grouped1 = held grouped
              ∧ (length grouped1 ≤ length grouped + 1)%nat).
    { unfold grouped1, dict_has. destruct (dict_get grouped cat) as [b|] eqn:Hget.
      - exists b. repeat split; [done..|lia].
      - exists []. rewrite dict_set_new by done. repeat split.
        + apply dict_get_new; [done|by apply py_eq_refl_hashable].
        + apply Forall_app. split; [done|]. constructor; [|constructor].
          repeat split; [done|cbn; lia|constructor].
        + unfold held. rewrite sum_list_with_app. cbn. lia.
        + rewrite length_app. cbn. lia. }
    destruct H1 as (b & Hget & Hok1 & Hheld1 & Hlen1).
    rewrite Hget in Hloop. cbn [default from_option id] in Hloop.
    destruct (dict_get_split _ _ _ Hget) as (d1 & k' & d2 & Hd & Hk' & Hset).
    rewrite Hd in Hok1. apply Forall_app in Hok1 as [Hok_d1 Hok_rest].
    apply Forall_cons in Hok_rest as [(Hk'h & Hb & Hall) Hok_d2].
    cbn [fst snd] in Hk'h, Hb, Hall.
    assert (Hheld_b : (length b ≤ held grouped)%nat).
    { rewrite <- Hheld1, Hd. unfold held. rewrite sum_list_with_app. cbn. lia. }
    assert (Hrest : ∀ r, r ∈ rest → r ∈ raws) by (intros r Hr; apply Hsub; by right).
    destruct (Z.of_nat (length b) <? max_per_cat)%Z eqn:Hcap.
    + apply Z.ltb_lt in Hcap. rewrite Hset in Hloop.
      destruct (IH _ _ Hrest Hloop) as (Hok' & Hle & Heq & Hlen).
      { apply Forall_app. split; [done|]. constructor; [|done].
        repeat split; cbn [fst snd]; [done|rewrite length_app; cbn; lia|].
        apply Forall_app. split; [done|]. constructor; [|constructor].
        split; [exists raw; split; [apply Hsub; left|done]|by exists cat]. }
      assert (Hheld2 : held (d1 ++ (k', b ++ [s]) :: d2) = S (held grouped)).
      { rewrite <- Hheld1, Hd. unfold held. rewrite !sum_list_with_app. cbn.
        rewrite length_app. cbn. lia. }
      assert (Hlen2 : length (d1 ++ (k', b ++ [s]) :: d2) = length grouped1).
      { rewrite Hd, !length_app. reflexivity. }
      rewrite Hheld2 in Hle, Heq. rewrite Hlen2 in Hlen. cbn [length].
      repeat split; [done|lia| |lia].
      intros Hmax. rewrite Heq; lia.
    + apply Z.ltb_ge in Hcap.
      destruct (IH _ _ Hrest Hloop) as (Hok' & Hle & Heq & Hlen).
      { rewrite Hd. apply Forall_app. split; [done|]. by constructor. }
      rewrite Hheld1 in Hle, Heq. cbn [length].
      repeat split; [done|lia| |lia].
      intros Hmax. lia.
Qed.

Lemma bucket_sizes_held (grouped : list (value * list value)) :
  bucket_sizes (VDict (map (λ kv, (kv.1, VList kv.2)) grouped))
  = map (λ kv, length kv.2) grouped
  ∧ sum_list (map (λ kv, length kv.2) grouped) = held grouped.
Proof.
  split.
  - cbn [bucket_sizes]. rewrite map_map. reflexivity.
  - unfold held. induction grouped as [|kv g IH]; [reflexivity|].
    change (map (λ kv0 : value * list value, length kv0.2) (kv :: g))
      with (length kv.2 :: map (λ kv0 : value * list value, length kv0.2) g).
    rewrite sum_list_cons, IH. reflexivity.
Qed.

(** X14: [build_related_by_category] keeps its cap and loses nothing
    below it: in what it returns no category has more than
    [max_per_cat] links, there are at most as many categories and as
    many links as raw links, and as many links when the cap is not
    below their number; each link of a category's list is the simplified
    form of a raw link and has that category. *)
Theorem related_sources_capped (links anchor_ref : value) (max_per_cat : Z)
    (ls : list value) (out : value) :
  py_iter links = Ok ls →
  build_related_by_category links anchor_ref max_per_cat = Ok out →
  Forall (λ n, (n ≤ Z.to_nat max_per_cat)%nat) (bucket_sizes out)
  ∧ (length (bucket_sizes out) ≤ length ls)%nat
  ∧ (sum_list (bucket_sizes out) ≤ length ls)%nat
  ∧ ((Z.of_nat (length ls) ≤ max_per_cat)%Z → sum_list (bucket_sizes out) = length ls)
  ∧ (∀ cat s, in_bucket out cat s →
       hashable cat = true
       ∧ (∃ raw, raw ∈ ls ∧ simplify_link raw anchor_ref = Ok s)
       ∧ ∃ c, py_getitem s (u "category") = Ok c ∧ py_eq cat c = true).
Proof.
  intros Hiter Hout. unfold build_related_by_category in Hout.
  rewrite Hiter, bind_Ok in Hout.
  destruct (related_loop ls anchor_ref max_per_cat []) as [grouped|e] eqn:Hloop;
    [|discriminate].
  rewrite bind_Ok in Hout. injection Hout as <-.
  destruct (related_loop_invariant ls anchor_ref max_per_cat ls [] grouped)
    as (Hok & Hle & Heq & Hlen); [done|done|constructor|].
  destruct (bucket_sizes_held grouped) as [Hsizes Hsum].
  rewrite Hsizes, Hsum. cbn in Hle, Heq, Hlen.
  split; [|split; [|split; [|split]]].
  - apply Forall_forall. intros n Hn.
    apply list_elem_of_In, in_map_iff in Hn as (kv & <- & Hkv).
    apply list_elem_of_In in Hkv. rewrite Forall_forall in Hok.
    by destruct (Hok kv Hkv) as (_ & Hb & _).
  - by rewrite length_map.
  - exact Hle.
  - exact Heq.
  - intros cat s (d & b & [= <-] & Hcat & Hs).
    apply list_elem_of_In, in_map_iff in Hcat as ([k b'] & [= -> ->] & Hkv).
    apply list_elem_of_In in Hkv. rewrite Forall_forall in Hok.
    destruct (Hok _ Hkv) as (Hh & _ & Hall). cbn [fst snd] in Hh, Hall.
    rewrite Forall_forall in Hall. destruct (Hall s Hs) as [Hraw Hc].
    by repeat split.
Qed.

Lemma related_sources_capped_witness :
  py_iter three_links
  = Ok [raw_link "Commentary" [u "Genesis 1:1"; u "Rashi on Genesis 1:1:1"];
        raw_link "Targum" [u "Onkelos Genesis 1:1"; u "Genesis 1:1"];
        raw_link "Commentary" [u "Ramban on Genesis 1:1:1"; u "Genesis 1:1"]]
  ∧ bucket_sizes
      (VDict [(VStr (u "Commentary"),
               VList [link_object (VStr (u "Commentary")) (VStr [])
                        (VStr (u "Rashi on Genesis 1:1:1")) (VStr (u "Genesis 1:1"))]);
              (VStr (u "Targum"),
               VList [link_object (VStr (u "Targum")) (VStr [])
                        (VStr (u "Onkelos Genesis 1:1")) (VStr (u "Genesis 1:1"))])])
    = [1%nat; 1%nat]
  ∧ Forall (λ n, (n ≤ Z.to_nat 1)%nat) [1%nat; 1%nat].
Proof.
  split; [reflexivity|]. split; [vm_compute; reflexivity|].
  refine (proj1 (related_sources_capped three_links (VStr (u "Genesis 1:1")) 1 _
    (VDict [(VStr (u "Commentary"),
             VList [link_object (VStr (u "Commentary")) (VStr [])
                      (VStr (u "Rashi on Genesis 1:1:1")) (VStr (u "Genesis 1:1"))]);
            (VStr (u "Targum"),
             VList [link_object (VStr (u "Targum")) (VStr [])
                      (VStr (u "Onkelos Genesis 1:1")) (VStr (u "Genesis 1:1"))])])
    eq_refl _)).
  vm_compute. reflexivity.
Defined.

End grouping_extras.

(** ** The title of a summary *)

Section title_extras.
Import Endpoints345.

(** [s.split()] has no word when [s] is whitespace only; else its first
    word is the first maximal run of other characters. *)
Lemma split_first (s : str) :
  match split s with
  | [] => forallb is_space s = true
  | w :: _ =>
      ∃ pre post, s = pre ++ w ++ post
        ∧ forallb is_space pre = true
        ∧ w ≠ [] ∧ forallb (λ c, negb (is_space c)) w = true
        ∧ match post with [] => True | c :: _ => is_space c = true end
  end.
Proof.
  induction s as [|c r IH]; [reflexivity|].
  cbn [split forallb]. destruct (is_space c) eqn:Hc.
  - destruct (split r) as [|w ws]; [exact IH|].
    destruct IH as (pre & post & -> & Hpre & Hw & Hw' & Hpost).
    exists (c :: pre), post. cbn [forallb]. by rewrite Hc, Hpre.
  - destruct r as [|d r'].
    + exists [], []. cbn [forallb]. by rewrite Hc.
    + destruct (is_space d) eqn:Hd.
      * exists [], (d :: r'). cbn [forallb]. by rewrite Hc.
      * destruct (split (d :: r')) as [|w ws].
        -- cbn [forallb] in IH. by rewrite Hd in IH.
        -- destruct IH as (pre & post & Hr & Hpre & Hw & Hw' & Hpost).
           destruct pre as [|p pre'].
           ++ exists [], post. cbn [app] in *. rewrite Hr.
              cbn [forallb]. by rewrite Hc, Hw'.
           ++ cbn [app forallb] in Hr, Hpre. injection Hr as <- _.
              by rewrite Hd in Hpre.
Qed.

(** X15: the title of a summary is the first truthy one of the text's
    [title], [book] and [indexTitle]; without any, it is [None] for the
    empty ref, the first whitespace-delimited word of a ref that has
    one, and an [IndexError] for a ref of whitespace only. *)
Theorem title_fallbacks (d : items) (ref : str) :
  let title := dict_get_default d (u "title") VNone in
  let book := dict_get_default d (u "book") VNone in
  let index_title := dict_get_default d (u "indexTitle") VNone in
  (truthy title = true → pick_title (VDict d) ref = Ok title)
  ∧ (truthy title = false → truthy book = true → pick_title (VDict d) ref = Ok book)
  ∧ (truthy title = false → truthy book = false → truthy index_title = true →
     pick_title (VDict d) ref = Ok index_title)
  ∧ (truthy title = false → truthy book = false → truthy index_title = false →
     match ref with
     | [] => pick_title (VDict d) ref = Ok VNone
     | _ =>
         if forallb is_space ref then pick_title (VDict d) ref = Raise IndexError
         else ∃ pre w post,
                ref = pre ++ w ++ post
                ∧ forallb is_space pre = true
                ∧ w ≠ [] ∧ forallb (λ c, negb (is_space c)) w = true
                ∧ match post with [] => True | c :: _ => is_space c = true end
                ∧ pick_title (VDict d) ref = Ok (VStr w)
     end).
Proof.
  intros title book index_title. unfold pick_title. cbn [py_get].
  rewrite !bind_Ok. fold title. fold book. fold index_title.
  split; [by intros ->|]. split; [by intros -> ->|].
  split; [by intros -> -> ->|]. intros -> -> ->.
  destruct ref as [|c r]; [reflexivity|].
  pose proof (split_first (c :: r)) as Hsplit.
  destruct (split (c :: r)) as [|w ws].
  - by rewrite Hsplit.
  - destruct Hsplit as (pre & post & Href & Hpre & Hw & Hw' & Hpost).
    destruct (forallb is_space (c :: r)) eqn:Hall.
    + exfalso. rewrite Href, !forallb_app in Hall.
      apply andb_true_iff in Hall as [_ Hall].
      apply andb_true_iff in Hall as [Hall _].
      destruct w as [|x w']; [done|]. cbn [forallb] in Hall, Hw'.
      apply andb_true_iff in Hall as [Hx _].
      apply andb_true_iff in Hw' as [Hx' _]. by rewrite Hx in Hx'.
    + by exists pre, w, post.
Qed.

Lemma title_fallbacks_witness :
  pick_title (VDict [(VStr (u "title"), VStr []); (VStr (u "book"), VStr (u "Genesis"))])
    (u "Genesis 1:1")
  = Ok (VStr (u "Genesis")).
Proof.
  apply (proj1 (proj2 (title_fallbacks
    [(VStr (u "title"), VStr []); (VStr (u "book"), VStr (u "Genesis"))]
    (u "Genesis 1:1")))); reflexivity.
Defined.

End title_extras.

(** ** main.py: the texts of a ref *)

Section ref_info_extras.
Import Endpoints345 Main SummarySpec RefInfoSpec.

Lemma dict_get_set_same {A} (d : list (value * A)) (k : value) (v : A) :
  py_eq k k = true → dict_get (dict_set d k v) k = Some v.
Proof.
  intros Hk. induction d as [|[k0 b0] d IH].
  - cbn [dict_set dict_get]. by rewrite Hk.
  - cbn [dict_set]. destruct (py_eq k0 k) eqn:Hk0; cbn [dict_get]; by rewrite Hk0.
Qed.

Lemma py_eq_str (k : value) (a : str) : py_eq k (VStr a) = true → k = VStr a.
Proof.
  destruct k as [| | |s| |]; try discriminate. cbn [py_eq].
  intros Hs. apply bool_decide_eq_true in Hs. by subst.
Qed.

Lemma dict_get_set_other {A} (d : list (value * A)) (a b : str) (v : A) :
  a ≠ b → dict_get (dict_set d (VStr a) v) (VStr b) = dict_get d (VStr b).
Proof.
  intros Hab.
  assert (Hne : py_eq (VStr a) (VStr b) = false).
  { cbn [py_eq]. by apply bool_decide_eq_false. }
  induction d as [|[k0 b0] d IH].
  - cbn [dict_set dict_get]. by rewrite Hne.
  - cbn [dict_set]. destruct (py_eq k0 (VStr a)) eqn:Hk0; cbn [dict_get].
    + apply py_eq_str in Hk0 as ->. by rewrite Hne.
    + by rewrite IH.
Qed.

Lemma legacy_fallback_error (client_get : str → reply) (ref : str) (d : items) (e : exn) :
  legacy_fallback client_get ref (VDict d) = Raise e →
  e = JSONDecodeError ∨ e = AttributeError.
Proof.
  unfold legacy_fallback. destruct (client_get (legacy_path ref)) as [|status body];
    [discriminate|].
  destruct (status =? 200)%Z; [|discriminate].
  destruct body as [legacy|]; [|intros [= <-]; by left].
  cbn [json]. rewrite bind_Ok.
  destruct (py_or legacy (VDict [])) as [| | | | |l]; try (intros [= <-]; by right).
  cbn [py_get py_setitem]. rewrite !bind_Ok.
  by destruct (_ || _).
Qed.

(** X16: the texts of a ref in [get_ref_info].  The v3 call is required:
    without a response its error is raised, and with another status than
    200 an [HTTPException] of that status.  A v3 answer with a text is
    returned as it is, whatever the legacy endpoint would say; one
    without is returned as it is when the legacy call fails, and has its
    [he] and [en] set from the legacy answer (whose English is [text]
    before [en]) when that has a text, its other fields kept.  What is
    returned is a dict, and the other errors are [JSONDecodeError] and
    [AttributeError]. *)
Theorem texts_required_with_fallback (client_get : str → reply) (ref : str) :
  (∀ e, fetch_texts client_get ref = Raise e →
     (client_get (texts_path ref) = NoReply ∧ e = HTTPError (texts_path ref))
     ∨ (∃ status body, client_get (texts_path ref) = Reply status body
          ∧ status ≠ 200%Z
          ∧ e = HTTPException status (u "Failed to fetch texts for ref " ++ ref))
     ∨ e = JSONDecodeError ∨ e = AttributeError)
  ∧ (failed (client_get (texts_path ref)) → ∃ e, fetch_texts client_get ref = Raise e)
  ∧ (∀ texts, fetch_texts client_get ref = Ok texts → ∃ d, texts = VDict d)
  ∧ (∀ body d,
       client_get (texts_path ref) = Reply 200 (Some body) →
       py_or body (VDict []) = VDict d →
       (primary_text d = true → fetch_texts client_get ref = Ok (VDict d))
       ∧ (primary_text d = false → failed (client_get (legacy_path ref)) →
          fetch_texts client_get ref = Ok (VDict d))
       ∧ (∀ legacy l,
            primary_text d = false →
            client_get (legacy_path ref) = Reply 200 (Some legacy) →
            py_or legacy (VDict []) = VDict l →
            if legacy_text l then
              ∃ d', fetch_texts client_get ref = Ok (VDict d')
                ∧ dict_get d' (VStr (u "he")) = Some (dict_get_default l (u "he") VNone)
                ∧ dict_get d' (VStr (u "en")) = Some (legacy_en l)
                ∧ ∀ k, k ≠ u "he" → k ≠ u "en" →
                    dict_get d' (VStr k) = dict_get d (VStr k)
            else fetch_texts client_get ref = Ok (VDict d))).
Proof.
  split; [|split; [|split]].
  - intros e. unfold fetch_texts.
    destruct (client_get (texts_path ref)) as [|status body];
      [intros [= <-]; by left|].
    destruct (status =? 200)%Z eqn:Hst; cbn [negb].
    + destruct body as [texts|]; [|intros [= <-]; right; right; by left].
      cbn [json]. rewrite bind_Ok.
      destruct (py_or texts (VDict [])) as [| | | | |d];
        try (intros [= <-]; right; right; by right).
      cbn [py_get]. rewrite !bind_Ok.
      destruct (_ && _); [|discriminate].
      intros He. apply legacy_fallback_error in He. tauto.
    + intros [= <-]. right. left. exists status, body.
      apply Z.eqb_neq in Hst. done.
  - unfold failed, fetch_texts.
    destruct (client_get (texts_path ref)) as [|status body]; [by eexists|].
    intros Hne. apply Z.eqb_neq in Hne. rewrite Hne. by eexists.
  - intros texts. unfold fetch_texts.
    destruct (client_get (texts_path ref)) as [|status body]; [discriminate|].
    destruct (status =? 200)%Z; [|discriminate]. cbn [negb].
    destruct body as [body|]; [|discriminate]. cbn [json]. rewrite bind_Ok.
    destruct (py_or body (VDict [])) as [| | | | |d]; try discriminate.
    cbn [py_get]. rewrite !bind_Ok.
    destruct (_ && _); [|intros [= <-]; by eexists].
    unfold legacy_fallback.
    destruct (client_get (legacy_path ref)) as [|status' body'];
      [intros [= <-]; by eexists|].
    destruct (status' =? 200)%Z; [|intros [= <-]; by eexists].
    destruct body' as [legacy|]; [|discriminate]. cbn [json]. rewrite bind_Ok.
    destruct (py_or legacy (VDict [])) as [| | | | |l]; try discriminate.
    cbn [py_get py_setitem]. rewrite !bind_Ok.
    destruct (_ || _); intros [= <-]; by eexists.
  - intros body d Hreply Hbody.
    assert (Hfetch : fetch_texts client_get ref
              = if primary_text d then Ok (VDict d)
                else legacy_fallback client_get ref (VDict d)).
    { unfold fetch_texts. rewrite Hreply. cbn [Z.eqb Pos.eqb negb json].
      rewrite bind_Ok, Hbody. cbn [py_get]. rewrite !bind_Ok.
      unfold primary_text. by rewrite <- negb_orb; destruct (_ || _). }
    rewrite Hfetch. split; [by intros ->|]. split.
    + intros -> Hfailed. unfold legacy_fallback, failed in *.
      destruct (client_get (legacy_path ref)) as [|status' body']; [done|].
      apply Z.eqb_neq in Hfailed. by rewrite Hfailed.
    + intros legacy l -> Hlegacy Hl. unfold legacy_fallback.
      rewrite Hlegacy. cbn [Z.eqb Pos.eqb json]. rewrite bind_Ok, Hl.
      cbn [py_get py_setitem]. rewrite !bind_Ok.
      unfold legacy_text, legacy_en.
      destruct (_ || _); [|done].
      eexists. split; [reflexivity|]. split; [|split].
      * rewrite dict_get_set_other by (by vm_compute).
        by apply dict_get_set_same.
      * by apply dict_get_set_same.
      * intros k Hhe Hen. by rewrite !dict_get_set_other by done.
Qed.

Lemma texts_required_with_fallback_witness :
  ∃ d', fetch_texts legacy_client (u "Genesis 1:1") = Ok (VDict d')
    ∧ dict_get d' (VStr (u "he")) = Some (VList [VStr (u "בראשית")])
    ∧ dict_get d' (VStr (u "en")) = Some VNone
    ∧ ∀ k, k ≠ u "he" → k ≠ u "en" →
        dict_get d' (VStr k)
        = dict_get [(VStr (u "ref"), VStr (u "Genesis 1:1"))] (VStr k).
Proof.
  refine (proj2 (proj2 (proj2 (proj2 (proj2
    (texts_required_with_fallback legacy_client (u "Genesis 1:1"))))
    (VDict [(VStr (u "ref"), VStr (u "Genesis 1:1"))])
    [(VStr (u "ref"), VStr (u "Genesis 1:1"))] _ _))
    (VDict [(VStr (u "he"), VList [VStr (u "בראשית")])])
    [(VStr (u "he"), VList [VStr (u "בראשית")])] _ _ _);
    vm_compute; reflexivity.
Defined.

Lemma best_effort_error (client_get : str → reply) (path : str) (fallback : value)
    (e : exn) :
  best_effort client_get path fallback = Raise e →
  e = JSONDecodeError ∧ client_get path = Reply 200 None.
Proof.
  unfold best_effort. destruct (client_get path) as [|status body]; [discriminate|].
  destruct (status =? 200)%Z eqn:Hst; [|discriminate].
  apply Z.eqb_eq in Hst as ->. destruct body; [discriminate|].
  by intros [= <-].
Qed.

Lemma best_effort_returns (client_get : str → reply) (path : str) (fallback : value) :
  client_get path ≠ Reply 200 None → ∃ v, best_effort client_get path fallback = Ok v.
Proof.
  unfold best_effort. destruct (client_get path) as [|status body]; [by eexists|].
  destruct (status =? 200)%Z eqn:Hst; [|by eexists].
  apply Z.eqb_eq in Hst as ->. destruct body; [by eexists|done].
Qed.

(** X17: when [get_ref_info] fails.  It raises what the texts part
    raises; past that, the only failure is an optional call (links,
    topics, related) answered with status 200 and a body that is no
    JSON, which raises [JSONDecodeError]: the recovery covers missing
    responses and other statuses only.  In every other case the five
    fields are returned. *)
Theorem ref_info_failures (client_get : str → reply) (ref : str) :
  let optional := [links_path ref; topics_path ref; related_path ref] in
  (∀ e, get_ref_info client_get ref = Raise e →
     fetch_texts client_get ref = Raise e
     ∨ (e = JSONDecodeError
        ∧ ∃ path, path ∈ optional ∧ client_get path = Reply 200 None))
  ∧ (∀ texts, fetch_texts client_get ref = Ok texts →
       (∀ path, path ∈ optional → client_get path ≠ Reply 200 None) →
       ∃ links topics related,
         get_ref_info client_get ref = Ok (ref_info ref texts links topics related))
  ∧ (∀ texts, fetch_texts client_get ref = Ok texts →
       client_get (links_path ref) = Reply 200 None →
       get_ref_info client_get ref = Raise JSONDecodeError).
Proof.
  intros optional. unfold get_ref_info. split; [|split].
  - intros e. destruct (fetch_texts client_get ref) as [texts|e']; [|by left].
    rewrite bind_Ok.
    destruct (best_effort client_get (links_path ref) (VList [])) as [links|e1] eqn:H1.
    2:{ intros [= <-]. apply best_effort_error in H1 as [-> H1]. right.
        split; [done|]. exists (links_path ref). split; [|done].
        unfold optional. set_solver. }
    rewrite bind_Ok.
    destruct (best_effort client_get (topics_path ref) (VList [])) as [topics|e2] eqn:H2.
    2:{ intros [= <-]. apply best_effort_error in H2 as [-> H2]. right.
        split; [done|]. exists (topics_path ref). split; [|done].
        unfold optional. set_solver. }
    rewrite bind_Ok.
    destruct (best_effort client_get (related_path ref) (VDict [])) as [related|e3] eqn:H3.
    2:{ intros [= <-]. apply best_effort_error in H3 as [-> H3]. right.
        split; [done|]. exists (related_path ref). split; [|done].
        unfold optional. set_solver. }
    discriminate.
  - intros texts -> Hopt. rewrite bind_Ok.
    destruct (best_effort_returns client_get (links_path ref) (VList []))
      as [links ->]; [apply Hopt; unfold optional; set_solver|].
    destruct (best_effort_returns client_get (topics_path ref) (VList []))
      as [topics ->]; [apply Hopt; unfold optional; set_solver|].
    destruct (best_effort_returns client_get (related_path ref) (VDict []))
      as [related ->]; [apply Hopt; unfold optional; set_solver|].
    by exists links, topics, related.
  - intros texts -> Hlinks. rewrite bind_Ok.
    assert (Hbest : best_effort client_get (links_path ref) (VList [])
              = Raise JSONDecodeError).
    { unfold best_effort. by rewrite Hlinks. }
    by rewrite Hbest.
Qed.

Lemma ref_info_failures_witness :
  get_ref_info (client (ok bold_text) (Reply 200 None) (ok two_topics) NoReply)
    genesis_1_1
  = Raise JSONDecodeError.
Proof.
  apply (proj2 (proj2 (ref_info_failures
    (client (ok bold_text) (Reply 200 None) (ok two_topics) NoReply) genesis_1_1))
    bold_text); vm_compute; reflexivity.
Defined.

End ref_info_extras.

(** ** tree_of_life.py: the cache of the index *)

Section cache_extras.
Import IndexCache.



End cache_extras.

(** ** 1-find-refs/neat_helper.py: polling *)

Section polling_extras.
Import Endpoints345 NeatHelper.







End polling_extras.

(** ** 1-find-refs/neat_helper.py: the citation candidates *)

Section candidate_extras.
Import Endpoints345 NeatHelper.

Lemma gather_length {A B} (f : A → result (list B)) (xs : list A) (ys : list B) :
  (∀ x zs, f x = Ok zs → (1 ≤ length zs)%nat) →
  gather f xs = Ok ys → (length xs ≤ length ys)%nat.
Proof.
  intros Hf. revert ys. induction xs as [|x xs IH]; intros ys Hys.
  - cbn. lia.
  - cbn [gather] in Hys. destruct (f x) as [zs|e] eqn:Hx; [|discriminate].
    rewrite bind_Ok in Hys. destruct (gather f xs) as [ys'|e]; [|discriminate].
    rewrite bind_Ok in Hys. injection Hys as <-.
    specialize (Hf _ _ Hx). specialize (IH _ eq_refl).
    rewrite length_app. cbn [length]. lia.
Qed.

Lemma gather_raises {A B} (f : A → result (list B)) (xs : list A) (e : exn) :
  gather f xs = Raise e → ∃ x, x ∈ xs ∧ f x = Raise e.
Proof.
  induction xs as [|x xs IH]; [discriminate|].
  cbn [gather]. destruct (f x) as [zs|e'] eqn:Hx.
  - rewrite bind_Ok. destruct (gather f xs) as [ys|e'']; [discriminate|].
    intros [= ->]. destruct (IH eq_refl) as (y & Hy & Hfy).
    exists y. split; [by right|done].
  - intros [= ->]. exists x. split; [left|done].
Qed.

(** The candidates of one entry: one per ref, resolved, or a single
    unresolved one without a ref; all with the entry's text and span. *)
Lemma candidates_of_entry (r : value) (cs : list value) :
  candidates_of r = Ok cs →
  ∃ d, r = VDict d
    ∧ (1 ≤ length cs)%nat
    ∧ Forall (λ c, ∃ ref status,
                c = candidate (dict_get_default d (u "text") VNone) ref
                      (dict_get_default d (u "startChar") VNone)
                      (dict_get_default d (u "endChar") VNone) status
                ∧ ((status = "unresolved"%string ∧ ref = VNone
                    ∧ truthy (dict_get_default d (u "refs") VNone) = false)
                   ∨ (status = "resolved"%string
                      ∧ ∃ refs, py_iter (dict_get_default d (u "refs") VNone) = Ok refs
                                ∧ ref ∈ refs))) cs.
Proof.
  unfold candidates_of. destruct r as [| | | | |d]; try discriminate.
  cbn [py_get]. rewrite !bind_Ok. intros Hcs. exists d. split; [done|].
  unfold py_or in Hcs.
  destruct (truthy (dict_get_default d (u "refs") VNone)) eqn:Hrefs.
  - rewrite Hrefs in Hcs.
    destruct (py_iter (dict_get_default d (u "refs") VNone)) as [trefs|e] eqn:Hiter;
      [|discriminate].
    rewrite bind_Ok in Hcs. injection Hcs as <-. split.
    + rewrite length_map.
      destruct (dict_get_default d (u "refs") VNone) as [| | |[|c s]|[|x l]|[|kv d']];
        try discriminate; injection Hiter as <-; cbn; lia.
    + apply Forall_forall. intros c Hc.
      apply list_elem_of_In, in_map_iff in Hc as (tref & <- & Htref).
      apply list_elem_of_In in Htref.
      exists tref, "resolved"%string. split; [done|]. right. split; [done|].
      by exists trefs.
  - cbn [truthy] in Hcs. injection Hcs as <-. split; [cbn; lia|].
    constructor; [|constructor].
    exists VNone, "unresolved"%string. split; [done|]. by left.
Qed.

(** X21: the citation candidates of [find_explicit_refs].  Every entry
    of the results gives at least one candidate, so that there are at
    least as many candidates as entries; a candidate has the text and
    the span of its entry, and is either unresolved, without a ref,
    from an entry whose [refs] is falsy, or resolved, with one of the
    refs of its entry.  The step raises [AttributeError] or [TypeError]
    only. *)
Theorem citation_candidates (result_ : value) :
  (∀ body results rs output,
     py_get result_ (u "body") (VDict []) = Ok body →
     py_get body (u "results") (VList []) = Ok results →
     py_iter results = Ok rs →
     extract_candidates result_ = Ok output →
     (length rs ≤ length output)%nat
     ∧ Forall (λ c, ∃ d ref status,
                 VDict d ∈ rs
                 ∧ c = candidate (dict_get_default d (u "text") VNone) ref
                         (dict_get_default d (u "startChar") VNone)
                         (dict_get_default d (u "endChar") VNone) status
                 ∧ ((status = "unresolved"%string ∧ ref = VNone
                     ∧ truthy (dict_get_default d (u "refs") VNone) = false)
                    ∨ (status = "resolved"%string
                       ∧ ∃ refs, py_iter (dict_get_default d (u "refs") VNone) = Ok refs
                                 ∧ ref ∈ refs))) output)
  ∧ (∀ e, extract_candidates result_ = Raise e → e = AttributeError ∨ e = TypeError).
Proof.
  split.
  - intros body results rs output Hbody Hresults Hrs. unfold extract_candidates.
    rewrite Hbody, bind_Ok, Hresults, bind_Ok, Hrs, bind_Ok. intros Hgather.
    split.
    + eapply gather_length; [|exact Hgather].
      intros r cs Hcs. by destruct (candidates_of_entry r cs Hcs) as (d & _ & Hlen & _).
    + clear Hrs. revert output Hgather.
      induction rs as [|r rs IH]; intros output Hgather.
      * injection Hgather as <-. constructor.
      * cbn [gather] in Hgather.
        destruct (candidates_of r) as [cs|e] eqn:Hr; [|discriminate].
        rewrite bind_Ok in Hgather.
        destruct (gather candidates_of rs) as [rest|e]; [|discriminate].
        rewrite bind_Ok in Hgather. injection Hgather as <-.
        apply Forall_app. split.
        -- destruct (candidates_of_entry r cs Hr) as (d & -> & _ & Hall).
           eapply Forall_impl; [exact Hall|].
           intros c (ref & status & Hc & Hcase). exists d, ref, status.
           split; [left|]. done.
        -- eapply Forall_impl; [exact (IH rest eq_refl)|].
           intros c (d & ref & status & Hd & Hc). exists d, ref, status.
           split; [by right|done].
  - intros e. unfold extract_candidates.
    destruct (py_get result_ (u "body") (VDict [])) as [body|e1] eqn:Hbody.
    2:{ intros [= <-]. left. destruct result_; cbn [py_get] in Hbody; congruence. }
    rewrite bind_Ok.
    destruct (py_get body (u "results") (VList [])) as [results|e2] eqn:Hresults.
    2:{ intros [= <-]. left. destruct body; cbn [py_get] in Hresults; congruence. }
    rewrite bind_Ok.
    destruct (py_iter results) as [rs|e3] eqn:Hrs.
    2:{ intros [= <-]. right. by apply py_iter_error in Hrs. }
    rewrite bind_Ok. intros Hgather.
    apply gather_raises in Hgather as (r & _ & Hr).
    unfold candidates_of in Hr. destruct r as [| | | | |d];
      try (injection Hr as <-; by left).
    cbn [py_get] in Hr. rewrite !bind_Ok in Hr.
    destruct (truthy (py_or (dict_get_default d (u "refs") VNone) (VList [])));
      [|discriminate].
    destruct (py_iter (py_or (dict_get_default d (u "refs") VNone) (VList [])))
      as [trefs|e4] eqn:Hiter; [rewrite bind_Ok in Hr; discriminate|].
    injection Hr as <-. right. by apply py_iter_error in Hiter.
Qed.

Lemma citation_candidates_witness :
  (2 ≤ length [candidate (VStr (u "Genesis 1:1")) (VStr (u "Genesis 1:1"))
                 (VInt 0) (VInt 11) "resolved";
               candidate (VStr (u "ibid.")) VNone (VInt 20) (VInt 25) "unresolved"])%nat.
Proof.
  refine (proj1 (proj1 (citation_candidates linker_result)
    _ _ [_; _] _ eq_refl eq_refl eq_refl _)).
  vm_compute. reflexivity.
Defined.

End candidate_extras.


Section find_refs_extras.
Import Endpoints345 NeatHelper.




End find_refs_extras.

(** ** tree_of_life.py: the ASCII preview *)

Section ascii_extras.
Import TreeOfLife TreeShape AsciiTree.

Example tanakh_preview :
  _print_ascii_tree tanakh 3
  = ([VStr (u "Tanakh");
      VStr (u "├─ Torah");
      VStr (u "│  ├─ Genesis");
      VStr (u "│  └─ Exodus");
      VStr (u "└─ Prophets")], None).
Proof. vm_compute. reflexivity. Qed.












End ascii_extras.

(** ** endpoints3+4+5demo.py: the summary as a whole *)

Section summary_extras.
Import Endpoints345 CleanSpec LinkSpec SummaryShape.

Lemma clean_line_forms (html5 : list (str * str)) (line y : value) :
  clean_line html5 line = Ok (Some y) → clean_line_form y.
Proof.
  unfold clean_line. destruct (truthy line); [|discriminate].
  destruct line as [| | |s| |]; try discriminate. intros [= <-].
  exists (clean_he_string html5 s). split; [done|].
  unfold clean_he_string, NeatTextFetch.clean_he_string. cbv zeta. split.
  - rewrite has_tag_angles.
    rewrite <- filter_angle_nonspace, collapse_keeps, filter_angle_nonspace.
    rewrite filter_angle_replace, <- has_tag_angles. apply tag_sub_no_tag.
  - by rewrite split_join by apply split_words.
Qed.

Lemma related_buckets_capped (links anchor_ref : value) (max_per_cat : Z) (out : value) :
  build_related_by_category links anchor_ref max_per_cat = Ok out →
  Forall (λ n, (n ≤ Z.to_nat max_per_cat)%nat) (bucket_sizes out).
Proof.
  unfold build_related_by_category.
  destruct (py_iter links) as [ls|e]; [|discriminate]. rewrite bind_Ok.
  destruct (related_loop ls anchor_ref max_per_cat []) as [grouped|e] eqn:Hloop;
    [|discriminate].
  rewrite bind_Ok. intros [= <-].
  destruct (related_loop_invariant ls anchor_ref max_per_cat ls [] grouped)
    as (Hok & _); [done|done|constructor|].
  destruct (bucket_sizes_held grouped) as [-> _].
  apply Forall_forall. intros n Hn.
  apply list_elem_of_In, in_map_iff in Hn as (kv & <- & Hkv).
  apply list_elem_of_In in Hkv. rewrite Forall_forall in Hok.
  by destruct (Hok kv Hkv) as (_ & Hb & _).
Qed.

(** X24: what holds of every summary that [build_ref_summary] returns.
    Its cleaned lines are at most as many as its raw lines, and each is
    a str in the cleaner's normal form; its topic ids are different,
    none is the excluded one, and they are, in order, the ids of its
    topic objects; and none of its categories of related sources has
    more than [max_links_per_category] links. *)
Theorem summary_invariants (html5 : list (str * str)) (requests_get : str → items → reply)
    (ref lang : str) (context : Z) (version : value) (max_links_per_category : Z)
    (summary : value) :
  build_ref_summary html5 requests_get ref lang context version max_links_per_category
  = Ok summary →
  ∃ raw cleaned ids objects,
    field "raw" (field "text" summary) = VList raw
    ∧ field "cleaned" (field "text" summary) = VList cleaned
    ∧ (length cleaned ≤ length raw)%nat
    ∧ Forall clean_line_form cleaned
    ∧ field "ids" (field "topics" summary) = VList (VStr <$> ids)
    ∧ field "objects" (field "topics" summary) = VList objects
    ∧ topic_object_id <$> objects = ids
    ∧ NoDup ids
    ∧ (∀ i, i ∈ ids → i ∉ BLACKLISTED_TOPIC_IDS)
    ∧ Forall (λ n, (n ≤ Z.to_nat max_links_per_category)%nat)
        (bucket_sizes (field "relatedSourcesByCategory" summary)).
Proof.
  intros Hsummary.
  apply build_ref_summary_returns in Hsummary
    as (text_data & links_data & topics_raw & title & raw & cleaned & anchor_ref
        & related & objects & _ & _ & _ & _ & _ & Hcleaned & _ & Hrelated & Hobjects
        & ->).
  exists (normalize_lines raw), cleaned, (extract_topic_slugs topics_raw), objects.
  split; [reflexivity|]. split; [reflexivity|].
  split; [by eapply collect_length|].
  split.
  { eapply collect_Forall; [|exact Hcleaned].
    apply Forall_forall. intros line _ y. apply clean_line_forms. }
  split; [reflexivity|]. split; [reflexivity|].
  assert (Hids : topic_object_id <$> objects = extract_topic_slugs topics_raw).
  { destruct topics_raw as [| | | |l|]; try by injection Hobjects as <-.
    cbn [extract_topic_objects extract_topic_slugs] in *.
    destruct (topics l) as [ts|e] eqn:Hts; [|discriminate].
    rewrite bind_Ok in Hobjects. injection Hobjects as <-.
    rewrite dedupe_fmap. f_equal. by apply topics_ids_345. }
  split; [exact Hids|].
  assert (Hslugs : NoDup (extract_topic_slugs topics_raw)
            ∧ ∀ i, i ∈ extract_topic_slugs topics_raw → i ∉ BLACKLISTED_TOPIC_IDS).
  { destruct topics_raw as [| | | |l|];
      try (split; [constructor|intros i Hi; by apply elem_of_nil in Hi]).
    cbn [extract_topic_slugs].
    destruct (dedupe_keys id ∅ (slugs l)) as [Hnd Hel].
    split; [by rewrite list_fmap_id in Hnd|].
    intros i Hi. destruct (Hel i Hi) as [_ Hin].
    rewrite slugs_filter in Hin. by apply list_elem_of_filter in Hin as [Hout _]. }
  destruct Hslugs as [Hnd Hout]. split; [exact Hnd|]. split; [exact Hout|].
  by eapply related_buckets_capped.
Qed.

Lemma summary_invariants_witness :
  ∃ summary,
    SummarySpec.summarize
      (SummarySpec.gateway (SummarySpec.ok SummarySpec.bold_text)
         (SummarySpec.ok SummarySpec.two_links) (SummarySpec.ok SummarySpec.two_topics))
    = Ok summary
    ∧ ∃ raw cleaned ids objects,
        field "raw" (field "text" summary) = VList raw
        ∧ field "cleaned" (field "text" summary) = VList cleaned
        ∧ (length cleaned ≤ length raw)%nat
        ∧ Forall clean_line_form cleaned
        ∧ field "ids" (field "topics" summary) = VList (VStr <$> ids)
        ∧ field "objects" (field "topics" summary) = VList objects
        ∧ topic_object_id <$> objects = ids
        ∧ NoDup ids
        ∧ (∀ i, i ∈ ids → i ∉ BLACKLISTED_TOPIC_IDS)
        ∧ Forall (λ n, (n ≤ Z.to_nat 5)%nat)
            (bucket_sizes (field "relatedSourcesByCategory" summary)).
Proof.
  eexists. split; [vm_compute; reflexivity|].
  apply (summary_invariants html5_rows
           (SummarySpec.gateway (SummarySpec.ok SummarySpec.bold_text)
              (SummarySpec.ok SummarySpec.two_links)
              (SummarySpec.ok SummarySpec.two_topics))
           SummarySpec.genesis_1_1 (u "he") 0 VNone 5).
  vm_compute. reflexivity.
Defined.

End summary_extras.

(** ** The two tag strippers *)

Section stripper_extras.
Import ImplicitNeat.

Lemma strip_from_tag_sub (s : str) :
  ∀ in_tag, has_empty_tag s = false → strip_from in_tag s = tag_sub in_tag s.
Proof.
  induction s as [|c r IH]; intros in_tag Hs; [reflexivity|].
  cbn [has_empty_tag] in Hs. apply orb_false_iff in Hs as [Hc Hr].
  cbn [strip_from tag_sub]. destruct in_tag.
  - destruct (c =? GT); by apply IH.
  - destruct (c =? LT) eqn:Hlt; cbn [andb] in *.
    + destruct r as [|d r']; [reflexivity|].
      rewrite Hc. cbn [negb andb existsb].
      assert (Hd : (GT =? d) = false) by (by rewrite N.eqb_sym).
      rewrite Hd. cbn [orb].
      destruct (existsb (N.eqb GT) r'); [by apply IH|].
      f_equal. by apply IH.
    + f_equal. by apply IH.
Qed.

(** X25: the tag stripper of implicit_neat.py ([<[^>]+>]) and the one of
    the text cleaner ([<.*?>]) give the same string for every input
    without the empty tag [<>]; they differ on the empty tag, which the
    first keeps and the second removes. *)
Theorem strippers_agree :
  (∀ s : str, has_empty_tag s = false → _strip_html s = tag_sub false s)
  ∧ (∀ a b : str,
       LT ∉ a →
       _strip_html (a ++ LT :: GT :: b) = a ++ LT :: GT :: _strip_html b
       ∧ tag_sub false (a ++ LT :: GT :: b) = a ++ tag_sub false b).
Proof.
  split; [intros s; apply strip_from_tag_sub|].
  intros a b Ha. unfold _strip_html. induction a as [|c a IH].
  - split; [reflexivity|]. cbn [app tag_sub]. by rewrite N.eqb_refl.
  - apply not_elem_of_cons in Ha as [Hc Ha]. destruct (IH Ha) as [IH1 IH2].
    apply not_eq_sym, N.eqb_neq in Hc.
    cbn [app strip_from tag_sub]. rewrite Hc. cbn [andb]. by rewrite IH1, IH2.
Qed.

Lemma strippers_agree_witness :
  _strip_html (u "a <b>bold</b> &lt; c") = tag_sub false (u "a <b>bold</b> &lt; c").
Proof.
  apply (proj1 strippers_agree). vm_compute. reflexivity.
Defined.

End stripper_extras.
